(** * Beds24 booking reports: the core of [main.py] in Rocq

    A shallow embedding of the booking categorisation, record parsing,
    fetch de-duplication and token life cycle of [main.py], and the
    properties its specification states about them.  Further properties
    follow, of the same code and of the requests for bookings, the parsing
    of all fetched records, the guest totals of the report headings and the
    rows of the report tables.

    Python data is modelled as follows.
    - [str] is [string]; a character stands for a code point below 256,
      so that character order is code-point order.
    - [int] is [Z]; JSON numbers with a fraction (Python [float]) are not
      part of the model.
    - a JSON object read as a [dict] is a [gmap string value] where the
      code only looks keys up, and an ordered list of items where its
      text form is needed.
    - a raised exception is the [Err] side of [result]. *)

From Stdlib Require Import ZArith NArith String Ascii List Bool Lia.
From Stdlib Require Import Sorted Permutation DecimalString.
From stdpp Require Import base option list strings gmap.

#[local] Set Warnings "-register-all".
#[local] Open Scope string_scope.
#[local] Open Scope list_scope.
#[local] Open Scope Z_scope.

(** ** Exceptions and results *)

Inductive exn : Type :=
  | TypeError
  | ValueError
  | KeyError
  | OverflowError
  | RequestException (text : string)
  | OtherException (text : string).

Inductive result (A : Type) : Type :=
  | OK (a : A)
  | Err (e : exn).
Arguments OK {A} a.
Arguments Err {A} e.

Definition bind {A B : Type} (r : result A) (k : A -> result B) : result B :=
  match r with
  | OK a => k a
  | Err e => Err e
  end.

Notation "'try!' x ':=' r 'in' k" := (bind r (fun x => k))
  (at level 10, x name, r at level 100, k at level 200,
   format "'[v' 'try!'  x  :=  r  'in' '/' k ']'").

Definition is_ok {A : Type} (r : result A) : bool :=
  match r with OK _ => true | Err _ => false end.

(** ** Python values as [json.load] produces them *)

Inductive value : Type :=
  | VNone
  | VBool (b : bool)
  | VInt (z : Z)
  | VStr (s : string)
  | VList (items : list value)
  | VDict (items : list (string * value)).

(** A JSON object whose keys are only looked up. *)
Abbreviation record := (gmap string value).

(** [d.get(key, default)] *)
Definition dict_get (d : record) (key : string) (default : value) : value :=
  match d !! key with
  | Some v => v
  | None => default
  end.

(** Truth value of an object in a condition. *)
Definition truthy (v : value) : bool :=
  match v with
  | VNone => false
  | VBool b => b
  | VInt z => negb (z =? 0)
  | VStr s => negb (String.eqb s "")
  | VList l => match l with [] => false | _ => true end
  | VDict l => match l with [] => false | _ => true end
  end.

(** Objects that can be hashed, hence used in a [set] or as (part of) a
    [dict] key.  Equal objects have one key: [True == 1] and [False == 0]. *)
Inductive pykey : Type :=
  | KNone
  | KInt (z : Z)
  | KStr (s : string).

Definition hash_key (v : value) : result pykey :=
  match v with
  | VNone => OK KNone
  | VBool b => OK (KInt (if b then 1 else 0))
  | VInt z => OK (KInt z)
  | VStr s => OK (KStr s)
  | VList _ | VDict _ => Err TypeError
  end.

Definition pykey_code (k : pykey) : option (Z + string) :=
  match k with
  | KNone => None
  | KInt z => Some (inl z)
  | KStr s => Some (inr s)
  end.

Definition pykey_decode (c : option (Z + string)) : pykey :=
  match c with
  | None => KNone
  | Some (inl z) => KInt z
  | Some (inr s) => KStr s
  end.

#[global] Instance pykey_eq_dec : EqDecision pykey.
Proof. solve_decision. Defined.

#[global] Instance pykey_countable : Countable pykey.
Proof.
  apply (inj_countable' pykey_code pykey_decode).
  intros []; reflexivity.
Defined.

(** ** Characters *)

Definition code (c : ascii) : N := N_of_ascii c.

Definition is_digit (c : ascii) : bool :=
  ((48 <=? code c) && (code c <=? 57))%N.

Definition digit_value (c : ascii) : Z := Z.of_N (code c) - 48.

(** White space that [int()] skips around a number. *)
Definition is_int_space (c : ascii) : bool :=
  (((9 <=? code c) && (code c <=? 13)) || (code c =? 32)
   || (code c =? 133) || (code c =? 160))%N.

(** White space that [str.strip()] removes. *)
Definition is_space (c : ascii) : bool :=
  (is_int_space c || ((28 <=? code c) && (code c <=? 31)))%N.

Definition chars (s : string) : list ascii := list_ascii_of_string s.
Definition text (l : list ascii) : string := string_of_list_ascii l.

Fixpoint lstrip (sp : ascii -> bool) (l : list ascii) : list ascii :=
  match l with
  | c :: l' => if sp c then lstrip sp l' else l
  | [] => []
  end.

Definition strip_by (sp : ascii -> bool) (s : string) : string :=
  text (rev (lstrip sp (rev (lstrip sp (chars s))))).

(** [s.strip()] *)
Definition strip (s : string) : string := strip_by is_space s.

(** ** [int()] and [str()] *)

(** The digits of a decimal literal; an underscore may stand between two
    digits. *)
Fixpoint int_digits (acc : Z) (after_digit : bool) (l : list ascii) : result Z :=
  match l with
  | [] => if after_digit then OK acc else Err ValueError
  | c :: l' =>
      if is_digit c then int_digits (10 * acc + digit_value c) true l'
      else if Ascii.eqb c "_" && after_digit then int_digits acc false l'
      else Err ValueError
  end.

(** [int(s)] for a string: surrounding white space, a sign, digits.  The
    interpreter's cap on the number of digits is not modelled. *)
Definition int_of_str (s : string) : result Z :=
  match chars (strip_by is_int_space s) with
  | c :: l =>
      if Ascii.eqb c "-" then try! n := int_digits 0 false l in OK (- n)
      else if Ascii.eqb c "+" then int_digits 0 false l
      else int_digits 0 false (c :: l)
  | [] => Err ValueError
  end.

(** [int(v)] *)
Definition py_int (v : value) : result Z :=
  match v with
  | VNone => Err TypeError
  | VBool b => OK (if b then 1 else 0)
  | VInt z => OK z
  | VStr s => int_of_str s
  | VList _ | VDict _ => Err TypeError
  end.

(** [str(z)] for an integer. *)
Definition str_of_int (z : Z) : string := NilZero.string_of_int (Z.to_int z).

Definition quote1 : ascii := "'".
Definition quote2 : ascii := ascii_of_N 34.
Definition backslash : ascii := "\".

Definition hex_digit (n : N) : ascii :=
  match String.get (N.to_nat n) "0123456789abcdef" with
  | Some c => c
  | None => "0"
  end.

Definition printable (c : ascii) : bool :=
  (((32 <=? code c) && (code c <=? 126))
   || ((161 <=? code c) && negb (code c =? 173)))%N.

(** One character inside the quotes of [repr(s)]. *)
Definition repr_char (quote c : ascii) : list ascii :=
  if Ascii.eqb c quote || Ascii.eqb c backslash then [backslash; c]
  else if (code c =? 9)%N then [backslash; "t"%char]
  else if (code c =? 10)%N then [backslash; "n"%char]
  else if (code c =? 13)%N then [backslash; "r"%char]
  else if printable c then [c]
  else [backslash; "x"%char; hex_digit (code c / 16); hex_digit (code c mod 16)].

(** [repr(s)] for a string: single quotes unless the text has a single
    quote and no double quote. *)
Definition repr_str (s : string) : string :=
  let l := chars s in
  let quote :=
    if existsb (Ascii.eqb quote1) l && negb (existsb (Ascii.eqb quote2) l)
    then quote2 else quote1 in
  text (quote :: flat_map (repr_char quote) l ++ [quote]).

Fixpoint join (sep : string) (l : list string) : string :=
  match l with
  | [] => ""
  | [s] => s
  | s :: l' => s +:+ sep +:+ join sep l'
  end.

(** [repr(v)] *)
Fixpoint py_repr (v : value) : string :=
  match v with
  | VNone => "None"
  | VBool b => if b then "True" else "False"
  | VInt z => str_of_int z
  | VStr s => repr_str s
  | VList l => "[" +:+ join ", " (map py_repr l) +:+ "]"
  | VDict l =>
      "{" +:+ join ", " (map (fun kv => repr_str (fst kv) +:+ ": " +:+ py_repr (snd kv)) l)
      +:+ "}"
  end.

(** [str(v)], also what an f-string puts for [{v}]. *)
Definition py_str (v : value) : string :=
  match v with
  | VStr s => s
  | _ => py_repr v
  end.

(** ** Dates ([datetime] module) *)

Record date : Type := mk_date { year : Z; month : Z; day : Z }.

Record datetime : Type := mk_datetime {
  dt_date : date; hour : Z; minute : Z; second : Z; microsecond : Z }.

Record timedelta : Type := mk_timedelta {
  days : Z; seconds : Z; microseconds : Z }.

Definition is_leap (y : Z) : bool :=
  (y mod 4 =? 0) && (negb (y mod 100 =? 0) || (y mod 400 =? 0)).

Definition days_before_year (y : Z) : Z :=
  let y := y - 1 in y * 365 + y / 4 - y / 100 + y / 400.

Definition DAYS_IN_MONTH : list Z :=
  [31; 28; 31; 30; 31; 30; 31; 31; 30; 31; 30; 31].

Definition days_in_month (y m : Z) : Z :=
  if (m =? 2) && is_leap y then 29
  else nth (Z.to_nat (m - 1)) DAYS_IN_MONTH 0.

Definition days_before_month (y m : Z) : Z :=
  fold_right Z.add 0 (firstn (Z.to_nat (m - 1)) DAYS_IN_MONTH)
  + (if (2 <? m) && is_leap y then 1 else 0).

(** [d.toordinal()] *)
Definition toordinal (d : date) : Z :=
  days_before_year (year d) + days_before_month (year d) (month d) + day d.

(** [date(y, m, d)]: the constructor checks its arguments. *)
Definition new_date (y m d : Z) : result date :=
  if (1 <=? y) && (y <=? 9999) && (1 <=? m) && (m <=? 12)
     && (1 <=? d) && (d <=? days_in_month y m)
  then OK (mk_date y m d)
  else Err ValueError.

(** [timedelta(days, seconds, microseconds)] brings its fields in range. *)
Definition new_timedelta (d s us : Z) : timedelta :=
  let s := s + us / 1000000 in
  mk_timedelta (d + s / 86400) (s mod 86400) (us mod 1000000).

(** [a - b] on two [date]s. *)
Definition date_sub (a b : date) : timedelta :=
  new_timedelta (toordinal a - toordinal b) 0 0.

(** [a - b] on two [datetime]s. *)
Definition datetime_sub (a b : datetime) : timedelta :=
  let secs (x : datetime) := second x + minute x * 60 + hour x * 3600 in
  new_timedelta (toordinal (dt_date a) - toordinal (dt_date b))
                (secs a - secs b) (microsecond a - microsecond b).

(** Dates compare as their (year, month, day) triples. *)
Definition date_eqb (a b : date) : bool :=
  (year a =? year b) && (month a =? month b) && (day a =? day b).

Definition date_ltb (a b : date) : bool :=
  (year a <? year b)
  || ((year a =? year b)
      && ((month a <? month b) || ((month a =? month b) && (day a <? day b)))).

(** *** [datetime.strptime(s, '%Y-%m-%d')]

    The format is turned into the regular expression
    [(\d\d\d\d)-(1[0-2]|0[1-9]|[1-9])-(3[01]|[12]\d|0[1-9]|[1-9]| [1-9])],
    matched at the start of the text; text left over is an error. *)

Definition in_range (lo hi : N) (c : ascii) : bool :=
  ((lo <=? code c) && (code c <=? hi))%N.

(** [\d\d\d\d] *)
Definition match_year (l : list ascii) : option (Z * list ascii) :=
  match l with
  | a :: b :: c :: d :: rest =>
      if is_digit a && is_digit b && is_digit c && is_digit d
      then Some (((digit_value a * 10 + digit_value b) * 10 + digit_value c) * 10
                 + digit_value d, rest)
      else None
  | _ => None
  end.

(** All the ways the month group matches, in the order the alternatives
    are tried. *)
Definition match_month (l : list ascii) : list (Z * list ascii) :=
  match l with
  | a :: rest =>
      (match rest with
       | b :: rest' =>
           (if Ascii.eqb a "1" && in_range 48 50 b
            then [(10 + digit_value b, rest')] else [])
           ++ (if Ascii.eqb a "0" && in_range 49 57 b
               then [(digit_value b, rest')] else [])
       | [] => []
       end)
      ++ (if in_range 49 57 a then [(digit_value a, rest)] else [])
  | [] => []
  end.

(** The first alternative of the day group that matches. *)
Definition match_day (l : list ascii) : option (Z * list ascii) :=
  match l with
  | a :: rest =>
      match rest with
      | b :: rest' =>
          if Ascii.eqb a "3" && in_range 48 49 b then Some (30 + digit_value b, rest')
          else if in_range 49 50 a && is_digit b
               then Some (digit_value a * 10 + digit_value b, rest')
          else if Ascii.eqb a "0" && in_range 49 57 b then Some (digit_value b, rest')
          else if in_range 49 57 a then Some (digit_value a, rest)
          else if Ascii.eqb a " " && in_range 49 57 b then Some (digit_value b, rest')
          else None
      | [] => if in_range 49 57 a then Some (digit_value a, rest) else None
      end
  | [] => None
  end.

Definition expect (c : ascii) (l : list ascii) : option (list ascii) :=
  match l with
  | a :: rest => if Ascii.eqb a c then Some rest else None
  | [] => None
  end.

(** The rest of the pattern after a month alternative: [-] and the day. *)
Definition match_after_month (m : Z * list ascii) : option (Z * Z * list ascii) :=
  match expect "-" (snd m) with
  | Some l =>
      match match_day l with
      | Some (d, rest) => Some (fst m, d, rest)
      | None => None
      end
  | None => None
  end.

Fixpoint first_match {A B : Type} (f : A -> option B) (l : list A) : option B :=
  match l with
  | [] => None
  | a :: l' => match f a with Some b => Some b | None => first_match f l' end
  end.

(** The match of the whole expression: the fields and the text left. *)
Definition match_ymd (l : list ascii) : option (Z * Z * Z * list ascii) :=
  match match_year l with
  | Some (y, l1) =>
      match expect "-" l1 with
      | Some l2 =>
          match first_match match_after_month (match_month l2) with
          | Some (m, d, rest) => Some (y, m, d, rest)
          | None => None
          end
      | None => None
      end
  | None => None
  end.

Definition strptime_str (s : string) : result datetime :=
  match match_ymd (chars s) with
  | Some (y, m, d, []) => try! dt := new_date y m d in OK (mk_datetime dt 0 0 0 0)
  | Some (_, _, _, _ :: _) => Err ValueError
  | None => Err ValueError
  end.

(** [datetime.strptime(v, '%Y-%m-%d')] on any object. *)
Definition strptime (v : value) : result datetime :=
  match v with
  | VStr s => strptime_str s
  | _ => Err TypeError
  end.

(** [date.fromordinal(n)], for an ordinal in range. *)
Definition ord2ymd (n : Z) : date :=
  let n := n - 1 in
  let n400 := n / 146097 in
  let n := n mod 146097 in
  let n100 := n / 36524 in
  let n := n mod 36524 in
  let n4 := n / 1461 in
  let n := n mod 1461 in
  let n1 := n / 365 in
  let n := n mod 365 in
  let y := n400 * 400 + 1 + n100 * 100 + n4 * 4 + n1 in
  if (n1 =? 4) || (n100 =? 4) then mk_date (y - 1) 12 31
  else
    let leapyear := (n1 =? 3) && (negb (n4 =? 24) || (n100 =? 3)) in
    let before (m : Z) :=
      fold_right Z.add 0 (firstn (Z.to_nat (m - 1)) DAYS_IN_MONTH)
      + (if (2 <? m) && leapyear then 1 else 0) in
    let m := Z.shiftr (n + 50) 5 in
    let m := if n <? before m then m - 1 else m in
    mk_date y m (n - before m + 1).

(** [d + timedelta(days=k)] *)
Definition date_add_days (d : date) (k : Z) : result date :=
  let n := toordinal d + k in
  if (1 <=? n) && (n <=? 3652059) then OK (ord2ymd n) else Err OverflowError.

(** ** Reservations *)

Record Reservation : Type := mk_Reservation {
  booking_id : string;
  guest_name : string;
  room_name : string;
  room_id : string;
  unit_id : string;
  checkin : value;
  checkout : value;
  status : value;
  adults : value;
  children : value;
  nights : Z;
  notes : value;
  checkin_date : date;
  checkout_date : date }.

(** [Reservation(...)]: the generated constructor stores the twelve fields
    and [__post_init__] derives the two dates from the date texts. *)
Definition new_Reservation (booking_id guest_name room_name room_id unit_id : string)
    (checkin checkout status adults children : value) (nights : Z) (notes : value)
    : result Reservation :=
  try! ci := strptime checkin in
  try! co := strptime checkout in
  OK (mk_Reservation booking_id guest_name room_name room_id unit_id
        checkin checkout status adults children nights notes
        (dt_date ci) (dt_date co)).

(** The room lookup dictionary of [parse_booking_data]. *)
Definition room_table : list (Z * Z * string) :=
  [ (564321, 1, "101"); (564321, 2, "201"); (564321, 3, "301"); (564321, 4, "302");
    (564327, 1, "102"); (564327, 2, "202");
    (564325, 1, "103"); (564325, 2, "203");
    (564328, 1, "104"); (564328, 2, "204");
    (564326, 1, "105"); (564326, 2, "106"); (564326, 3, "205"); (564326, 4, "206");
    (564322, 1, "404"); (564322, 2, "504"); (564322, 3, "604");
    (564323, 1, "401"); (564323, 2, "402"); (564323, 3, "403");
    (564323, 4, "501"); (564323, 5, "502"); (564323, 6, "503");
    (564323, 7, "601"); (564323, 8, "602"); (564323, 9, "603");
    (564324, 1, "405"); (564324, 2, "505"); (564324, 3, "605");
    (570543, 1, "701"); (570545, 1, "702"); (570542, 1, "703");
    (570544, 1, "704"); (570546, 1, "705") ].

Definition room_lookup : gmap (Z * Z) string := list_to_map room_table.

(** [room_lookup.get((room_id, unit_id), default)]: the key tuple is hashed,
    which hashes its two parts; only a pair of integers can be in the table. *)
Definition room_lookup_get (room_id unit_id : value) (default : string) : result string :=
  try! a := hash_key room_id in
  try! b := hash_key unit_id in
  OK (match a, b with
      | KInt x, KInt y =>
          match room_lookup !! (x, y) with
          | Some label => label
          | None => default
          end
      | _, _ => default
      end).

(** The [try] block of [parse_booking_data]: both identifiers are converted
    in one block, and the handler takes both raw values again. *)
Definition room_unit_ids (booking : record) : value * value :=
  match py_int (dict_get booking "roomId" (VInt 0)) with
  | OK room_id =>
      match py_int (dict_get booking "unitId" (VInt 0)) with
      | OK unit_id => (VInt room_id, VInt unit_id)
      | Err _ =>
          (dict_get booking "roomId" (VInt 0), dict_get booking "unitId" (VInt 0))
      end
  | Err _ =>
      (dict_get booking "roomId" (VInt 0), dict_get booking "unitId" (VInt 0))
  end.

(** The text the f-string [Room {room_id}-{unit_id}] gives. *)
Definition synthesized_label (room_id unit_id : value) : string :=
  "Room " +:+ py_str room_id +:+ "-" +:+ py_str unit_id.

(** The label [parse_booking_data] binds to [room_name]. *)
Definition resolve_room_name (booking : record) : result string :=
  let ids := room_unit_ids booking in
  room_lookup_get (fst ids) (snd ids) (synthesized_label (fst ids) (snd ids)).

Definition parse_booking_data (booking : record) : result Reservation :=
  let ids := room_unit_ids booking in
  let room_id := fst ids in
  let unit_id := snd ids in
  try! room_name :=
    room_lookup_get room_id unit_id (synthesized_label room_id unit_id) in
  try! departure := strptime (dict_get booking "departure" (VStr "")) in
  try! arrival := strptime (dict_get booking "arrival" (VStr "")) in
  new_Reservation
    (py_str (dict_get booking "id" (VStr "")))
    (strip (py_str (dict_get booking "lastName" (VStr "")) +:+ " "
            +:+ py_str (dict_get booking "firstName" (VStr ""))))
    room_name
    (py_str room_id)
    (py_str unit_id)
    (dict_get booking "arrival" (VStr ""))
    (dict_get booking "departure" (VStr ""))
    (dict_get booking "status" (VStr ""))
    (dict_get booking "numAdult" (VInt 0))
    (dict_get booking "numChild" (VInt 0))
    (days (datetime_sub departure arrival))
    (dict_get booking "notes" (VStr "")).

(** ** Categorisation *)

(** [v == s] for a string [s]: only that very string is equal to it. *)
Definition eq_str (v : value) (s : string) : bool :=
  match v with
  | VStr t => String.eqb t s
  | _ => false
  end.

(** [sorted(l, key=key)] with string keys.  The built-in sort compares keys
    with [<] only and is stable; a list has exactly one stable ascending
    rearrangement (see [stable_sort_unique]), given here by insertion. *)
Fixpoint insert_by {A : Type} (key : A -> string) (x : A) (l : list A) : list A :=
  match l with
  | [] => [x]
  | y :: l' =>
      if String.ltb (key y) (key x) then y :: insert_by key x l'
      else x :: y :: l'
  end.

Definition sorted {A : Type} (key : A -> string) (l : list A) : list A :=
  fold_right (insert_by key) [] l.

(** The three lists the loop of [categorize_reservations] builds. *)
Record buckets : Type := mk_buckets {
  arrivals : list Reservation;
  departures : list Reservation;
  stay_through : list Reservation }.

(** One turn of the loop body. *)
Definition categorize_step (target_date : date) (acc : buckets) (reservation : Reservation)
    : buckets :=
  if eq_str (status reservation) "black" then acc
  else
    let acc :=
      if date_eqb (checkin_date reservation) target_date
      then mk_buckets (arrivals acc ++ [reservation]) (departures acc) (stay_through acc)
      else acc in
    let acc :=
      if date_eqb (checkout_date reservation) target_date
      then mk_buckets (arrivals acc) (departures acc ++ [reservation]) (stay_through acc)
      else acc in
    if date_ltb (checkin_date reservation) target_date
       && date_ltb target_date (checkout_date reservation)
    then mk_buckets (arrivals acc) (departures acc) (stay_through acc ++ [reservation])
    else acc.

Definition categorize_loop (target_date : date) (reservations : list Reservation)
    : buckets :=
  fold_left (categorize_step target_date) reservations (mk_buckets [] [] []).

Definition categorize_reservations (reservations : list Reservation) (target_date : date)
    : list Reservation * list Reservation * list Reservation :=
  let acc := categorize_loop target_date reservations in
  (sorted room_name (arrivals acc),
   sorted room_name (departures acc),
   sorted room_name (stay_through acc)).

(** ** Fetching *)

(** The keyword arguments of [get_bookings]; the dates are sent as
    [%Y-%m-%d] text and carried here as dates. *)
Record query : Type := mk_query {
  date_filter : option string;
  arrival_from : option date;
  arrival_to : option date;
  departure_from : option date;
  departure_to : option date }.

(** A client, as far as [fetch_all_relevant_bookings] uses it: what
    [get_bookings] answers to a query (records and a message). *)
Abbreviation booking_client := (query -> list record * string).

(** The loop that combines the three answers: [booking_ids] is the set of
    identifiers seen, [combined] the records kept. *)
Fixpoint combine_loop (booking_ids : gset pykey) (combined : list record)
    (bookings : list record) : result (list record) :=
  match bookings with
  | [] => OK combined
  | booking :: rest =>
      try! booking_id := hash_key (dict_get booking "id" VNone) in
      if decide (booking_id ∈ booking_ids)
      then combine_loop booking_ids combined rest
      else combine_loop ({[ booking_id ]} ∪ booking_ids) (combined ++ [booking]) rest
  end.

Definition combine_bookings (arrivals departures stay_through : list record)
    : result (list record) :=
  combine_loop ∅ [] (arrivals ++ departures ++ stay_through).

Definition fetch_all_relevant_bookings (client : booking_client) (target_date : date)
    : result (list record) :=
  try! start_date := date_add_days target_date (-30) in
  try! end_date := date_add_days target_date 30 in
  let arrivals :=
    fst (client (mk_query (Some "arrivals") (Some target_date) (Some target_date)
                   None None)) in
  let departures :=
    fst (client (mk_query (Some "departures") None None
                   (Some target_date) (Some target_date))) in
  let stay_through :=
    fst (client (mk_query None (Some start_date) (Some target_date)
                   (Some target_date) (Some end_date))) in
  combine_bookings arrivals departures stay_through.

(** ** Token storage and authentication *)

(** A [datetime] without time zone, as [store_tokens] writes it: the
    microseconds since [datetime.min], 0001-01-01T00:00:00. *)
Definition time : Type := Z.

(** [datetime.max], 9999-12-31T23:59:59.999999: the last microsecond of day
    3652059 of the calendar. *)
Definition MAX_TIME : time := 3652059 * 86400 * 1000000 - 1.

(** What a token end point answers: an exception out of the request
    ([raise_for_status] included), or the JSON object of the reply. *)
Inductive exchange : Type :=
  | Refused (e : exn)
  | Granted (token_data : record).

(** What the code takes from outside: the readings of [datetime.now()] in
    the order they are made, the text form of timestamps, the environment
    variables and the two token end points. *)
Record Runtime : Type := mk_Runtime {
  clock : nat -> time;
  fromisoformat : string -> result time;
  isoformat : time -> string;
  getenv : string -> value;
  token_endpoint : value -> exchange;
  setup_endpoint : value -> exchange }.

(** The fields of [Beds24APIClient] that authentication reads and writes,
    with the [tokens] of its [TokenStorage] and the number of clock
    readings made so far. *)
Record client : Type := mk_client {
  self_access_token : value;
  self_refresh_token : value;
  storage_tokens : record;
  clock_reads : nat }.

Definition set_access (c : client) (access refresh : value) : client :=
  mk_client access refresh (storage_tokens c) (clock_reads c).

Definition set_tokens (c : client) (t : record) : client :=
  mk_client (self_access_token c) (self_refresh_token c) t (clock_reads c).

(** [datetime.now()] *)
Definition now (rt : Runtime) (c : client) : time * client :=
  (clock rt (clock_reads c),
   mk_client (self_access_token c) (self_refresh_token c) (storage_tokens c)
     (S (clock_reads c))).

(** [datetime.fromisoformat(v)] *)
Definition datetime_fromisoformat (rt : Runtime) (v : value) : result time :=
  match v with
  | VStr s => fromisoformat rt s
  | _ => Err TypeError
  end.

(** [timedelta(seconds=v)], in microseconds: the seconds are whole days
    and a rest, and a [timedelta] has at most 999999999 days on either side
    of zero. *)
Definition timedelta_seconds (v : value) : result Z :=
  match v with
  | VInt z =>
      if (-999999999 <=? z / 86400) && (z / 86400 <=? 999999999)
      then OK (z * 1000000)
      else Err OverflowError
  | VBool b => OK (if b then 1000000 else 0)
  | _ => Err TypeError
  end.

(** [t + delta] for a [datetime] and a [timedelta]: the sum has to be a
    [datetime] again, from [datetime.min] to [datetime.max]. *)
Definition datetime_add (t : time) (delta : Z) : result time :=
  if (0 <=? t + delta) && (t + delta <=? MAX_TIME) then OK (t + delta)
  else Err OverflowError.

(** [datetime.now() + timedelta(seconds=token_data.get('expiresIn', 0))],
    with [t] the reading of the clock. *)
Definition token_expires_at (t : time) (token_data : record) : result time :=
  try! lifetime := timedelta_seconds (dict_get token_data "expiresIn" (VInt 0)) in
  datetime_add t lifetime.

(** [TokenStorage.store_tokens] *)
Definition store_tokens (rt : Runtime) (c : client) (access_token refresh_token : value)
    (token_type : string) (expires_at : option time) : client :=
  let (last_updated, c) := now rt c in
  set_tokens c
    (<[ "access_token" := access_token ]>
     (<[ "refresh_token" := refresh_token ]>
      (<[ "token_type" := VStr token_type ]>
       (<[ "expires_at" :=
             match expires_at with
             | Some t => VStr (isoformat rt t)
             | None => VNone
             end ]>
        (<[ "last_updated" := VStr (isoformat rt last_updated) ]> ∅))))).

(** [TokenStorage.get_tokens] *)
Definition get_tokens (rt : Runtime) (c : client) : result (option record) * client :=
  let tokens := storage_tokens c in
  if decide (tokens = ∅) then (OK None, c)
  else if truthy (dict_get tokens "expires_at" VNone) then
    match datetime_fromisoformat rt (dict_get tokens "expires_at" VNone) with
    | Err e => (Err e, c)
    | OK expires_at =>
        let (t, c) := now rt c in
        if expires_at <=? t then
          if truthy (dict_get tokens "refresh_token" VNone)
          then (OK (Some tokens), c)
          else (OK None, c)
        else (OK (Some tokens), c)
    end
  else (OK (Some tokens), c).

(** [TokenStorage.clear_tokens] *)
Definition clear_tokens (c : client) : client := set_tokens c ∅.

(** [Beds24APIClient.authenticate_with_refresh_token] *)
Definition authenticate_with_refresh_token (rt : Runtime) (c : client)
    (refresh_token : value) : result record * client :=
  match token_endpoint rt refresh_token with
  | Refused e => (Err e, c)
  | Granted token_data =>
      let c := set_access c (dict_get token_data "token" VNone) refresh_token in
      let (t, c) := now rt c in
      match token_expires_at t token_data with
      | Err e => (Err e, c)
      | OK expires_at =>
          (OK token_data,
           store_tokens rt c (self_access_token c) (self_refresh_token c) "refresh"
             (Some expires_at))
      end
  end.

(** [Beds24APIClient.authenticate_with_invite_code] *)
Definition authenticate_with_invite_code (rt : Runtime) (c : client)
    (invite_code : value) : result record * client :=
  match setup_endpoint rt invite_code with
  | Refused e => (Err e, c)
  | Granted token_data =>
      let c := set_access c (dict_get token_data "token" VNone)
                 (dict_get token_data "refreshToken" VNone) in
      let (t, c) := now rt c in
      match token_expires_at t token_data with
      | Err e => (Err e, c)
      | OK expires_at =>
          (OK token_data,
           store_tokens rt c (self_access_token c) (self_refresh_token c) "refresh"
             (Some expires_at))
      end
  end.

(** The pairs [authenticate] returns, one constructor per [return]:
    - [UsingStored]: [True, "Using stored authentication"]
    - [Refreshed]: [True, "Successfully refreshed authentication"]
    - [RefreshFailed e]: [False, "Failed to refresh token: ..."]
    - [WithLongLifeToken]: [True, "Authenticated with long-life token"]
    - [WithRefreshToken]: [True, "Authenticated with refresh token"]
    - [WithInviteCode]: [True, "Authenticated with invite code"]
    - [NoCredentials]: [False, "No authentication credentials provided"]
    - [AuthenticationFailed e]: [False, "Authentication failed: ..."]
    - [UnexpectedError e]: [False, "Unexpected error during authentication: ..."] *)
Inductive auth_message : Type :=
  | UsingStored
  | Refreshed
  | RefreshFailed (e : exn)
  | WithLongLifeToken
  | WithRefreshToken
  | WithInviteCode
  | NoCredentials
  | AuthenticationFailed (e : exn)
  | UnexpectedError (e : exn).

Definition auth_success (m : auth_message) : bool :=
  match m with
  | UsingStored | Refreshed | WithLongLifeToken | WithRefreshToken | WithInviteCode => true
  | _ => false
  end.

(** [a or b] *)
Definition py_or (a b : value) : value := if truthy a then a else b.

Definition is_request_exception (e : exn) : bool :=
  match e with RequestException _ => true | _ => false end.

(** The first part of [authenticate]: the stored tokens.  [OK (Some m)] is a
    [return], [OK None] falls through to the supplied credentials. *)
Definition authenticate_stored (rt : Runtime) (c : client)
    : result (option auth_message) * client :=
  match get_tokens rt c with
  | (Err e, c) => (Err e, c)
  | (OK None, c) => (OK None, c)
  | (OK (Some stored_tokens), c) =>
      if decide (stored_tokens = ∅) then (OK None, c)
      else
        match stored_tokens !! "access_token" with
        | None => (Err KeyError, c)
        | Some access =>
            let c := set_access c access (dict_get stored_tokens "refresh_token" VNone) in
            if truthy (dict_get stored_tokens "expires_at" VNone) then
              match datetime_fromisoformat rt (dict_get stored_tokens "expires_at" VNone) with
              | Err e => (Err e, c)
              | OK expires_at =>
                  let (t, c) := now rt c in
                  if (expires_at <=? t) && truthy (self_refresh_token c) then
                    match authenticate_with_refresh_token rt c (self_refresh_token c) with
                    | (OK _, c) => (OK (Some Refreshed), c)
                    | (Err e, c) =>
                        if is_request_exception e then (OK (Some (RefreshFailed e)), c)
                        else (Err e, c)
                    end
                  else if truthy (self_access_token c) then (OK (Some UsingStored), c)
                  else (OK None, c)
              end
            else (OK (Some UsingStored), c)
        end
  end.

(** The second part: the credentials passed in or found in the
    environment. *)
Definition authenticate_supplied (rt : Runtime) (c : client)
    (long_life_token refresh_token invite_code : value) : result auth_message * client :=
  let long_life_token := py_or long_life_token (getenv rt "BEDS24_LONG_LIFE_TOKEN") in
  let refresh_token := py_or refresh_token (getenv rt "BEDS24_REFRESH_TOKEN") in
  let invite_code := py_or invite_code (getenv rt "BEDS24_INVITE_CODE") in
  if truthy long_life_token then
    let c := set_access c long_life_token (self_refresh_token c) in
    (OK WithLongLifeToken, store_tokens rt c (self_access_token c) VNone "long_life" None)
  else if truthy refresh_token then
    match authenticate_with_refresh_token rt c refresh_token with
    | (OK _, c) => (OK WithRefreshToken, c)
    | (Err e, c) => (Err e, c)
    end
  else if truthy invite_code then
    match authenticate_with_invite_code rt c invite_code with
    | (OK _, c) => (OK WithInviteCode, c)
    | (Err e, c) => (Err e, c)
    end
  else (OK NoCredentials, c).

(** The two handlers around the body of [authenticate]. *)
Definition authenticate_handlers (r : result auth_message * client)
    : auth_message * client :=
  match r with
  | (OK m, c) => (m, c)
  | (Err e, c) =>
      if is_request_exception e then (AuthenticationFailed e, c)
      else (UnexpectedError e, c)
  end.

(** [Beds24APIClient.authenticate]; the boolean of the returned pair is
    [auth_success] of the message. *)
Definition authenticate (rt : Runtime) (c : client)
    (long_life_token refresh_token invite_code : value) : auth_message * client :=
  authenticate_handlers
    match authenticate_stored rt c with
    | (Err e, c) => (Err e, c)
    | (OK (Some m), c) => (OK m, c)
    | (OK None, c) => authenticate_supplied rt c long_life_token refresh_token invite_code
    end.

(** ** The reservations of [main] *)

(** [[parse_booking_data(booking) for booking in bookings]], the list
    [reservations] of [main]: the records are parsed in order and the first
    exception ends the comprehension. *)
Fixpoint main_reservations (bookings : list record) : result (list Reservation) :=
  match bookings with
  | [] => OK []
  | booking :: rest =>
      try! reservation := parse_booking_data booking in
      try! reservations := main_reservations rest in
      OK (reservation :: reservations)
  end.

(** ** Requests for bookings *)

(** What [get_bookings] reads of the body of a reply: [json()] or the
    [.get('data', [])] on its value raises (with the text of the exception),
    or the body is a JSON object, of which the [data] entry is taken, if there
    is one.  A [data] entry that is not a list of objects would be returned
    as it is and is not part of the model. *)
Inductive reply_body : Type :=
  | BodyError (text : string)
  | BodyObject (data : option (list record)).

(** The reply to a request, as far as [get_bookings] uses it:
    [raise_for_status] is the text of the [HTTPError] that
    [raise_for_status()] raises, [None] when it returns. *)
Record response : Type := mk_response {
  status_code : Z;
  raise_for_status : option string;
  json : reply_body }.

(** What [session.get] does: it raises (with the text of the exception) or
    returns a reply. *)
Inductive http_reply : Type :=
  | Raised (text : string)
  | Replied (r : response).

(** [session.get(url, headers, params)] for the bookings end point, by the
    token of the headers and the query parameters in the order they are set. *)
Abbreviation session := (value -> list (string * string) -> http_reply).

(** [if v: params[name] = v] *)
Definition param (name : string) (v : option string) : list (string * string) :=
  match v with
  | Some s => if String.eqb s "" then [] else [(name, s)]
  | None => []
  end.

(** The [params] of the request: two fixed entries, then the arguments
    that are given and not empty. *)
Definition params
    (date_filter arrival_from arrival_to departure_from departure_to : option string)
    : list (string * string) :=
  [("includeInvoiceItems", "false"); ("includeInfoItems", "true")]
  ++ param "filter" date_filter
  ++ param "arrivalFrom" arrival_from
  ++ param "arrivalTo" arrival_to
  ++ param "departureFrom" departure_from
  ++ param "departureTo" departure_to.

(** [Beds24APIClient.get_bookings] *)
Definition get_bookings (session_get : session) (c : client)
    (date_filter arrival_from arrival_to departure_from departure_to : option string)
    : list record * string :=
  if negb (truthy (self_access_token c))
  then ([], "No access token available. Please authenticate first.")
  else
    match session_get (self_access_token c)
            (params date_filter arrival_from arrival_to departure_from departure_to) with
    | Raised text => ([], "Error: " +:+ text)
    | Replied response =>
        if status_code response =? 401
        then ([], "Authentication failed. Please check your credentials.")
        else if status_code response =? 403
        then ([], "Access forbidden. Please check your API permissions.")
        else if status_code response =? 404
        then ([], "API endpoint not found. Please check the API URL.")
        else if status_code response =? 429
        then ([], "Rate limit exceeded. Please try again later.")
        else
          match raise_for_status response with
          | Some text => ([], "Error: " +:+ text)
          | None =>
              match json response with
              | BodyError text => ([], "Error: " +:+ text)
              | BodyObject data => (default [] data, "Success")
              end
          end
    end.


(** ** Guest totals of the reports *)

(** [acc + v] for an integer [acc]: integers and booleans add, and every
    other value of the model raises.  A JSON number with a fraction (a
    Python [float]) would add with rounding; it is not a value of the
    model. *)
Definition py_add (acc : Z) (v : value) : result Z :=
  match v with
  | VInt z => OK (acc + z)
  | VBool b => OK (acc + (if b then 1 else 0))
  | _ => Err TypeError
  end.

Fixpoint sum_from (acc : Z) (values : list value) : result Z :=
  match values with
  | [] => OK acc
  | v :: rest => try! acc := py_add acc v in sum_from acc rest
  end.

(** [sum(values)]: the values are added to 0, first to last. *)
Definition py_sum (values : list value) : result Z := sum_from 0 values.

(** [guest_str] of [create_pdf_report] and [create_cleaning_report]: the
    guests of a section, for its heading. *)
Definition guest_str (reslist : list Reservation) : result string :=
  try! total_a := py_sum (map adults reslist) in
  try! total_c := py_sum (map children reslist) in
  OK (if total_c =? 0 then str_of_int total_a +:+ "A"
      else str_of_int total_a +:+ "A +" +:+ str_of_int total_c +:+ "C").

(** ** Rows of the report tables *)

(** [v > 0] *)
Definition py_gt_zero (v : value) : result bool :=
  match v with
  | VInt z => OK (0 <? z)
  | VBool b => OK b
  | _ => Err TypeError
  end.

(** [guests_str] of a row: the adults, and the children when there are
    some. *)
Definition guests_str (reservation : Reservation) : result string :=
  let guests_str := py_str (adults reservation) +:+ "A" in
  try! some_children := py_gt_zero (children reservation) in
  OK (if some_children
      then guests_str +:+ "+" +:+ py_str (children reservation) +:+ "C"
      else guests_str).

(** [d.weekday()], Monday being 0. *)
Definition weekday (d : date) : Z := (toordinal d + 6) mod 7.

(** A number of the calendar in two digits ([%d], [%m]). *)
Definition two_digits (z : Z) : string :=
  if z <? 10 then "0" +:+ str_of_int z else str_of_int z.

(** [dt.strftime('%a %d.%m')]; the short names of the days are the
    locale's. *)
Definition strftime_day_month (day_name : Z -> string) (dt : datetime) : string :=
  day_name (weekday (dt_date dt)) +:+ " " +:+ two_digits (day (dt_date dt))
  +:+ "." +:+ two_digits (month (dt_date dt)).

(** [checkin_fmt] and [checkout_fmt] of a row: the date text parsed and
    formatted again, and the raw value when that raises. *)
Definition date_fmt (day_name : Z -> string) (v : value) : value :=
  match strptime v with
  | OK dt => VStr (strftime_day_month day_name dt)
  | Err _ => v
  end.

(** [reservation.guest_name or "No Name"], the text of the guest cell of a
    row of [create_reservation_table]. *)
Definition guest_cell (reservation : Reservation) : value :=
  py_or (VStr (guest_name reservation)) (VStr "No Name").

(** The [row] of [create_cleaning_table] for a reservation. *)
Definition cleaning_row (day_name : Z -> string) (reservation : Reservation)
    : result (list value) :=
  try! guests_str := guests_str reservation in
  OK [ VStr (room_name reservation);
       VStr guests_str;
       VStr (str_of_int (nights reservation));
       date_fmt day_name (checkin reservation);
       date_fmt day_name (checkout reservation) ].

(** The loop of [create_cleaning_table] that appends a row for each
    reservation. *)
Fixpoint cleaning_rows (day_name : Z -> string) (reservations : list Reservation)
    : result (list (list value)) :=
  match reservations with
  | [] => OK []
  | reservation :: rest =>
      try! row := cleaning_row day_name reservation in
      try! rows := cleaning_rows day_name rest in
      OK (row :: rows)
  end.

(** The [data] of the inner table that [create_cleaning_table] makes. *)
Definition create_cleaning_table (day_name : Z -> string)
    (reservations : list Reservation) : result (list (list value)) :=
  match reservations with
  | [] => OK [[VStr "No reservations for this category"]]
  | _ :: _ =>
      try! rows := cleaning_rows day_name reservations in
      OK (map VStr ["Room"; "Guests"; "Nights"; "Check-In"; "Check-Out"] :: rows)
  end.

(** ** Vocabulary of the properties *)

(** Ascending order of the keys, as strings compare. *)
Definition key_le {A : Type} (key : A -> string) (x y : A) : Prop :=
  String.leb (key x) (key y) = true.

Definition has_key {A : Type} (key : A -> string) (k : string) (x : A) : bool :=
  String.eqb (key x) k.

(** [l'] holds the elements of [l] in ascending order of their keys, those
    of equal key in the order they have in [l]. *)
Definition stable_sort_of {A : Type} (key : A -> string) (l l' : list A) : Prop :=
  StronglySorted (key_le key) l'
  /\ forall k, List.filter (has_key key k) l' = List.filter (has_key key k) l.

(** [a < b] on dates. *)
Definition date_lt (a b : date) : Prop :=
  year a < year b
  \/ (year a = year b
      /\ (month a < month b \/ (month a = month b /\ day a < day b))).

Definition black (r : Reservation) : Prop := status r = VStr "black".

(** The three rules of the categoriser, for one reservation. *)
Definition arrives (t : date) (r : Reservation) : bool :=
  negb (eq_str (status r) "black") && date_eqb (checkin_date r) t.

Definition departs (t : date) (r : Reservation) : bool :=
  negb (eq_str (status r) "black") && date_eqb (checkout_date r) t.

Definition stays (t : date) (r : Reservation) : bool :=
  negb (eq_str (status r) "black")
  && (date_ltb (checkin_date r) t && date_ltb t (checkout_date r)).

(** A triple of lists that the rules and the ordering allow as the answer
    for [rs] and [t], whatever stable sort produced it. *)
Definition is_categorization (rs : list Reservation) (t : date)
    (out : list Reservation * list Reservation * list Reservation) : Prop :=
  stable_sort_of room_name (List.filter (arrives t) rs) out.1.1
  /\ stable_sort_of room_name (List.filter (departs t) rs) out.1.2
  /\ stable_sort_of room_name (List.filter (stays t) rs) out.2.

Definition hashable (v : value) : Prop := is_ok (hash_key v) = true.

(** The identifier a record is de-duplicated by. *)
Definition booking_key (b : record) : result pykey :=
  hash_key (dict_get b "id" VNone).

Definition has_id (k : pykey) (b : record) : bool :=
  match booking_key b with
  | OK k' => bool_decide (k' = k)
  | Err _ => false
  end.

(** Two records have the same identifier. *)
Definition same_id (b b' : record) : bool :=
  match booking_key b with
  | OK k => has_id k b'
  | Err _ => false
  end.

(** De-duplication by identifier in the words of the specification: of the
    records of [l], in their order, those whose identifier none of the
    records before them has.  [before] holds the records that come before
    [l]. *)
Fixpoint first_seen_after (before l : list record) : list record :=
  match l with
  | [] => []
  | b :: rest =>
      if existsb (same_id b) before
      then first_seen_after (before ++ [b]) rest
      else b :: first_seen_after (before ++ [b]) rest
  end.

Definition first_seen (l : list record) : list record := first_seen_after [] l.

(** The lifetime of a reply gives a [datetime] when it is added to the
    clock: to each of the next three readings, of which [authenticate] takes
    the one it has come to when it computes the expiry. *)
Definition lifetime_fits (rt : Runtime) (c : client) (token_data : record) : Prop :=
  forall n : nat,
    (n <= 2)%nat ->
    is_ok (token_expires_at (clock rt (clock_reads c + n)%nat) token_data) = true.

(** A count that is an integer, or a boolean, which Python adds as one. *)
Definition integer_count (v : value) : bool :=
  match v with
  | VInt _ | VBool _ => true
  | _ => false
  end.

(** The stored bundle gives no credential: there is none, or it has expired
    and has no refresh token, or it has not expired and its access token is
    empty. *)
Definition stored_unusable (rt : Runtime) (c : client) : Prop :=
  let tokens := storage_tokens c in
  tokens = ∅
  \/ (tokens <> ∅
      /\ exists s e,
          dict_get tokens "expires_at" VNone = VStr s /\ s <> ""
          /\ fromisoformat rt s = OK e
          /\ ((e <= clock rt (clock_reads c)
               /\ truthy (dict_get tokens "refresh_token" VNone) = false)
              \/ (clock rt (clock_reads c) < e
                  /\ clock rt (S (clock_reads c)) < e
                  /\ exists a, tokens !! "access_token" = Some a
                               /\ truthy a = false))).

(** A date that the constructor [date(y, m, d)] accepts. *)
Definition valid_date (d : date) : Prop :=
  1 <= year d <= 9999 /\ 1 <= month d <= 12
  /\ 1 <= day d <= days_in_month (year d) (month d).

(** The days of a year before its month [m], by whether the year is a leap
    year. *)
Definition days_before (leapyear : bool) (m : Z) : Z :=
  fold_right Z.add 0 (firstn (Z.to_nat (m - 1)) DAYS_IN_MONTH)
  + (if (2 <? m) && leapyear then 1 else 0).

(** The month of the [n]-th day of a year, counted from 0, as [ord2ymd]
    finds it: an estimate, corrected when it is too large. *)
Definition month_of (leapyear : bool) (n : Z) : Z :=
  let m := Z.shiftr (n + 50) 5 in
  if n <? days_before leapyear m then m - 1 else m.

(** The client works with the token that is stored: there is a stored
    bundle and its access token is the client's. *)
Definition holds_stored_token (c : client) : Prop :=
  storage_tokens c <> ∅
  /\ storage_tokens c !! "access_token" = Some (self_access_token c).

(** ** Sample data *)

(** A record from its items. *)
Definition record_of (items : list (string * value)) : record := list_to_map items.

(** Three answers that share the identifier 123. *)
Definition sample_arrivals : list record :=
  [ record_of [("id", VStr "123"); ("lastName", VStr "Arnold")] ].

Definition sample_departures : list record :=
  [ record_of [("id", VStr "123"); ("lastName", VStr "Berger")];
    record_of [("id", VInt 7); ("lastName", VStr "Caduff")] ].

Definition sample_stay_through : list record :=
  [ record_of [("id", VInt 7); ("lastName", VStr "Dubois")];
    record_of [("id", VStr "123"); ("lastName", VStr "Egli")] ].

(** A record whose identifier is a JSON array. *)
Definition sample_array_id : record := record_of [("id", VList [VInt 1])].

(** The booking of the specification's scenario. *)
Definition sample_booking : record :=
  record_of [("id", VStr "A1"); ("arrival", VStr "2024-05-17");
             ("departure", VStr "2024-05-19"); ("roomId", VInt 564321);
             ("unitId", VInt 1); ("status", VStr "confirmed")].

(** The same booking with a room identifier that is a JSON array. *)
Definition sample_array_room : record :=
  record_of [("id", VStr "A1"); ("arrival", VStr "2024-05-17");
             ("departure", VStr "2024-05-19"); ("roomId", VList [VInt 564321]);
             ("unitId", VInt 1); ("status", VStr "confirmed")].

(** A room identifier that [int()] accepts beside a unit identifier that it
    does not. *)
Definition sample_padded_room : record :=
  record_of [("id", VStr "A2"); ("arrival", VStr "2024-05-17");
             ("departure", VStr "2024-05-19"); ("roomId", VStr "007");
             ("unitId", VStr "A"); ("status", VStr "confirmed")].

(** A pair that is not in the room table. *)
Definition sample_unknown_room : record :=
  record_of [("id", VStr "A3"); ("arrival", VStr "2024-05-17");
             ("departure", VStr "2024-05-19"); ("roomId", VInt 999999);
             ("unitId", VInt 1); ("status", VStr "confirmed")].

(** A unit identifier that is a JSON object. *)
Definition sample_object_unit : record :=
  record_of [("id", VStr "A4"); ("arrival", VStr "2024-05-17");
             ("departure", VStr "2024-05-19"); ("roomId", VInt 564321);
             ("unitId", VDict []); ("status", VStr "confirmed")].

(** A clock that starts at 1000, two timestamps around it, no environment
    variables, and end points that grant a token for an hour. *)
Definition sample_runtime : Runtime :=
  mk_Runtime
    (fun n => 1000 + Z.of_nat n)
    (fun s => if String.eqb s "2030-01-01T00:00:00" then OK 5000
              else if String.eqb s "2020-01-01T00:00:00" then OK 10
              else Err ValueError)
    (fun t => "T" +:+ str_of_int t)
    (fun _ => VNone)
    (fun _ => Granted (record_of [("token", VStr "fresh"); ("expiresIn", VInt 3600)]))
    (fun _ => Granted (record_of [("token", VStr "first"); ("refreshToken", VStr "R0");
                                  ("expiresIn", VInt 3600)])).

(** The same with end points that grant a token for some twelve thousand
    years. *)
Definition sample_runtime_long_lifetime : Runtime :=
  mk_Runtime
    (clock sample_runtime) (fromisoformat sample_runtime) (isoformat sample_runtime)
    (getenv sample_runtime)
    (fun _ => Granted (record_of [("token", VStr "fresh");
                                  ("expiresIn", VInt 400000000000)]))
    (fun _ => Granted (record_of [("token", VStr "first"); ("refreshToken", VStr "R0");
                                  ("expiresIn", VInt 400000000000)])).

(** A client that has not authenticated yet, over stored tokens. *)
Definition sample_client (tokens : record) : client := mk_client VNone VNone tokens 0.

(** A stored bundle that has not expired, has a refresh token, and whose
    access token is [None], as [store_tokens] writes it after an exchange
    whose reply has no token. *)
Definition sample_tokens_no_access : record :=
  record_of [("access_token", VNone); ("refresh_token", VStr "R");
             ("token_type", VStr "refresh");
             ("expires_at", VStr "2030-01-01T00:00:00");
             ("last_updated", VStr "2024-05-17T08:00:00")].

(** A stored bundle that has expired and has a refresh token. *)
Definition sample_tokens_expired : record :=
  record_of [("access_token", VStr "old"); ("refresh_token", VStr "R");
             ("token_type", VStr "refresh");
             ("expires_at", VStr "2020-01-01T00:00:00");
             ("last_updated", VStr "2019-12-31T23:00:00")].

(** Reservations around the target date 2024-05-17. *)
Definition sample_reservation (id label status : string) (checkin checkout : date)
    (checkin_text checkout_text : string) : Reservation :=
  mk_Reservation id "" label "" "" (VStr checkin_text) (VStr checkout_text)
    (VStr status) (VInt 2) (VInt 0)
    (days (date_sub checkout checkin)) (VStr "") checkin checkout.

Definition res_2 : Reservation :=
  sample_reservation "1" "2" "confirmed" (mk_date 2024 5 17) (mk_date 2024 5 18)
    "2024-05-17" "2024-05-18".

Definition res_101 : Reservation :=
  sample_reservation "2" "101" "confirmed" (mk_date 2024 5 17) (mk_date 2024 5 19)
    "2024-05-17" "2024-05-19".

Definition res_black : Reservation :=
  sample_reservation "3" "102" "black" (mk_date 2024 5 17) (mk_date 2024 5 17)
    "2024-05-17" "2024-05-17".

Definition res_stay : Reservation :=
  sample_reservation "4" "103" "confirmed" (mk_date 2024 5 16) (mk_date 2024 5 18)
    "2024-05-16" "2024-05-18".

Definition res_101_later : Reservation :=
  sample_reservation "5" "101" "new" (mk_date 2024 5 17) (mk_date 2024 5 20)
    "2024-05-17" "2024-05-20".

Definition res_zero_night : Reservation :=
  sample_reservation "6" "104" "confirmed" (mk_date 2024 5 17) (mk_date 2024 5 17)
    "2024-05-17" "2024-05-17".

Definition sample_reservations : list Reservation :=
  [res_2; res_101; res_black; res_stay; res_101_later; res_zero_night].

(** A record with a first name in white space and no last name. *)
Definition sample_first_name_only : record :=
  record_of [("arrival", VStr "2024-05-17"); ("departure", VStr "2024-05-19");
             ("firstName", VStr "  Ada ")].

(** The room of the scenario with its identifiers sent as text. *)
Definition sample_text_ids : record :=
  record_of [("id", VStr "A5"); ("arrival", VStr "2024-05-20");
             ("departure", VStr "2024-05-21"); ("roomId", VStr " 564321 ");
             ("unitId", VBool true)].

(** What the three sample answers combine to. *)
Definition sample_combined : list record :=
  [ record_of [("id", VStr "123"); ("lastName", VStr "Arnold")];
    record_of [("id", VInt 7); ("lastName", VStr "Caduff")] ].

(** A session that answers every request with status 200 and two records. *)
Definition sample_session : session :=
  fun _ _ => Replied (mk_response 200 None (BodyObject (Some sample_departures))).


(** A client that holds an access token. *)
Definition sample_authenticated : client := mk_client (VStr "tok") VNone ∅ 0.

(** A stored bundle without expiry whose access token is empty. *)
Definition sample_tokens_empty_access : record :=
  record_of [("access_token", VStr ""); ("refresh_token", VNone);
             ("token_type", VStr "long_life"); ("expires_at", VNone);
             ("last_updated", VStr "2024-05-17T08:00:00")].

(** A runtime whose timestamps are written as T and the number of
    microseconds, and read back from that form. *)
Definition sample_runtime_iso : Runtime :=
  mk_Runtime
    (fun n => 1000 + Z.of_nat n)
    (fun s => match chars s with
              | "T"%char :: digits => int_of_str (text digits)
              | _ => Err ValueError
              end)
    (fun t => "T" +:+ str_of_int t)
    (fun _ => VNone)
    (fun _ => Refused (RequestException "offline"))
    (fun _ => Refused (RequestException "offline")).

(** A record whose number of adults is [null]. *)
Definition sample_null_adults : record :=
  record_of [("id", VStr "A6"); ("arrival", VStr "2024-05-17");
             ("departure", VStr "2024-05-19"); ("numAdult", VNone)].

(** The short names of the days in English. *)
Definition sample_day_name (n : Z) : string :=
  nth (Z.to_nat n) ["Mon"; "Tue"; "Wed"; "Thu"; "Fri"; "Sat"; "Sun"] "".

(** * Properties *)

(** ** Order of strings *)

Lemma ascii_compare_refl (a : ascii) : Ascii.compare a a = Eq.
Proof. unfold Ascii.compare. apply N.compare_refl. Qed.

Lemma ascii_compare_lt_trans (a b c : ascii) :
  Ascii.compare a b = Lt -> Ascii.compare b c = Lt -> Ascii.compare a c = Lt.
Proof. unfold Ascii.compare. rewrite !N.compare_lt_iff. lia. Qed.

Lemma str_compare_refl (s : string) : String.compare s s = Eq.
Proof.
  induction s as [|a s IH]; simpl; [reflexivity|].
  rewrite ascii_compare_refl. exact IH.
Qed.

Lemma str_compare_lt_trans (a b c : string) :
  String.compare a b = Lt -> String.compare b c = Lt -> String.compare a c = Lt.
Proof.
  revert b c. induction a as [|x a IH]; intros [|y b] [|z c]; simpl; try congruence.
  destruct (Ascii.compare x y) eqn:Hxy; try discriminate.
  - apply Ascii.compare_eq_iff in Hxy. subst y.
    destruct (Ascii.compare x z) eqn:Hxz; try congruence. apply IH.
  - destruct (Ascii.compare y z) eqn:Hyz; try discriminate.
    + apply Ascii.compare_eq_iff in Hyz. subst z. rewrite Hxy. reflexivity.
    + rewrite (ascii_compare_lt_trans x y z Hxy Hyz). reflexivity.
Qed.

Lemma str_leb_refl (a : string) : String.leb a a = true.
Proof. unfold String.leb. rewrite str_compare_refl. reflexivity. Qed.

Lemma str_leb_trans (a b c : string) :
  String.leb a b = true -> String.leb b c = true -> String.leb a c = true.
Proof.
  unfold String.leb. intros Hab Hbc.
  destruct (String.compare a b) eqn:Eab; try discriminate.
  - apply String.compare_eq_iff in Eab. subst b. exact Hbc.
  - destruct (String.compare b c) eqn:Ebc; try discriminate.
    + apply String.compare_eq_iff in Ebc. subst c. rewrite Eab. reflexivity.
    + rewrite (str_compare_lt_trans a b c Eab Ebc). reflexivity.
Qed.

Lemma str_ltb_false_leb (a b : string) :
  String.ltb a b = false -> String.leb b a = true.
Proof.
  unfold String.ltb, String.leb. rewrite (String.compare_antisym a b).
  destruct (String.compare b a); simpl; congruence.
Qed.

Lemma str_ltb_leb (a b : string) : String.ltb a b = true -> String.leb a b = true.
Proof. unfold String.ltb, String.leb. destruct (String.compare a b); congruence. Qed.

Lemma str_ltb_neq (a b : string) : String.ltb a b = true -> String.eqb a b = false.
Proof.
  intros H. apply String.eqb_neq. intros ->.
  unfold String.ltb in H. rewrite str_compare_refl in H. discriminate.
Qed.

(** ** The sort *)

Section Sorting.
Context {A : Type}.
Variable key : A -> string.

Lemma key_le_trans (x y z : A) : key_le key x y -> key_le key y z -> key_le key x z.
Proof. unfold key_le. apply str_leb_trans. Qed.

Lemma insert_by_In (x y : A) (l : list A) :
  In y (insert_by key x l) <-> y = x \/ In y l.
Proof.
  induction l as [|z l IH]; simpl.
  - intuition.
  - destruct (String.ltb (key z) (key x)); simpl; rewrite ?IH; intuition.
Qed.

Lemma sorted_In (y : A) (l : list A) : In y (sorted key l) <-> In y l.
Proof.
  induction l as [|x l IH]; simpl; [tauto|].
  unfold sorted in *. simpl. rewrite insert_by_In, IH. intuition.
Qed.

Lemma insert_by_Forall (P : A -> Prop) (x : A) (l : list A) :
  P x -> Forall P l -> Forall P (insert_by key x l).
Proof.
  intros Hx Hl. induction Hl as [|z l Hz Hl IH]; simpl.
  - constructor; [exact Hx | constructor].
  - destruct (String.ltb (key z) (key x)); repeat constructor; assumption.
Qed.

Lemma insert_by_sorted (x : A) (l : list A) :
  StronglySorted (key_le key) l -> StronglySorted (key_le key) (insert_by key x l).
Proof.
  induction 1 as [|z l Hl IH Hz]; simpl.
  - repeat constructor.
  - destruct (String.ltb (key z) (key x)) eqn:E.
    + constructor; [exact IH|].
      apply insert_by_Forall; [|exact Hz].
      apply str_ltb_leb. exact E.
    + assert (Hxz : key_le key x z) by (apply str_ltb_false_leb; exact E).
      constructor; [constructor; assumption|].
      constructor; [exact Hxz|].
      eapply List.Forall_impl; [|exact Hz].
      intros w Hw. eapply key_le_trans; eassumption.
Qed.

Lemma sorted_is_sorted (l : list A) : StronglySorted (key_le key) (sorted key l).
Proof.
  induction l as [|x l IH]; [constructor|].
  unfold sorted in *. simpl. apply insert_by_sorted. exact IH.
Qed.

(** Inserting puts [x] before the elements of its own key. *)
Lemma insert_by_filter (k : string) (x : A) (l : list A) :
  List.filter (has_key key k) (insert_by key x l)
  = List.filter (has_key key k) (x :: l).
Proof.
  induction l as [|z l IH]; [reflexivity|].
  cbn [insert_by].
  destruct (String.ltb (key z) (key x)) eqn:E; [|reflexivity].
  cbn [List.filter] in *. rewrite IH.
  destruct (has_key key k z) eqn:Ez, (has_key key k x) eqn:Ex; try reflexivity.
  unfold has_key in Ez, Ex.
  apply String.eqb_eq in Ez, Ex. apply str_ltb_neq in E.
  apply String.eqb_neq in E. congruence.
Qed.

Lemma sorted_filter (k : string) (l : list A) :
  List.filter (has_key key k) (sorted key l) = List.filter (has_key key k) l.
Proof.
  induction l as [|x l IH]; [reflexivity|].
  unfold sorted in *. cbn [fold_right]. rewrite insert_by_filter.
  cbn [List.filter]. rewrite IH. reflexivity.
Qed.

Lemma sorted_stable (l : list A) : stable_sort_of key l (sorted key l).
Proof. split; [apply sorted_is_sorted | intros k; apply sorted_filter]. Qed.

Lemma has_key_own (x : A) : has_key key (key x) x = true.
Proof. unfold has_key. apply String.eqb_refl. Qed.

(** Two ascending lists with the same elements of each key, in the same
    order, are one list. *)
Lemma sorted_filter_unique (l1 l2 : list A) :
  StronglySorted (key_le key) l1 -> StronglySorted (key_le key) l2 ->
  (forall k, List.filter (has_key key k) l1 = List.filter (has_key key k) l2) ->
  l1 = l2.
Proof.
  intros H1. revert l2.
  induction H1 as [|a l1 Hs1 IH Ha]; intros l2 H2 Hf.
  - destruct l2 as [|b l2]; [reflexivity|].
    specialize (Hf (key b)). cbn [List.filter] in Hf.
    rewrite has_key_own in Hf. discriminate.
  - destruct H2 as [|b l2 Hs2 Hb].
    + specialize (Hf (key a)). cbn [List.filter] in Hf.
      rewrite has_key_own in Hf. discriminate.
    + assert (Hab : a = b).
      { pose proof (Hf (key a)) as Hfa. cbn [List.filter] in Hfa.
        rewrite has_key_own in Hfa.
        destruct (has_key key (key a) b) eqn:E; [congruence|].
        exfalso.
        assert (Hin_a : In a l2).
        { assert (Hi : In a (List.filter (has_key key (key a)) l2))
            by (rewrite <- Hfa; left; reflexivity).
          apply List.filter_In in Hi. tauto. }
        assert (Hin_b : In b l1).
        { pose proof (Hf (key b)) as Hfb. cbn [List.filter] in Hfb.
          rewrite has_key_own in Hfb.
          destruct (has_key key (key b) a) eqn:E'.
          - unfold has_key in E, E'. rewrite String.eqb_sym in E'. congruence.
          - assert (Hi : In b (List.filter (has_key key (key b)) l1))
              by (rewrite Hfb; left; reflexivity).
            apply List.filter_In in Hi. tauto. }
        rewrite List.Forall_forall in Ha, Hb.
        pose proof (String.leb_antisym _ _ (Ha b Hin_b) (Hb a Hin_a)) as Heq.
        unfold has_key in E. apply String.eqb_neq in E. congruence. }
      subst b. f_equal. apply IH; [exact Hs2|].
      intros k. specialize (Hf k). cbn [List.filter] in Hf.
      destruct (has_key key k a); congruence.
Qed.

(** A list has one stable ascending rearrangement: what any stable sort
    returns is what [sorted] returns. *)
Lemma stable_sort_unique (l l1 l2 : list A) :
  stable_sort_of key l l1 -> stable_sort_of key l l2 -> l1 = l2.
Proof.
  intros [S1 F1] [S2 F2]. apply sorted_filter_unique; [assumption..|].
  intros k. rewrite F1, F2. reflexivity.
Qed.
End Sorting.

(** ** Categorisation *)

Lemma date_eqb_eq (a b : date) : date_eqb a b = true <-> a = b.
Proof.
  destruct a as [y1 m1 d1], b as [y2 m2 d2]. unfold date_eqb. cbn.
  rewrite !andb_true_iff, !Z.eqb_eq. split.
  - intros [[-> ->] ->]. reflexivity.
  - intros [= -> -> ->]. auto.
Qed.

Lemma date_ltb_lt (a b : date) : date_ltb a b = true <-> date_lt a b.
Proof.
  unfold date_ltb, date_lt.
  rewrite !orb_true_iff, !andb_true_iff, !orb_true_iff, !andb_true_iff,
    !Z.ltb_lt, !Z.eqb_eq.
  tauto.
Qed.

Lemma date_lt_irrefl (a : date) : ~ date_lt a a.
Proof. unfold date_lt. lia. Qed.

Lemma eq_str_black (r : Reservation) : eq_str (status r) "black" = true <-> black r.
Proof.
  unfold black. destruct (status r); cbn; split; try discriminate.
  - intros H. apply String.eqb_eq in H. congruence.
  - intros [= ->]. reflexivity.
Qed.

Lemma not_black_iff (r : Reservation) :
  negb (eq_str (status r) "black") = true <-> ~ black r.
Proof.
  rewrite <- eq_str_black. destruct (eq_str (status r) "black"); cbn; split;
    congruence.
Qed.

(** What the loop has built after running over [rs] from the lists [acc]. *)
Lemma categorize_fold (t : date) (rs : list Reservation) (acc : buckets) :
  fold_left (categorize_step t) rs acc
  = mk_buckets (arrivals acc ++ List.filter (arrives t) rs)
      (departures acc ++ List.filter (departs t) rs)
      (stay_through acc ++ List.filter (stays t) rs).
Proof.
  revert acc. induction rs as [|r rs IH]; intros acc.
  - cbn. rewrite !app_nil_r. destruct acc; reflexivity.
  - cbn [fold_left List.filter]. rewrite IH. clear IH.
    unfold categorize_step, arrives, departs, stays.
    destruct (eq_str (status r) "black"); cbn [negb andb]; [reflexivity|].
    destruct (date_eqb (checkin_date r) t), (date_eqb (checkout_date r) t),
      (date_ltb (checkin_date r) t && date_ltb t (checkout_date r));
      cbn; rewrite <- ?app_assoc; reflexivity.
Qed.

Lemma categorize_loop_buckets (t : date) (rs : list Reservation) :
  categorize_loop t rs
  = mk_buckets (List.filter (arrives t) rs) (List.filter (departs t) rs)
      (List.filter (stays t) rs).
Proof. unfold categorize_loop. rewrite categorize_fold. reflexivity. Qed.

Lemma categorize_reservations_eq (rs : list Reservation) (t : date) :
  categorize_reservations rs t
  = (sorted room_name (List.filter (arrives t) rs),
     sorted room_name (List.filter (departs t) rs),
     sorted room_name (List.filter (stays t) rs)).
Proof. unfold categorize_reservations. rewrite categorize_loop_buckets. reflexivity. Qed.

Lemma arrives_iff (t : date) (r : Reservation) :
  arrives t r = true <-> ~ black r /\ checkin_date r = t.
Proof. unfold arrives. rewrite andb_true_iff, not_black_iff, date_eqb_eq. tauto. Qed.

Lemma departs_iff (t : date) (r : Reservation) :
  departs t r = true <-> ~ black r /\ checkout_date r = t.
Proof. unfold departs. rewrite andb_true_iff, not_black_iff, date_eqb_eq. tauto. Qed.

Lemma stays_iff (t : date) (r : Reservation) :
  stays t r = true
  <-> ~ black r /\ date_lt (checkin_date r) t /\ date_lt t (checkout_date r).
Proof.
  unfold stays. rewrite !andb_true_iff, not_black_iff, !date_ltb_lt. tauto.
Qed.

(** C1: a reservation is among the arrivals exactly when it is in the input,
    is not black and checks in on the target date; among the departures
    exactly when it is in the input, is not black and checks out on the
    target date; among the stay-through exactly when it is in the input,
    is not black and the target date lies strictly between its two dates.
    A black reservation is in none of the lists, and a reservation that is
    not black and checks in and out on the target date is in arrivals and
    departures and not in stay-through. *)
Theorem categorize_membership (rs : list Reservation) (t : date) (r : Reservation) :
  let '(a, d, s) := categorize_reservations rs t in
  (In r a <-> In r rs /\ ~ black r /\ checkin_date r = t)
  /\ (In r d <-> In r rs /\ ~ black r /\ checkout_date r = t)
  /\ (In r s <-> In r rs /\ ~ black r
                 /\ date_lt (checkin_date r) t /\ date_lt t (checkout_date r))
  /\ (black r -> ~ In r a /\ ~ In r d /\ ~ In r s)
  /\ (In r rs -> ~ black r -> checkin_date r = t -> checkout_date r = t ->
      In r a /\ In r d /\ ~ In r s).
Proof.
  rewrite categorize_reservations_eq.
  rewrite !sorted_In, !List.filter_In, arrives_iff, departs_iff, stays_iff.
  pose proof (date_lt_irrefl t) as Hirr.
  repeat split; try tauto.
  intros [_ [_ [Hlt _]]].
  match goal with E : checkin_date r = t |- _ => rewrite E in Hlt end.
  tauto.
Qed.

(** C8: each of the three lists is in ascending order of the room labels as
    strings compare, character by character and not by number: the label
    101 comes before the label 2. *)
Theorem categorize_sorted (rs : list Reservation) (t : date) :
  let '(a, d, s) := categorize_reservations rs t in
  StronglySorted (key_le room_name) a
  /\ StronglySorted (key_le room_name) d
  /\ StronglySorted (key_le room_name) s
  /\ String.ltb "101" "2" = true
  /\ String.ltb "2" "101" = false.
Proof.
  rewrite categorize_reservations_eq.
  repeat split; apply sorted_is_sorted.
Qed.

(** C10: in each of the three lists the reservations of one room label
    stand in the order they have in the input. *)
Theorem categorize_stable (rs : list Reservation) (t : date) (k : string) :
  let '(a, d, s) := categorize_reservations rs t in
  List.filter (has_key room_name k) a
  = List.filter (has_key room_name k) (List.filter (arrives t) rs)
  /\ List.filter (has_key room_name k) d
     = List.filter (has_key room_name k) (List.filter (departs t) rs)
  /\ List.filter (has_key room_name k) s
     = List.filter (has_key room_name k) (List.filter (stays t) rs).
Proof.
  rewrite categorize_reservations_eq.
  repeat split; apply sorted_filter.
Qed.

Lemma categorize_is_categorization (rs : list Reservation) (t : date) :
  is_categorization rs t (categorize_reservations rs t).
Proof.
  rewrite categorize_reservations_eq. unfold is_categorization. cbn [fst snd].
  repeat split; try apply sorted_is_sorted; intros k; apply sorted_filter.
Qed.

(** C9: the answer for a list of reservations and a date is determined:
    what [categorize_reservations] returns is an answer, and any two answers
    for the same input, from this run or another, have the same three lists
    with the same contents in the same order. *)
Theorem categorize_idempotent (rs : list Reservation) (t : date) :
  is_categorization rs t (categorize_reservations rs t)
  /\ forall first second : list Reservation * list Reservation * list Reservation,
      is_categorization rs t first -> is_categorization rs t second -> first = second.
Proof.
  split; [apply categorize_is_categorization|].
  intros [[a1 d1] s1] [[a2 d2] s2] (Ha1 & Hd1 & Hs1) (Ha2 & Hd2 & Hs2).
  cbn [fst snd] in *.
  rewrite (stable_sort_unique room_name _ _ _ Ha1 Ha2).
  rewrite (stable_sort_unique room_name _ _ _ Hd1 Hd2).
  rewrite (stable_sort_unique room_name _ _ _ Hs1 Hs2).
  reflexivity.
Qed.

(** The sample: the black reservation is nowhere, the zero-night one is in
    arrivals and departures, 101 stands before 2, and the two reservations
    of room 101 keep their order. *)
Lemma categorize_sample :
  categorize_reservations sample_reservations (mk_date 2024 5 17)
  = ([res_101; res_101_later; res_zero_night; res_2], [res_zero_night], [res_stay]).
Proof. vm_compute. reflexivity. Qed.

(** ** Fetching *)

Lemma has_id_key (k kb : pykey) (b : record) :
  booking_key b = OK kb -> has_id k b = bool_decide (kb = k).
Proof. unfold has_id. intros ->. reflexivity. Qed.

(** The loop, started with the identifiers [seen] and the records
    [combined], appends the first record of every identifier not yet seen. *)
Lemma combine_loop_spec (l : list record) :
  forall (seen : gset pykey) (combined : list record),
    Forall (fun b => is_ok (booking_key b) = true) l ->
    exists res,
      combine_loop seen combined l = OK (combined ++ res)
      /\ sublist res l
      /\ forall k, List.filter (has_id k) res
                   = if decide (k ∈ seen) then []
                     else take 1 (List.filter (has_id k) l).
Proof.
  induction l as [|b rest IH]; intros seen combined Hall.
  - exists []. cbn. rewrite app_nil_r. repeat split; [constructor|].
    intros k. destruct (decide (k ∈ seen)); reflexivity.
  - inversion Hall as [|? ? Hb Hrest]; subst.
    destruct (booking_key b) as [kb|] eqn:Ekb; [|discriminate]. clear Hb.
    cbn [combine_loop]. fold (booking_key b). rewrite Ekb. cbn [bind].
    destruct (decide (kb ∈ seen)) as [Hin|Hnotin].
    + destruct (IH seen combined Hrest) as (res & Hrun & Hsub & Hfil).
      exists res. split; [exact Hrun|]. split; [apply sublist_cons; exact Hsub|].
      intros k. rewrite Hfil. cbn [List.filter].
      rewrite (has_id_key k kb b Ekb).
      destruct (decide (k ∈ seen)) as [|Hk]; [reflexivity|].
      rewrite bool_decide_eq_false_2; [reflexivity|].
      intros ->. contradiction.
    + destruct (IH ({[ kb ]} ∪ seen) (combined ++ [b]) Hrest)
        as (res & Hrun & Hsub & Hfil).
      exists (b :: res). split.
      { rewrite Hrun. rewrite <- app_assoc. reflexivity. }
      split; [apply sublist_skip; exact Hsub|].
      intros k. cbn [List.filter]. rewrite (has_id_key k kb b Ekb), Hfil.
      destruct (decide (kb = k)) as [->|Hne].
      * rewrite bool_decide_eq_true_2 by reflexivity.
        rewrite decide_True by set_solver.
        rewrite decide_False by exact Hnotin. reflexivity.
      * rewrite bool_decide_eq_false_2 by exact Hne.
        destruct (decide (k ∈ seen)) as [Hk|Hk].
        -- rewrite decide_True by set_solver. reflexivity.
        -- assert (Hk' : k ∉ {[ kb ]} ∪ seen).
           { intros [Hs|Hs]%elem_of_union; [|contradiction].
             apply elem_of_singleton in Hs. congruence. }
           rewrite decide_False by exact Hk'. reflexivity.
Qed.

(** Without a range error at the thirty-day shifts, fetching is combining
    the three answers of the client. *)
Lemma fetch_is_combine (client : booking_client) (t start_date end_date : date) :
  date_add_days t (-30) = OK start_date ->
  date_add_days t 30 = OK end_date ->
  fetch_all_relevant_bookings client t
  = combine_bookings
      (client (mk_query (Some "arrivals") (Some t) (Some t) None None)).1
      (client (mk_query (Some "departures") None None (Some t) (Some t))).1
      (client (mk_query None (Some start_date) (Some t) (Some t) (Some end_date))).1.
Proof.
  intros Hs He. unfold fetch_all_relevant_bookings. rewrite Hs, He. reflexivity.
Qed.

Lemma existsb_same_id (b : record) (kb : pykey) (before : list record) :
  booking_key b = OK kb ->
  existsb (same_id b) before = existsb (has_id kb) before.
Proof. intros E. unfold same_id. rewrite E. reflexivity. Qed.

(** The set of the loop holds the identifiers of the records it has passed:
    started with the identifiers of [before], the loop appends the records
    of [l] that [first_seen_after before] keeps, in their order. *)
Lemma combine_loop_first_seen (l : list record) :
  forall (seen : gset pykey) (combined before : list record),
    (forall k, k ∈ seen <-> existsb (has_id k) before = true) ->
    Forall (fun b => is_ok (booking_key b) = true) l ->
    combine_loop seen combined l = OK (combined ++ first_seen_after before l).
Proof.
  induction l as [|b rest IH]; intros seen combined before Hseen Hall.
  - cbn. rewrite app_nil_r. reflexivity.
  - inversion Hall as [|? ? Hb Hrest]; subst.
    destruct (booking_key b) as [kb|] eqn:Ekb; [|discriminate]. clear Hb.
    cbn [combine_loop first_seen_after]. fold (booking_key b). rewrite Ekb.
    cbn [bind]. rewrite (existsb_same_id b kb before Ekb).
    assert (Hnext : forall k, k ∈ {[ kb ]} ∪ seen
                              <-> existsb (has_id k) (before ++ [b]) = true).
    { intros k. rewrite existsb_app. cbn [existsb].
      rewrite (has_id_key k kb b Ekb), orb_false_r, orb_true_iff.
      rewrite elem_of_union, elem_of_singleton, <- Hseen, bool_decide_eq_true.
      split; intros [H|H]; auto. }
    destruct (decide (kb ∈ seen)) as [Hin|Hnotin].
    + rewrite (proj1 (Hseen kb) Hin). apply IH; [|exact Hrest].
      intros k. rewrite <- Hnext, elem_of_union, elem_of_singleton.
      split; [auto | intros [->|H]; assumption].
    + destruct (existsb (has_id kb) before) eqn:E;
        [apply Hseen in E; contradiction|].
      rewrite (IH _ _ (before ++ [b]) Hnext Hrest), <- app_assoc. reflexivity.
Qed.

(** What [first_seen_after] keeps, read at any place of the list: the
    record there stays when no record of [before] and none before it in the
    list has its identifier, and it stands between what stays of the records
    before it and what stays of the records after it. *)
Lemma first_seen_after_split (l1 : list record) :
  forall (before : list record) (b : record) (l2 : list record),
    first_seen_after before (l1 ++ b :: l2)
    = first_seen_after before l1
      ++ (if existsb (same_id b) (before ++ l1) then [] else [b])
      ++ first_seen_after (before ++ l1 ++ [b]) l2.
Proof.
  induction l1 as [|x l1 IH]; intros before b l2; cbn [app first_seen_after].
  - rewrite app_nil_r. destruct (existsb (same_id b) before); reflexivity.
  - rewrite IH, <- !app_assoc. cbn [app].
    destruct (existsb (same_id x) before); reflexivity.
Qed.

(** C3: for records whose identifiers are strings or integers, or other
    values that can be hashed, the combined result is the concatenation of
    arrivals, departures and stay-through without the records whose
    identifier a record before them has: every record that stays is whole
    and in its place in the order of the concatenation, and for each
    identifier the one record that stays is the first that has it. *)
Theorem combine_first_seen (a d s : list record) :
  Forall (fun b => hashable (dict_get b "id" VNone)) (a ++ d ++ s) ->
  combine_bookings a d s = OK (first_seen (a ++ d ++ s))
  /\ sublist (first_seen (a ++ d ++ s)) (a ++ d ++ s)
  /\ forall k, List.filter (has_id k) (first_seen (a ++ d ++ s))
               = take 1 (List.filter (has_id k) (a ++ d ++ s)).
Proof.
  intros Hall. unfold combine_bookings.
  destruct (combine_loop_spec (a ++ d ++ s) ∅ [] Hall) as (res & Hrun & Hsub & Hfil).
  assert (Hfirst : combine_loop ∅ [] (a ++ d ++ s) = OK (first_seen (a ++ d ++ s))).
  { apply (combine_loop_first_seen (a ++ d ++ s) ∅ [] []); [|exact Hall].
    intros k. cbn [existsb]. split; [set_solver | discriminate]. }
  rewrite Hfirst in Hrun. injection Hrun as Hres. cbn [app] in Hres.
  subst res. split; [exact Hfirst|]. split; [exact Hsub|].
  intros k. rewrite Hfil. apply decide_False. set_solver.
Qed.

Lemma combine_first_seen_sample :
  combine_bookings sample_arrivals sample_departures sample_stay_through
  = OK (first_seen (sample_arrivals ++ sample_departures ++ sample_stay_through))
  /\ sublist (first_seen (sample_arrivals ++ sample_departures ++ sample_stay_through))
       (sample_arrivals ++ sample_departures ++ sample_stay_through)
  /\ forall k,
       List.filter (has_id k)
         (first_seen (sample_arrivals ++ sample_departures ++ sample_stay_through))
       = take 1 (List.filter (has_id k)
                   (sample_arrivals ++ sample_departures ++ sample_stay_through)).
Proof.
  apply (combine_first_seen sample_arrivals sample_departures sample_stay_through).
  repeat constructor.
Defined.

(** A record that comes a second time, the same in every field, gives way
    to its first occurrence like any other duplicate: the result keeps the
    order in which the identifiers were first seen. *)
Lemma combine_repeated_record :
  combine_bookings sample_arrivals sample_departures sample_arrivals
  = OK sample_combined
  /\ first_seen (sample_arrivals ++ sample_departures ++ sample_arrivals)
     = sample_combined.
Proof. vm_compute. split; reflexivity. Qed.

(** Beyond the identifiers of the data model: an identifier that is an array
    cannot be put in the set, and combining raises [TypeError]. *)
Lemma combine_array_id_raises :
  combine_bookings [sample_array_id] [] [] = Err TypeError.
Proof. reflexivity. Qed.

(** The sample: of the three records with identifier 123 the first stays,
    with its fields. *)
Lemma combine_sample_result :
  combine_bookings sample_arrivals sample_departures sample_stay_through
  = OK [ record_of [("id", VStr "123"); ("lastName", VStr "Arnold")];
         record_of [("id", VInt 7); ("lastName", VStr "Caduff")] ].
Proof. vm_compute. reflexivity. Qed.

(** ** Parsing a booking *)

Lemma hashable_VInt (z : Z) : hashable (VInt z).
Proof. reflexivity. Qed.

(** An identifier that [int()] rejects is no integer key. *)
Lemma py_int_fails_no_int_key (v : value) (e : exn) (k : pykey) :
  py_int v = Err e -> hash_key v = OK k -> forall z, k <> KInt z.
Proof.
  destruct v; cbn; intros Hi Hk n; try discriminate; congruence.
Qed.

Lemma room_unit_ids_both (booking : record) (a b : Z) :
  py_int (dict_get booking "roomId" (VInt 0)) = OK a ->
  py_int (dict_get booking "unitId" (VInt 0)) = OK b ->
  room_unit_ids booking = (VInt a, VInt b).
Proof. intros Ha Hb. unfold room_unit_ids. rewrite Ha, Hb. reflexivity. Qed.

Lemma room_unit_ids_raw (booking : record) :
  is_ok (py_int (dict_get booking "roomId" (VInt 0)))
  && is_ok (py_int (dict_get booking "unitId" (VInt 0))) = false ->
  room_unit_ids booking
  = (dict_get booking "roomId" (VInt 0), dict_get booking "unitId" (VInt 0)).
Proof.
  unfold room_unit_ids.
  destruct (py_int (dict_get booking "roomId" (VInt 0))); [|reflexivity].
  destruct (py_int (dict_get booking "unitId" (VInt 0))); [discriminate|reflexivity].
Qed.

Lemma room_unit_ids_hashable (booking : record) :
  hashable (dict_get booking "roomId" (VInt 0)) ->
  hashable (dict_get booking "unitId" (VInt 0)) ->
  hashable (room_unit_ids booking).1 /\ hashable (room_unit_ids booking).2.
Proof.
  intros Hr Hu. unfold room_unit_ids.
  destruct (py_int (dict_get booking "roomId" (VInt 0)));
    [destruct (py_int (dict_get booking "unitId" (VInt 0)))|];
    cbn [fst snd]; auto using hashable_VInt.
Qed.

Lemma room_lookup_get_hashable (r u : value) (default : string) :
  hashable r -> hashable u -> exists label, room_lookup_get r u default = OK label.
Proof.
  unfold hashable, room_lookup_get. intros Hr Hu.
  destruct (hash_key r); [|discriminate]. destruct (hash_key u); [|discriminate].
  cbn [bind]. eexists. reflexivity.
Qed.

Lemma room_lookup_get_unhashable (r u : value) (default : string) :
  ~ (hashable r /\ hashable u) -> room_lookup_get r u default = Err TypeError.
Proof.
  unfold hashable, room_lookup_get. intros H.
  destruct r, u; cbn in *; try reflexivity; exfalso; apply H; split; reflexivity.
Qed.

(** A pair with a part that [int()] rejects is not in the table. *)
Lemma room_lookup_get_raw_miss (r u : value) (default : string) :
  hashable r -> hashable u ->
  is_ok (py_int r) && is_ok (py_int u) = false ->
  room_lookup_get r u default = OK default.
Proof.
  unfold hashable, room_lookup_get. intros Hr Hu Hint.
  destruct (hash_key r) as [kr|] eqn:Er; [|discriminate].
  destruct (hash_key u) as [ku|] eqn:Eu; [|discriminate].
  cbn [bind].
  destruct (py_int r) as [|er] eqn:Ir.
  - destruct (py_int u) as [|eu] eqn:Iu; [discriminate|].
    pose proof (py_int_fails_no_int_key u eu ku Iu Eu) as Hno.
    destruct kr, ku; try reflexivity. exfalso. exact (Hno _ eq_refl).
  - pose proof (py_int_fails_no_int_key r er kr Ir Er) as Hno.
    destruct kr; try reflexivity. exfalso. exact (Hno _ eq_refl).
Qed.

(** C6 (as amended): the two identifiers are converted together.  When
    [int()] accepts both, both are integers; when it rejects either, both
    raw values are kept, the one it accepts too.  The raw pair is then not in
    the room table: the label is the synthesized one when both raw values can
    be hashed, and the lookup raises [TypeError] when one cannot. *)
Theorem room_unit_ids_joint (booking : record) :
  let raw_room := dict_get booking "roomId" (VInt 0) in
  let raw_unit := dict_get booking "unitId" (VInt 0) in
  (forall a b, py_int raw_room = OK a -> py_int raw_unit = OK b ->
               room_unit_ids booking = (VInt a, VInt b))
  /\ (is_ok (py_int raw_room) && is_ok (py_int raw_unit) = false ->
      room_unit_ids booking = (raw_room, raw_unit)
      /\ (hashable raw_room -> hashable raw_unit ->
          resolve_room_name booking = OK (synthesized_label raw_room raw_unit))
      /\ (~ (hashable raw_room /\ hashable raw_unit) ->
          resolve_room_name booking = Err TypeError)).
Proof.
  cbv zeta. split; [apply room_unit_ids_both|].
  intros Hfail. pose proof (room_unit_ids_raw booking Hfail) as Hraw.
  split; [exact Hraw|]. unfold resolve_room_name. rewrite Hraw. cbn [fst snd].
  split.
  - intros Hr Hu. apply room_lookup_get_raw_miss; assumption.
  - apply room_lookup_get_unhashable.
Qed.

Lemma room_unit_ids_joint_sample :
  room_unit_ids sample_padded_room = (VStr "007", VStr "A")
  /\ resolve_room_name sample_padded_room = OK "Room 007-A".
Proof.
  destruct (room_unit_ids_joint sample_padded_room) as [_ H].
  destruct H as (Hraw & Hlabel & _); [reflexivity|].
  split; [exact Hraw|]. apply Hlabel; reflexivity.
Defined.

(** C6 (as stated) fails where [int()] accepts the room identifier and
    rejects the unit identifier: the room identifier 007 is not kept as the
    integer 7 but as its raw text, which shows in the label. *)
Lemma room_id_kept_raw :
  py_int (VStr "007") = OK 7
  /\ room_unit_ids sample_padded_room = (VStr "007", VStr "A")
  /\ resolve_room_name sample_padded_room = OK "Room 007-A".
Proof. vm_compute. repeat split; reflexivity. Qed.

(** ** The room table *)

Lemma room_table_keys_NoDup : NoDup (map fst room_table).
Proof. apply (bool_decide_unpack _). vm_compute. reflexivity. Qed.

Lemma room_lookup_In (x y : Z) (label : string) :
  room_lookup !! (x, y) = Some label <-> In (x, y, label) room_table.
Proof.
  unfold room_lookup. rewrite <- list_elem_of_In.
  symmetry. apply elem_of_list_to_map. exact room_table_keys_NoDup.
Qed.

(** The label of a returned reservation is the label resolved for the
    record. *)
Lemma parse_booking_data_room_name (booking : record) (r : Reservation) :
  parse_booking_data booking = OK r ->
  resolve_room_name booking = OK (room_name r)
  /\ room_id r = py_str (room_unit_ids booking).1
  /\ unit_id r = py_str (room_unit_ids booking).2.
Proof.
  unfold parse_booking_data, resolve_room_name, new_Reservation.
  destruct (room_lookup_get _ _ _) as [label|]; [|discriminate]. cbn [bind].
  destruct (strptime (dict_get booking "departure" (VStr ""))); [|discriminate].
  destruct (strptime (dict_get booking "arrival" (VStr ""))); [|discriminate].
  cbn [bind]. intros [= <-]. repeat split; reflexivity.
Qed.

(** C7 (as amended): the room table gives each pair at most one label.  When
    the two identifiers [parse_booking_data] works with can be hashed, the
    label is the one the table gives their pair, and the synthesized one
    when the table has no label for the pair; it is the room label of the
    reservation returned.  The pair (564321, 1) gives 101 and the pair
    (999999, 1) gives Room 999999-1. *)
Theorem room_label_resolution (booking : record) :
  hashable (room_unit_ids booking).1 ->
  hashable (room_unit_ids booking).2 ->
  NoDup (map fst room_table)
  /\ (forall x y label,
        hash_key (room_unit_ids booking).1 = OK (KInt x) ->
        hash_key (room_unit_ids booking).2 = OK (KInt y) ->
        In (x, y, label) room_table ->
        resolve_room_name booking = OK label)
  /\ ((forall x y label,
         hash_key (room_unit_ids booking).1 = OK (KInt x) ->
         hash_key (room_unit_ids booking).2 = OK (KInt y) ->
         ~ In (x, y, label) room_table) ->
      resolve_room_name booking
      = OK (synthesized_label (room_unit_ids booking).1 (room_unit_ids booking).2))
  /\ (forall r, parse_booking_data booking = OK r ->
                resolve_room_name booking = OK (room_name r))
  /\ resolve_room_name sample_booking = OK "101"
  /\ resolve_room_name sample_unknown_room = OK "Room 999999-1".
Proof.
  intros Hr Hu. split; [exact room_table_keys_NoDup|].
  split; [|split; [|split]].
  - unfold resolve_room_name, room_lookup_get.
    intros x y label -> -> Hin. cbn [bind].
    apply room_lookup_In in Hin. rewrite Hin. reflexivity.
  - unfold resolve_room_name, room_lookup_get, hashable in *.
    destruct (hash_key (room_unit_ids booking).1) as [kr|]; [|discriminate].
    destruct (hash_key (room_unit_ids booking).2) as [ku|]; [|discriminate].
    cbn [bind]. intros Hmiss. destruct kr as [|x|], ku as [|y|]; try reflexivity.
    destruct (room_lookup !! (x, y)) as [label|] eqn:E; [|reflexivity].
    apply room_lookup_In in E. exfalso. exact (Hmiss x y label eq_refl eq_refl E).
  - intros r Hparse. apply (parse_booking_data_room_name booking r Hparse).
  - split; vm_compute; reflexivity.
Qed.

Lemma room_label_resolution_sample :
  resolve_room_name sample_booking = OK "101"
  /\ resolve_room_name sample_unknown_room
     = OK (synthesized_label (VInt 999999) (VInt 1)).
Proof.
  split.
  - destruct (room_label_resolution sample_booking) as (_ & Hhit & _);
      [reflexivity | reflexivity |].
    apply (Hhit 564321 1 "101"); [reflexivity | reflexivity |].
    apply room_lookup_In. reflexivity.
  - destruct (room_label_resolution sample_unknown_room) as (_ & _ & Hmiss & _);
      [reflexivity | reflexivity |].
    apply Hmiss. intros x y label Hx Hy Hin.
    apply room_lookup_In in Hin.
    injection Hx as <-. injection Hy as <-.
    vm_compute in Hin. discriminate Hin.
Defined.

(** C7 (as stated) fails on a record whose unit identifier is a JSON object:
    the pair is not in the table, and no label comes out, the lookup raises
    [TypeError]. *)
Lemma room_label_object_unit_raises :
  resolve_room_name sample_object_unit = Err TypeError
  /\ parse_booking_data sample_object_unit = Err TypeError.
Proof. vm_compute. split; reflexivity. Qed.

(** ** Nights *)

Lemma strptime_midnight (v : value) (dt : datetime) :
  strptime v = OK dt -> dt = mk_datetime (dt_date dt) 0 0 0 0.
Proof.
  destruct v; try discriminate. cbn. unfold strptime_str.
  destruct (match_ymd (chars s)) as [[[[y m] d] [|c rest]]|]; try discriminate.
  destruct (new_date y m d); cbn; [|discriminate].
  intros [= <-]. reflexivity.
Qed.

Lemma strptime_error (v : value) (e : exn) :
  strptime v = Err e -> e = ValueError \/ e = TypeError.
Proof.
  destruct v; cbn; try (intros [= <-]; auto; fail).
  unfold strptime_str, new_date.
  destruct (match_ymd (chars s)) as [[[[y m] d] [|c rest]]|];
    try (intros [= <-]; auto; fail).
  destruct (_ && _); cbn; [discriminate|]. intros [= <-]. auto.
Qed.

Lemma room_lookup_get_error (r u : value) (default : string) (e : exn) :
  room_lookup_get r u default = Err e -> e = TypeError.
Proof.
  unfold room_lookup_get.
  destruct r, u; cbn; try discriminate; intros [= <-]; reflexivity.
Qed.

(** The days between two midnights are the days between their dates. *)
Lemma datetime_sub_midnight (a b : date) :
  days (datetime_sub (mk_datetime a 0 0 0 0) (mk_datetime b 0 0 0 0))
  = days (date_sub a b).
Proof. reflexivity. Qed.

Lemma date_sub_days (a b : date) : days (date_sub a b) = toordinal a - toordinal b.
Proof.
  unfold date_sub, new_timedelta. cbn [days].
  change ((0 + 0 / 1000000) / 86400) with 0. lia.
Qed.

(** C2 (as amended): when both date fields parse and the room and unit
    identifiers can be hashed, [parse_booking_data] returns a reservation
    whose dates are the parsed ones and whose nights are the days from its
    check-in date to its check-out date; when a date field does not parse,
    it returns no reservation and raises [ValueError] or [TypeError]. *)
Theorem parse_nights (booking : record) :
  (forall arrival departure,
      strptime (dict_get booking "arrival" (VStr "")) = OK arrival ->
      strptime (dict_get booking "departure" (VStr "")) = OK departure ->
      hashable (dict_get booking "roomId" (VInt 0)) ->
      hashable (dict_get booking "unitId" (VInt 0)) ->
      exists r,
        parse_booking_data booking = OK r
        /\ checkin_date r = dt_date arrival
        /\ checkout_date r = dt_date departure
        /\ nights r = days (date_sub (checkout_date r) (checkin_date r))
        /\ nights r = toordinal (checkout_date r) - toordinal (checkin_date r))
  /\ (is_ok (strptime (dict_get booking "arrival" (VStr "")))
      && is_ok (strptime (dict_get booking "departure" (VStr ""))) = false ->
      exists e,
        parse_booking_data booking = Err e /\ (e = ValueError \/ e = TypeError)).
Proof.
  split.
  - intros arrival departure Ha Hd Hr Hu.
    destruct (room_unit_ids_hashable booking Hr Hu) as [Hr' Hu'].
    unfold parse_booking_data.
    destruct (room_lookup_get_hashable _ _
                (synthesized_label (room_unit_ids booking).1 (room_unit_ids booking).2)
                Hr' Hu') as [label Hl].
    rewrite Hl, Hd, Ha. cbn [bind]. unfold new_Reservation. rewrite Ha, Hd.
    cbn [bind]. eexists. split; [reflexivity|].
    cbn [checkin_date checkout_date nights].
    split; [reflexivity|]. split; [reflexivity|].
    pose proof (strptime_midnight _ _ Ha) as Ma.
    pose proof (strptime_midnight _ _ Hd) as Md.
    destruct arrival as [da ha ma sa ua], departure as [dd hd md sd ud].
    cbn [dt_date] in *. injection Ma as -> -> -> ->. injection Md as -> -> -> ->.
    rewrite datetime_sub_midnight.
    split; [reflexivity|]. apply date_sub_days.
  - intros Hfail. unfold parse_booking_data.
    destruct (room_lookup_get _ _ _) as [label|e] eqn:El; cbn [bind].
    + destruct (strptime (dict_get booking "departure" (VStr ""))) as [dep|e]
        eqn:Ed; cbn [bind].
      * destruct (strptime (dict_get booking "arrival" (VStr ""))) as [arr|e]
          eqn:Ea; cbn [bind]; [discriminate|].
        exists e. split; [reflexivity|]. eapply strptime_error; eassumption.
      * exists e. split; [reflexivity|]. eapply strptime_error; eassumption.
    + exists e. split; [reflexivity|]. right.
      eapply room_lookup_get_error; eassumption.
Qed.

Lemma parse_nights_sample :
  exists r,
    parse_booking_data sample_booking = OK r
    /\ checkin_date r = mk_date 2024 5 17
    /\ checkout_date r = mk_date 2024 5 19
    /\ nights r = days (date_sub (checkout_date r) (checkin_date r))
    /\ nights r = toordinal (checkout_date r) - toordinal (checkin_date r).
Proof.
  apply (proj1 (parse_nights sample_booking)
           (mk_datetime (mk_date 2024 5 17) 0 0 0 0)
           (mk_datetime (mk_date 2024 5 19) 0 0 0 0)); reflexivity.
Defined.

(** The booking of the scenario: two nights, room 101. *)
Lemma parse_sample_booking :
  exists r,
    parse_booking_data sample_booking = OK r
    /\ nights r = 2 /\ room_name r = "101"
    /\ checkin_date r = mk_date 2024 5 17 /\ checkout_date r = mk_date 2024 5 19.
Proof. eexists. vm_compute. repeat split; reflexivity. Qed.

(** C2 (as stated) fails on a record whose dates parse and whose room
    identifier is a JSON array: no reservation is returned, the room lookup
    raises [TypeError]. *)
Lemma parse_array_room_raises :
  is_ok (strptime (dict_get sample_array_room "arrival" (VStr ""))) = true
  /\ is_ok (strptime (dict_get sample_array_room "departure" (VStr ""))) = true
  /\ parse_booking_data sample_array_room = Err TypeError.
Proof. vm_compute. repeat split; reflexivity. Qed.

(** ** Stored tokens *)

Lemma truthy_VStr (s : string) : s <> "" -> truthy (VStr s) = true.
Proof. intros H. cbn. apply negb_true_iff, String.eqb_neq. exact H. Qed.

Lemma get_tokens_empty (rt : Runtime) (c : client) :
  storage_tokens c = ∅ -> get_tokens rt c = (OK None, c).
Proof. intros H. unfold get_tokens. rewrite decide_True by exact H. reflexivity. Qed.

Lemma get_tokens_no_expiry (rt : Runtime) (c : client) :
  storage_tokens c <> ∅ ->
  truthy (dict_get (storage_tokens c) "expires_at" VNone) = false ->
  get_tokens rt c = (OK (Some (storage_tokens c)), c).
Proof.
  intros H He. unfold get_tokens. rewrite decide_False by exact H.
  rewrite He. reflexivity.
Qed.

Lemma get_tokens_expiry (rt : Runtime) (c : client) (s : string) (e : time) :
  storage_tokens c <> ∅ ->
  dict_get (storage_tokens c) "expires_at" VNone = VStr s ->
  s <> "" ->
  fromisoformat rt s = OK e ->
  get_tokens rt c
  = (if e <=? clock rt (clock_reads c)
     then if truthy (dict_get (storage_tokens c) "refresh_token" VNone)
          then OK (Some (storage_tokens c)) else OK None
     else OK (Some (storage_tokens c)),
     (now rt c).2).
Proof.
  intros H Hs Hne He. unfold get_tokens. rewrite decide_False by exact H.
  rewrite Hs, (truthy_VStr s Hne). cbn [datetime_fromisoformat]. rewrite He.
  unfold now. cbn [fst snd].
  destruct (e <=? clock rt (clock_reads c)); [|reflexivity].
  destruct (truthy _); reflexivity.
Qed.

(** C4: [get_tokens] returns nothing when no bundle is stored; the bundle
    when it has no expiry or its expiry is after the clock reading; the
    bundle too when the expiry is not after the reading and a refresh token
    is present; and nothing when the expiry is not after the reading and no
    refresh token is present. *)
Theorem get_tokens_cases (rt : Runtime) (c : client) :
  let tokens := storage_tokens c in
  let t := clock rt (clock_reads c) in
  (tokens = ∅ -> (get_tokens rt c).1 = OK None)
  /\ (tokens <> ∅ -> truthy (dict_get tokens "expires_at" VNone) = false ->
      (get_tokens rt c).1 = OK (Some tokens))
  /\ (forall s e,
        tokens <> ∅ ->
        dict_get tokens "expires_at" VNone = VStr s -> s <> "" ->
        fromisoformat rt s = OK e ->
        (t < e -> (get_tokens rt c).1 = OK (Some tokens))
        /\ (e <= t -> truthy (dict_get tokens "refresh_token" VNone) = true ->
            (get_tokens rt c).1 = OK (Some tokens))
        /\ (e <= t -> truthy (dict_get tokens "refresh_token" VNone) = false ->
            (get_tokens rt c).1 = OK None)).
Proof.
  cbv zeta. split; [|split].
  - intros H. rewrite get_tokens_empty by exact H. reflexivity.
  - intros H He. rewrite get_tokens_no_expiry by assumption. reflexivity.
  - intros s e H Hs Hne He. rewrite (get_tokens_expiry rt c s e) by assumption.
    cbn [fst]. repeat split.
    + intros Hlt. rewrite (proj2 (Z.leb_gt _ _)) by exact Hlt. reflexivity.
    + intros Hle Hr. rewrite (proj2 (Z.leb_le _ _)) by exact Hle.
      rewrite Hr. reflexivity.
    + intros Hle Hr. rewrite (proj2 (Z.leb_le _ _)) by exact Hle.
      rewrite Hr. reflexivity.
Qed.

Lemma sample_tokens_expired_nonempty : sample_tokens_expired <> ∅.
Proof.
  intros E. apply (f_equal (fun m : record => m !! "token_type")) in E.
  vm_compute in E. discriminate E.
Qed.

Lemma get_tokens_cases_sample :
  (get_tokens sample_runtime (sample_client sample_tokens_expired)).1
  = OK (Some sample_tokens_expired)
  /\ (get_tokens sample_runtime (sample_client ∅)).1 = OK None.
Proof.
  split.
  - destruct (get_tokens_cases sample_runtime (sample_client sample_tokens_expired))
      as (_ & _ & H).
    destruct (H "2020-01-01T00:00:00" 10) as (_ & Hrefresh & _).
    + exact sample_tokens_expired_nonempty.
    + reflexivity.
    + discriminate.
    + reflexivity.
    + apply Hrefresh; [vm_compute; discriminate | reflexivity].
  - apply (proj1 (get_tokens_cases sample_runtime (sample_client ∅))). reflexivity.
Defined.

(** The samples: an expired bundle with a refresh token is returned, and an
    empty store gives nothing. *)
Lemma get_tokens_samples :
  (get_tokens sample_runtime (sample_client sample_tokens_expired)).1
  = OK (Some sample_tokens_expired)
  /\ (get_tokens sample_runtime (sample_client ∅)).1 = OK None
  /\ (get_tokens sample_runtime (sample_client sample_tokens_no_access)).1
     = OK (Some sample_tokens_no_access).
Proof. vm_compute. repeat split; reflexivity. Qed.

(** ** Authentication *)

(** With no usable stored bundle the first part of [authenticate] falls
    through, and leaves the stored tokens as they are. *)
Lemma authenticate_stored_unusable (rt : Runtime) (c : client) :
  stored_unusable rt c ->
  exists c', authenticate_stored rt c = (OK None, c')
             /\ storage_tokens c' = storage_tokens c
             /\ exists n, (n <= 2)%nat /\ clock_reads c' = (clock_reads c + n)%nat.
Proof.
  intros [Hempty | (Hne & s & e & Hs & Hs' & He & Hcase)]; unfold authenticate_stored.
  - rewrite get_tokens_empty by exact Hempty.
    exists c. split; [reflexivity|]. split; [reflexivity|].
    exists 0%nat. split; lia.
  - rewrite (get_tokens_expiry rt c s e) by assumption.
    destruct Hcase as [[Hle Hr] | (Hlt0 & Hlt1 & a & Ha & Hfalse)].
    + rewrite (proj2 (Z.leb_le _ _)) by exact Hle. rewrite Hr.
      eexists. split; [reflexivity|]. split; [reflexivity|].
      exists 1%nat. split; [lia|]. cbn. lia.
    + rewrite (proj2 (Z.leb_gt _ _)) by exact Hlt0.
      rewrite decide_False by exact Hne. rewrite Ha, Hs, (truthy_VStr s Hs').
      cbn [datetime_fromisoformat]. rewrite He.
      unfold now. cbn.
      rewrite (proj2 (Z.leb_gt _ _)) by exact Hlt1. cbn [andb].
      rewrite Hfalse. eexists. split; [reflexivity|]. split; [reflexivity|].
      exists 2%nat. split; [lia|]. cbn. lia.
Qed.

Lemma store_tokens_fields (rt : Runtime) (c : client) (access refresh : value)
    (kind : string) (expires_at : option time) :
  let tokens := storage_tokens (store_tokens rt c access refresh kind expires_at) in
  dict_get tokens "access_token" VNone = access
  /\ dict_get tokens "refresh_token" VNone = refresh
  /\ dict_get tokens "token_type" VNone = VStr kind
  /\ dict_get tokens "expires_at" VNone
     = match expires_at with Some t => VStr (isoformat rt t) | None => VNone end.
Proof.
  cbv zeta. unfold store_tokens, now, set_tokens, dict_get. cbn [storage_tokens].
  repeat split; reflexivity.
Qed.

(** A granted refresh-token exchange stores a refresh-based bundle. *)
Lemma refresh_exchange_granted (rt : Runtime) (c : client) (refresh : value)
    (token_data : record) :
  token_endpoint rt refresh = Granted token_data ->
  is_ok (token_expires_at (clock rt (clock_reads c)) token_data) = true ->
  exists c',
    authenticate_with_refresh_token rt c refresh = (OK token_data, c')
    /\ dict_get (storage_tokens c') "access_token" VNone
       = dict_get token_data "token" VNone
    /\ dict_get (storage_tokens c') "refresh_token" VNone = refresh
    /\ dict_get (storage_tokens c') "token_type" VNone = VStr "refresh".
Proof.
  intros Hg Hl. unfold authenticate_with_refresh_token. rewrite Hg.
  unfold now. cbn [fst snd set_access clock_reads].
  destruct (token_expires_at _ _) as [expires_at|]; [|discriminate].
  eexists. split; [reflexivity|].
  match goal with
  | |- context [store_tokens ?r ?c0 ?a ?f ?k ?e] =>
      pose proof (store_tokens_fields r c0 a f k e) as (H1 & H2 & H3 & _)
  end.
  cbn [self_access_token self_refresh_token set_access] in *.
  rewrite H1, H2, H3. repeat split; reflexivity.
Qed.

Lemma refresh_exchange_refused (rt : Runtime) (c : client) (refresh : value) (e : exn) :
  token_endpoint rt refresh = Refused e ->
  authenticate_with_refresh_token rt c refresh = (Err e, c).
Proof. intros H. unfold authenticate_with_refresh_token. rewrite H. reflexivity. Qed.

(** A granted invite-code exchange stores a refresh-based bundle. *)
Lemma invite_exchange_granted (rt : Runtime) (c : client) (invite : value)
    (token_data : record) :
  setup_endpoint rt invite = Granted token_data ->
  is_ok (token_expires_at (clock rt (clock_reads c)) token_data) = true ->
  exists c',
    authenticate_with_invite_code rt c invite = (OK token_data, c')
    /\ dict_get (storage_tokens c') "access_token" VNone
       = dict_get token_data "token" VNone
    /\ dict_get (storage_tokens c') "refresh_token" VNone
       = dict_get token_data "refreshToken" VNone
    /\ dict_get (storage_tokens c') "token_type" VNone = VStr "refresh".
Proof.
  intros Hg Hl. unfold authenticate_with_invite_code. rewrite Hg.
  unfold now. cbn [fst snd set_access clock_reads].
  destruct (token_expires_at _ _) as [expires_at|]; [|discriminate].
  eexists. split; [reflexivity|].
  match goal with
  | |- context [store_tokens ?r ?c0 ?a ?f ?k ?e] =>
      pose proof (store_tokens_fields r c0 a f k e) as (H1 & H2 & H3 & _)
  end.
  cbn [self_access_token self_refresh_token set_access] in *.
  rewrite H1, H2, H3. repeat split; reflexivity.
Qed.

(** What the second part of [authenticate] returns, by the credentials
    passed in or set in the environment, tried in the order long-life
    token, refresh token, invite code. *)
Lemma authenticate_supplied_cases (rt : Runtime) (c : client)
    (long_life_token refresh_token invite_code : value) :
  let ll := py_or long_life_token (getenv rt "BEDS24_LONG_LIFE_TOKEN") in
  let rf := py_or refresh_token (getenv rt "BEDS24_REFRESH_TOKEN") in
  let ic := py_or invite_code (getenv rt "BEDS24_INVITE_CODE") in
  let out :=
    authenticate_handlers
      (authenticate_supplied rt c long_life_token refresh_token invite_code) in
  (truthy ll = true ->
   out.1 = WithLongLifeToken
   /\ dict_get (storage_tokens out.2) "access_token" VNone = ll
   /\ dict_get (storage_tokens out.2) "token_type" VNone = VStr "long_life"
   /\ dict_get (storage_tokens out.2) "expires_at" VNone = VNone)
  /\ (truthy ll = false -> truthy rf = true ->
      forall token_data,
        token_endpoint rt rf = Granted token_data ->
        is_ok (token_expires_at (clock rt (clock_reads c)) token_data) = true ->
        out.1 = WithRefreshToken
        /\ dict_get (storage_tokens out.2) "refresh_token" VNone = rf
        /\ dict_get (storage_tokens out.2) "token_type" VNone = VStr "refresh")
  /\ (truthy ll = false -> truthy rf = false -> truthy ic = true ->
      forall token_data,
        setup_endpoint rt ic = Granted token_data ->
        is_ok (token_expires_at (clock rt (clock_reads c)) token_data) = true ->
        out.1 = WithInviteCode
        /\ dict_get (storage_tokens out.2) "refresh_token" VNone
           = dict_get token_data "refreshToken" VNone
        /\ dict_get (storage_tokens out.2) "token_type" VNone = VStr "refresh")
  /\ (truthy ll = false -> truthy rf = false -> truthy ic = false ->
      out = (NoCredentials, c)).
Proof.
  cbv zeta. unfold authenticate_supplied.
  set (ll := py_or long_life_token _). set (rf := py_or refresh_token _).
  set (ic := py_or invite_code _).
  split; [|split; [|split]].
  - intros Hll. rewrite Hll. cbn [authenticate_handlers fst snd].
    split; [reflexivity|].
    match goal with
    | |- context [store_tokens ?r ?c0 ?a ?f ?k ?e] =>
        pose proof (store_tokens_fields r c0 a f k e) as (H1 & _ & H3 & H4)
    end.
    cbn [self_access_token set_access] in *. auto.
  - intros Hll Hrf token_data Hg Hl. rewrite Hll, Hrf.
    destruct (refresh_exchange_granted rt c rf token_data Hg Hl)
      as (c' & Hrun & _ & H2 & H3).
    rewrite Hrun. cbn [authenticate_handlers fst snd]. auto.
  - intros Hll Hrf Hic token_data Hg Hl. rewrite Hll, Hrf, Hic.
    destruct (invite_exchange_granted rt c ic token_data Hg Hl)
      as (c' & Hrun & _ & H2 & H3).
    rewrite Hrun. cbn [authenticate_handlers fst snd]. auto.
  - intros Hll Hrf Hic. rewrite Hll, Hrf, Hic. reflexivity.
Qed.

Lemma authenticate_stored_no_expiry (rt : Runtime) (c : client) (a : value) :
  storage_tokens c <> ∅ ->
  truthy (dict_get (storage_tokens c) "expires_at" VNone) = false ->
  storage_tokens c !! "access_token" = Some a ->
  (authenticate_stored rt c).1 = OK (Some UsingStored).
Proof.
  intros Hne Hexp Ha. unfold authenticate_stored.
  rewrite get_tokens_no_expiry by assumption.
  rewrite decide_False by exact Hne. rewrite Ha, Hexp. reflexivity.
Qed.

Lemma authenticate_stored_unexpired (rt : Runtime) (c : client) (s : string)
    (e : time) (a : value) :
  storage_tokens c <> ∅ ->
  dict_get (storage_tokens c) "expires_at" VNone = VStr s -> s <> "" ->
  fromisoformat rt s = OK e ->
  storage_tokens c !! "access_token" = Some a ->
  clock rt (clock_reads c) < e ->
  clock rt (S (clock_reads c)) < e ->
  truthy a = true ->
  (authenticate_stored rt c).1 = OK (Some UsingStored).
Proof.
  intros Hne Hs Hs' He Ha Hlt0 Hlt1 Htrue. unfold authenticate_stored.
  rewrite (get_tokens_expiry rt c s e) by assumption.
  rewrite (proj2 (Z.leb_gt _ _)) by exact Hlt0.
  rewrite decide_False by exact Hne. rewrite Ha, Hs, (truthy_VStr s Hs').
  cbn [datetime_fromisoformat]. rewrite He. unfold now. cbn.
  rewrite (proj2 (Z.leb_gt _ _)) by exact Hlt1. cbn [andb].
  rewrite Htrue. reflexivity.
Qed.

(** An expired bundle with a refresh token: the outcome is that of the
    refresh-token exchange. *)
Lemma authenticate_stored_expired (rt : Runtime) (c : client) (s : string)
    (e : time) (a : value) :
  storage_tokens c <> ∅ ->
  dict_get (storage_tokens c) "expires_at" VNone = VStr s -> s <> "" ->
  fromisoformat rt s = OK e ->
  storage_tokens c !! "access_token" = Some a ->
  e <= clock rt (clock_reads c) ->
  e <= clock rt (S (clock_reads c)) ->
  truthy (dict_get (storage_tokens c) "refresh_token" VNone) = true ->
  exists c1,
    clock_reads c1 = S (S (clock_reads c))
    /\ authenticate_stored rt c
       = match authenticate_with_refresh_token rt c1
                 (dict_get (storage_tokens c) "refresh_token" VNone) with
         | (OK _, c2) => (OK (Some Refreshed), c2)
         | (Err x, c2) =>
             if is_request_exception x then (OK (Some (RefreshFailed x)), c2)
             else (Err x, c2)
         end.
Proof.
  intros Hne Hs Hs' He Ha Hle0 Hle1 Hr. unfold authenticate_stored.
  rewrite (get_tokens_expiry rt c s e) by assumption.
  rewrite (proj2 (Z.leb_le _ _)) by exact Hle0. rewrite Hr.
  rewrite decide_False by exact Hne. rewrite Ha, Hs, (truthy_VStr s Hs').
  cbn [datetime_fromisoformat]. rewrite He. unfold now. cbn.
  rewrite (proj2 (Z.leb_le _ _)) by exact Hle1. rewrite Hr. cbn [andb].
  eexists. split; [|reflexivity]. reflexivity.
Qed.

Lemma authenticate_unfold (rt : Runtime) (c : client)
    (long_life_token refresh_token invite_code : value) :
  authenticate rt c long_life_token refresh_token invite_code
  = authenticate_handlers
      match authenticate_stored rt c with
      | (Err e, c') => (Err e, c')
      | (OK (Some m), c') => (OK m, c')
      | (OK None, c') =>
          authenticate_supplied rt c' long_life_token refresh_token invite_code
      end.
Proof. reflexivity. Qed.

(** C5 (as amended): [authenticate] takes the first credential in this order.
    (1) The stored bundle: one without expiry is reused; one whose expiry is
    after the clock readings is reused when its access token is not empty;
    one whose expiry is not after the clock readings and that has a refresh
    token is refreshed by a refresh-token exchange, and a request error of
    that exchange ends authentication with a failure.  When the stored
    bundle gives no credential (none stored, expired without refresh token,
    or unexpired with an empty access token) the supplied credentials
    follow: (2) a long-life token is stored as a long-life credential; (3) a
    refresh token is exchanged and stored as refresh-based; (4) an invite
    code is exchanged and stored as refresh-based; (5) with none of them
    authentication fails for lack of credentials.  An exchange is taken to
    be granted with a lifetime that, added to the clock, gives a
    [datetime]: otherwise the expiry cannot be computed and nothing is
    stored. *)
Theorem authenticate_resolution (rt : Runtime) (c : client)
    (long_life_token refresh_token invite_code : value) :
  let tokens := storage_tokens c in
  let t0 := clock rt (clock_reads c) in
  let t1 := clock rt (S (clock_reads c)) in
  let t2 := clock rt (S (S (clock_reads c))) in
  let stored_refresh := dict_get tokens "refresh_token" VNone in
  let ll := py_or long_life_token (getenv rt "BEDS24_LONG_LIFE_TOKEN") in
  let rf := py_or refresh_token (getenv rt "BEDS24_REFRESH_TOKEN") in
  let ic := py_or invite_code (getenv rt "BEDS24_INVITE_CODE") in
  let out := authenticate rt c long_life_token refresh_token invite_code in
  (forall a,
      tokens <> ∅ ->
      truthy (dict_get tokens "expires_at" VNone) = false ->
      tokens !! "access_token" = Some a ->
      out.1 = UsingStored)
  /\ (forall s e a,
        tokens <> ∅ ->
        dict_get tokens "expires_at" VNone = VStr s -> s <> "" ->
        fromisoformat rt s = OK e ->
        tokens !! "access_token" = Some a ->
        (t0 < e -> t1 < e -> truthy a = true -> out.1 = UsingStored)
        /\ (e <= t0 -> e <= t1 -> truthy stored_refresh = true ->
            (forall token_data,
                token_endpoint rt stored_refresh = Granted token_data ->
                is_ok (token_expires_at t2 token_data) = true ->
                out.1 = Refreshed
                /\ dict_get (storage_tokens out.2) "access_token" VNone
                   = dict_get token_data "token" VNone
                /\ dict_get (storage_tokens out.2) "token_type" VNone = VStr "refresh")
            /\ (forall msg,
                  token_endpoint rt stored_refresh = Refused (RequestException msg) ->
                  out.1 = RefreshFailed (RequestException msg))))
  /\ (stored_unusable rt c ->
      (truthy ll = true ->
       out.1 = WithLongLifeToken
       /\ dict_get (storage_tokens out.2) "access_token" VNone = ll
       /\ dict_get (storage_tokens out.2) "token_type" VNone = VStr "long_life"
       /\ dict_get (storage_tokens out.2) "expires_at" VNone = VNone)
      /\ (truthy ll = false -> truthy rf = true ->
          forall token_data,
            token_endpoint rt rf = Granted token_data ->
            lifetime_fits rt c token_data ->
            out.1 = WithRefreshToken
            /\ dict_get (storage_tokens out.2) "refresh_token" VNone = rf
            /\ dict_get (storage_tokens out.2) "token_type" VNone = VStr "refresh")
      /\ (truthy ll = false -> truthy rf = false -> truthy ic = true ->
          forall token_data,
            setup_endpoint rt ic = Granted token_data ->
            lifetime_fits rt c token_data ->
            out.1 = WithInviteCode
            /\ dict_get (storage_tokens out.2) "refresh_token" VNone
               = dict_get token_data "refreshToken" VNone
            /\ dict_get (storage_tokens out.2) "token_type" VNone = VStr "refresh")
      /\ (truthy ll = false -> truthy rf = false -> truthy ic = false ->
          out.1 = NoCredentials /\ auth_success out.1 = false)).
Proof.
  cbv zeta. rewrite authenticate_unfold. split; [|split].
  - intros a Hne Hexp Ha.
    pose proof (authenticate_stored_no_expiry rt c a Hne Hexp Ha) as H.
    destruct (authenticate_stored rt c) as [r c']. cbn [fst] in H. subst r.
    reflexivity.
  - intros s e a Hne Hs Hs' He Ha. split.
    + intros Hlt0 Hlt1 Htrue.
      pose proof (authenticate_stored_unexpired rt c s e a Hne Hs Hs' He Ha
                    Hlt0 Hlt1 Htrue) as H.
      destruct (authenticate_stored rt c) as [r c']. cbn [fst] in H. subst r.
      reflexivity.
    + intros Hle0 Hle1 Hr.
      destruct (authenticate_stored_expired rt c s e a Hne Hs Hs' He Ha
                  Hle0 Hle1 Hr) as (c1 & Hreads & Hrun).
      rewrite Hrun. split.
      * intros token_data Hg Hl. rewrite <- Hreads in Hl.
        destruct (refresh_exchange_granted rt c1 _ token_data Hg Hl)
          as (c2 & Hex & H1 & _ & H3).
        rewrite Hex. cbn [authenticate_handlers fst snd]. auto.
      * intros msg Hg. rewrite (refresh_exchange_refused rt c1 _ _ Hg).
        reflexivity.
  - intros Hun.
    destruct (authenticate_stored_unusable rt c Hun)
      as (c' & Hrun & _ & n & Hn & Hreads).
    rewrite Hrun.
    destruct (authenticate_supplied_cases rt c' long_life_token refresh_token
                invite_code) as (H2 & H3 & H4 & H5).
    rewrite Hreads in H3, H4.
    split; [exact H2|].
    split; [intros Hll Hrf token_data Hg Hfit;
            exact (H3 Hll Hrf token_data Hg (Hfit n Hn))|].
    split; [intros Hll Hrf Hic token_data Hg Hfit;
            exact (H4 Hll Hrf Hic token_data Hg (Hfit n Hn))|].
    intros Hll Hrf Hic. rewrite (H5 Hll Hrf Hic). split; reflexivity.
Qed.

Lemma authenticate_resolution_sample :
  (authenticate sample_runtime (sample_client sample_tokens_expired)
     VNone VNone VNone).1 = Refreshed
  /\ (authenticate sample_runtime (sample_client ∅) VNone (VStr "R") VNone).1
     = WithRefreshToken
  /\ (authenticate sample_runtime (sample_client ∅) VNone VNone VNone).1
     = NoCredentials.
Proof.
  split; [|split].
  - destruct (authenticate_resolution sample_runtime
                (sample_client sample_tokens_expired) VNone VNone VNone)
      as (_ & H & _).
    destruct (H "2020-01-01T00:00:00" 10 (VStr "old")) as (_ & Hexpired).
    + exact sample_tokens_expired_nonempty.
    + reflexivity.
    + discriminate.
    + reflexivity.
    + reflexivity.
    + destruct Hexpired as [Hgranted _].
      * vm_compute. discriminate.
      * vm_compute. discriminate.
      * reflexivity.
      * apply (Hgranted (record_of [("token", VStr "fresh"); ("expiresIn", VInt 3600)]));
          reflexivity.
  - destruct (authenticate_resolution sample_runtime (sample_client ∅)
                VNone (VStr "R") VNone) as (_ & _ & H).
    destruct H as (_ & Hrefresh & _); [left; reflexivity|].
    apply (Hrefresh eq_refl eq_refl
             (record_of [("token", VStr "fresh"); ("expiresIn", VInt 3600)]) eq_refl).
    intros [|[|[|n]]] Hn; [reflexivity | reflexivity | reflexivity | lia].
  - destruct (authenticate_resolution sample_runtime (sample_client ∅)
                VNone VNone VNone) as (_ & _ & H).
    destruct H as (_ & _ & _ & Hnone); [left; reflexivity|].
    apply Hnone; reflexivity.
Defined.

(** C5 (as stated) fails on a stored bundle that has not expired, has a
    refresh token and has no access token: [get_tokens] returns it, and
    [authenticate] does not reuse it but turns to the supplied credentials,
    and fails when there are none. *)
Lemma authenticate_unexpired_not_reused :
  (get_tokens sample_runtime (sample_client sample_tokens_no_access)).1
  = OK (Some sample_tokens_no_access)
  /\ (authenticate sample_runtime (sample_client sample_tokens_no_access)
        VNone VNone VNone).1 = NoCredentials
  /\ (authenticate sample_runtime (sample_client sample_tokens_no_access)
        (VStr "LL") VNone VNone).1 = WithLongLifeToken.
Proof. vm_compute. repeat split; reflexivity. Qed.

(** The samples: an expired bundle with a refresh token is refreshed, and
    with nothing stored the credentials are tried in their order. *)
Lemma authenticate_samples :
  (authenticate sample_runtime (sample_client sample_tokens_expired)
     VNone VNone VNone).1 = Refreshed
  /\ (authenticate sample_runtime (sample_client ∅)
        (VStr "LL") (VStr "R") (VStr "I")).1 = WithLongLifeToken
  /\ (authenticate sample_runtime (sample_client ∅)
        VNone (VStr "R") (VStr "I")).1 = WithRefreshToken
  /\ (authenticate sample_runtime (sample_client ∅)
        VNone (VStr "") (VStr "I")).1 = WithInviteCode
  /\ (authenticate sample_runtime (sample_client ∅) VNone VNone VNone).1
     = NoCredentials.
Proof. vm_compute. repeat split; reflexivity. Qed.

(** A granted exchange whose expiry cannot be computed raises before
    anything is stored, and no request error is raised. *)
Lemma refresh_exchange_expiry_error (rt : Runtime) (c : client) (refresh : value)
    (token_data : record) (e : exn) :
  token_endpoint rt refresh = Granted token_data ->
  token_expires_at (clock rt (clock_reads c)) token_data = Err e ->
  is_request_exception e = false
  /\ exists c',
       authenticate_with_refresh_token rt c refresh = (Err e, c')
       /\ storage_tokens c' = storage_tokens c.
Proof.
  intros Hg He. split.
  - unfold token_expires_at, timedelta_seconds, datetime_add in He.
    destruct (dict_get token_data "expiresIn" (VInt 0)); cbn [bind] in He;
      repeat match type of He with
             | context [if ?b then _ else _] => destruct b; cbn [bind] in He
             end;
      try discriminate; injection He as <-; reflexivity.
  - unfold authenticate_with_refresh_token. rewrite Hg.
    unfold now. cbn [fst snd set_access clock_reads]. rewrite He.
    eexists. split; reflexivity.
Qed.

(** The sample: a lifetime of some twelve thousand years is a [timedelta],
    but added to the clock it is no [datetime]; a lifetime beyond the days
    of a [timedelta] is not even that.  Authentication fails with the
    unexpected-error message either way and stores nothing. *)
Lemma authenticate_lifetime_out_of_range :
  token_expires_at (clock sample_runtime_long_lifetime 0)
    (record_of [("token", VStr "fresh"); ("expiresIn", VInt 400000000000)])
  = Err OverflowError
  /\ timedelta_seconds (VInt 400000000000) = OK 400000000000000000
  /\ timedelta_seconds (VInt 86400000000000) = Err OverflowError
  /\ authenticate sample_runtime_long_lifetime (sample_client ∅) VNone (VStr "R") VNone
     = (UnexpectedError OverflowError, mk_client (VStr "fresh") (VStr "R") ∅ 1).
Proof. vm_compute. repeat split; reflexivity. Qed.

(** * Further properties *)

(** ** More on the categoriser *)

Lemma insert_by_Permutation {A : Type} (key : A -> string) (x : A) (l : list A) :
  Permutation (insert_by key x l) (x :: l).
Proof.
  induction l as [|y l IH]; cbn; [reflexivity|].
  destruct (String.ltb (key y) (key x)); [|reflexivity].
  rewrite IH. apply perm_swap.
Qed.

Lemma sorted_Permutation {A : Type} (key : A -> string) (l : list A) :
  Permutation (sorted key l) l.
Proof.
  induction l as [|x l IH]; cbn; [reflexivity|].
  rewrite insert_by_Permutation. now rewrite IH.
Qed.

Lemma sorted_of_sorted {A : Type} (key : A -> string) (l : list A) :
  StronglySorted (key_le key) l -> sorted key l = l.
Proof.
  intros Hs. apply (stable_sort_unique key l).
  - apply sorted_stable.
  - split; [exact Hs | reflexivity].
Qed.

Lemma StronglySorted_filter_keep {A : Type} (R : A -> A -> Prop) (f : A -> bool)
    (l : list A) :
  StronglySorted R l -> StronglySorted R (List.filter f l).
Proof.
  induction 1 as [|x l Hs IH Hall]; cbn; [constructor|].
  destruct (f x); [|exact IH].
  constructor; [exact IH|].
  rewrite List.Forall_forall in *. intros y Hy.
  apply List.filter_In in Hy. apply Hall, Hy.
Qed.

Lemma filter_all {A : Type} (f : A -> bool) (l : list A) :
  (forall x, In x l -> f x = true) -> List.filter f l = l.
Proof.
  induction l as [|x l IH]; cbn; intros H; [reflexivity|].
  rewrite (H x) by now left. f_equal. apply IH. intros y Hy. apply H. now right.
Qed.

Lemma filter_none {A : Type} (f : A -> bool) (l : list A) :
  (forall x, In x l -> f x = false) -> List.filter f l = [].
Proof.
  induction l as [|x l IH]; cbn; intros H; [reflexivity|].
  rewrite (H x) by now left. apply IH. intros y Hy. apply H. now right.
Qed.

Lemma stays_not_arrives (t : date) (r : Reservation) :
  stays t r = true -> arrives t r = false /\ departs t r = false.
Proof.
  intros Hs. apply stays_iff in Hs as (_ & Hci & Hco).
  split.
  - destruct (arrives t r) eqn:E; [|reflexivity].
    apply arrives_iff in E as [_ E]. rewrite E in Hci.
    now apply date_lt_irrefl in Hci.
  - destruct (departs t r) eqn:E; [|reflexivity].
    apply departs_iff in E as [_ E]. rewrite E in Hco.
    now apply date_lt_irrefl in Hco.
Qed.

Lemma filter_disjoint_length {A : Type} (f g : A -> bool) (l : list A) :
  (forall x, f x = true -> g x = false) ->
  (length (List.filter g l) + length (List.filter f l) <= length l)%nat.
Proof.
  intros H. induction l as [|x l IH]; cbn; [lia|].
  destruct (f x) eqn:E.
  - rewrite (H x E). cbn. lia.
  - destruct (g x); cbn; lia.
Qed.

(** X1: a reservation listed as staying through is listed neither as an
    arrival nor as a departure. *)
Theorem categorize_stay_through_disjoint (rs : list Reservation) (t : date) :
  let '(a, d, s) := categorize_reservations rs t in
  Forall (fun r => ~ In r a /\ ~ In r d) s.
Proof.
  rewrite categorize_reservations_eq.
  apply List.Forall_forall. intros r Hr.
  apply sorted_In, List.filter_In in Hr as [_ Hs].
  apply stays_not_arrives in Hs as [Ha Hd].
  split; intros H; apply sorted_In, List.filter_In in H as [_ H]; congruence.
Qed.

(** X2: sorting loses and repeats nothing: each returned list is a
    rearrangement of the reservations its rule selects, so the three counts
    that [main] shows are the numbers of selected reservations, and none
    exceeds the number of reservations given. *)
Theorem categorize_permutation (rs : list Reservation) (t : date) :
  let '(a, d, s) := categorize_reservations rs t in
  Permutation a (List.filter (arrives t) rs)
  /\ Permutation d (List.filter (departs t) rs)
  /\ Permutation s (List.filter (stays t) rs)
  /\ (length a <= length rs)%nat
  /\ (length d <= length rs)%nat
  /\ (length a + length s <= length rs)%nat
  /\ (length d + length s <= length rs)%nat.
Proof.
  rewrite categorize_reservations_eq.
  pose proof (sorted_Permutation room_name (List.filter (arrives t) rs)) as Pa.
  pose proof (sorted_Permutation room_name (List.filter (departs t) rs)) as Pd.
  pose proof (sorted_Permutation room_name (List.filter (stays t) rs)) as Ps.
  pose proof (filter_disjoint_length (stays t) (arrives t) rs
                (fun r H => proj1 (stays_not_arrives t r H))) as La.
  pose proof (filter_disjoint_length (stays t) (departs t) rs
                (fun r H => proj2 (stays_not_arrives t r H))) as Ld.
  pose proof (List.filter_length_le (arrives t) rs) as Ha.
  pose proof (List.filter_length_le (departs t) rs) as Hd.
  rewrite (Permutation_length Pa), (Permutation_length Pd), (Permutation_length Ps).
  repeat split; try assumption; lia.
Qed.

(** X3: categorising a returned list again for the same date gives it back
    unchanged in its own place: the arrivals are all arrivals and none stays
    through, likewise the departures, and the stay-through list is neither. *)
Theorem categorize_again (rs : list Reservation) (t : date) :
  let '(a, d, s) := categorize_reservations rs t in
  categorize_reservations a t = (a, List.filter (departs t) a, [])
  /\ categorize_reservations d t = (List.filter (arrives t) d, d, [])
  /\ categorize_reservations s t = ([], [], s).
Proof.
  rewrite categorize_reservations_eq.
  set (a := sorted room_name (List.filter (arrives t) rs)).
  set (d := sorted room_name (List.filter (departs t) rs)).
  set (s := sorted room_name (List.filter (stays t) rs)).
  assert (Sa : StronglySorted (key_le room_name) a) by apply sorted_is_sorted.
  assert (Sd : StronglySorted (key_le room_name) d) by apply sorted_is_sorted.
  assert (Ss : StronglySorted (key_le room_name) s) by apply sorted_is_sorted.
  assert (Ia : forall r, In r a -> arrives t r = true).
  { intros r H. now apply sorted_In, List.filter_In in H. }
  assert (Id : forall r, In r d -> departs t r = true).
  { intros r H. now apply sorted_In, List.filter_In in H. }
  assert (Is : forall r, In r s -> stays t r = true).
  { intros r H. now apply sorted_In, List.filter_In in H. }
  assert (Na : forall r, In r a -> stays t r = false).
  { intros r H. destruct (stays t r) eqn:E; [|reflexivity].
    apply stays_not_arrives in E as [E _]. rewrite (Ia r H) in E. discriminate. }
  assert (Nd : forall r, In r d -> stays t r = false).
  { intros r H. destruct (stays t r) eqn:E; [|reflexivity].
    apply stays_not_arrives in E as [_ E]. rewrite (Id r H) in E. discriminate. }
  rewrite !categorize_reservations_eq.
  rewrite (filter_all (arrives t) a Ia), (filter_none (stays t) a Na).
  rewrite (filter_all (departs t) d Id), (filter_none (stays t) d Nd).
  rewrite (filter_all (stays t) s Is).
  rewrite (filter_none (arrives t) s), (filter_none (departs t) s).
  2: { intros r H. now apply Is, stays_not_arrives in H. }
  2: { intros r H. now apply Is, stays_not_arrives in H. }
  change (sorted room_name []) with (@nil Reservation).
  rewrite (sorted_of_sorted room_name a Sa), (sorted_of_sorted room_name d Sd),
    (sorted_of_sorted room_name s Ss).
  rewrite (sorted_of_sorted room_name (List.filter (departs t) a))
    by now apply StronglySorted_filter_keep.
  rewrite (sorted_of_sorted room_name (List.filter (arrives t) d))
    by now apply StronglySorted_filter_keep.
  repeat split.
Qed.

(** ** Calendar arithmetic *)

Lemma new_date_valid (y m d : Z) (x : date) :
  new_date y m d = OK x -> x = mk_date y m d /\ valid_date x.
Proof.
  unfold new_date, valid_date.
  destruct ((1 <=? y) && (y <=? 9999) && (1 <=? m) && (m <=? 12)
            && (1 <=? d) && (d <=? days_in_month y m)) eqn:E; [|discriminate].
  intros [= <-]. cbn. split; [reflexivity|].
  repeat (apply andb_prop in E as [E ?]). lia.
Qed.

Lemma strptime_valid (v : value) (dt : datetime) :
  strptime v = OK dt -> valid_date (dt_date dt).
Proof.
  destruct v; try discriminate. cbn. unfold strptime_str.
  destruct (match_ymd (chars s)) as [[[[y m] d] [|c rest]]|]; try discriminate.
  destruct (new_date y m d) as [x|] eqn:E; [|discriminate].
  intros [= <-]. cbn. now apply new_date_valid in E.
Qed.

Lemma is_leap_cases (y : Z) :
  is_leap y = true /\ y / 4 = (y - 1) / 4 + 1
                     /\ y / 400 - y / 100 = (y - 1) / 400 - (y - 1) / 100
  \/ is_leap y = true /\ y / 4 = (y - 1) / 4 + 1
     /\ y / 100 = (y - 1) / 100 + 1 /\ y / 400 = (y - 1) / 400 + 1
  \/ is_leap y = false /\ y / 4 = (y - 1) / 4 /\ y / 100 = (y - 1) / 100
     /\ y / 400 = (y - 1) / 400
  \/ is_leap y = false /\ y / 4 = (y - 1) / 4 + 1 /\ y / 100 = (y - 1) / 100 + 1
     /\ y / 400 = (y - 1) / 400.
Proof.
  unfold is_leap.
  destruct (Z.eqb_spec (y mod 4) 0), (Z.eqb_spec (y mod 100) 0),
    (Z.eqb_spec (y mod 400) 0); cbn; Z.div_mod_to_equations; lia.
Qed.

Lemma days_before_year_succ (y : Z) :
  days_before_year (y + 1)
  = days_before_year y + 365 + (if is_leap y then 1 else 0).
Proof.
  unfold days_before_year. replace (y + 1 - 1) with y by lia.
  destruct (is_leap_cases y) as [H|[H|[H|H]]];
    destruct H as (-> & H); lia.
Qed.

Lemma days_before_year_mono (y y' : Z) :
  y <= y' -> days_before_year y <= days_before_year y'.
Proof.
  unfold days_before_year. intros H. Z.div_mod_to_equations. lia.
Qed.

Lemma month_cases (m : Z) :
  1 <= m <= 12 ->
  m = 1 \/ m = 2 \/ m = 3 \/ m = 4 \/ m = 5 \/ m = 6 \/ m = 7 \/ m = 8 \/ m = 9
  \/ m = 10 \/ m = 11 \/ m = 12.
Proof. lia. Qed.

Lemma days_before_month_succ (y m : Z) :
  1 <= m <= 12 ->
  days_before_month y m + days_in_month y m
  = if m =? 12 then 365 + (if is_leap y then 1 else 0)
    else days_before_month y (m + 1).
Proof.
  intros H. unfold days_before_month, days_in_month.
  destruct (is_leap y);
    destruct (month_cases m H) as [->|[->|[->|[->|[->|[->|[->|[->|[->|[->|[->| ->]]]]]]]]]]];
    reflexivity.
Qed.

Lemma days_before_month_mono (y m m' : Z) :
  1 <= m -> m <= m' -> m' <= 12 ->
  days_before_month y m <= days_before_month y m'.
Proof.
  intros H1 H2 H3. unfold days_before_month.
  assert (Hm : 1 <= m <= 12) by lia. assert (Hm' : 1 <= m' <= 12) by lia.
  destruct (is_leap y);
    destruct (month_cases m Hm) as [->|[->|[->|[->|[->|[->|[->|[->|[->|[->|[->| ->]]]]]]]]]]];
    destruct (month_cases m' Hm') as [->|[->|[->|[->|[->|[->|[->|[->|[->|[->|[->| ->]]]]]]]]]]];
    first [lia | apply Z.leb_le; reflexivity].
Qed.

Lemma days_before_month_bounds (y m : Z) :
  1 <= m <= 12 ->
  0 <= days_before_month y m
  /\ days_before_month y m + days_in_month y m
     <= 365 + (if is_leap y then 1 else 0).
Proof.
  intros H. unfold days_before_month, days_in_month.
  destruct (is_leap y);
    destruct (month_cases m H) as [->|[->|[->|[->|[->|[->|[->|[->|[->|[->|[->| ->]]]]]]]]]]];
    split; apply Z.leb_le; reflexivity.
Qed.

(** Dates in the order of their ordinals: the day count of the calendar
    respects the order of (year, month, day). *)
Lemma toordinal_lt (a b : date) :
  valid_date a -> valid_date b -> date_lt a b -> toordinal a < toordinal b.
Proof.
  intros (Hya & Hma & Hda) (Hyb & Hmb & Hdb) H. unfold toordinal.
  destruct H as [H|[Hy [H|[Hm H]]]].
  - pose proof (days_before_year_succ (year a)) as Hs.
    pose proof (days_before_year_mono (year a + 1) (year b) ltac:(lia)) as Hmono.
    pose proof (days_before_month_bounds (year a) (month a) Hma) as [_ Ha].
    pose proof (days_before_month_bounds (year b) (month b) Hmb) as [Hb _].
    lia.
  - rewrite <- Hy in *.
    pose proof (days_before_month_succ (year a) (month a) Hma) as Hs.
    destruct (Z.eqb_spec (month a) 12); [lia|].
    pose proof (days_before_month_mono (year a) (month a + 1) (month b)
                  ltac:(lia) ltac:(lia) ltac:(lia)).
    lia.
  - rewrite <- Hy, <- Hm. lia.
Qed.

Lemma date_trichotomy (a b : date) : date_lt a b \/ a = b \/ date_lt b a.
Proof.
  destruct a as [ya ma da], b as [yb mb db]. unfold date_lt. cbn.
  destruct (Z.lt_trichotomy ya yb) as [?|[->|?]]; [lia| |lia].
  destruct (Z.lt_trichotomy ma mb) as [?|[->|?]]; [lia| |lia].
  destruct (Z.lt_trichotomy da db) as [?|[->|?]]; [lia| |lia].
  right. now left.
Qed.

Lemma toordinal_order (a b : date) :
  valid_date a -> valid_date b ->
  (toordinal a < toordinal b <-> date_lt a b)
  /\ (toordinal a = toordinal b <-> a = b).
Proof.
  intros Ha Hb.
  pose proof (toordinal_lt a b Ha Hb) as Hab.
  pose proof (toordinal_lt b a Hb Ha) as Hba.
  pose proof (date_lt_irrefl a) as Hirr.
  destruct (date_trichotomy a b) as [L|[E|L]].
  - specialize (Hab L).
    split; split; intros X; try assumption; try lia. now subst.
  - subst b. split; split; intros X; try reflexivity; try lia. tauto.
  - specialize (Hba L).
    split; split; intros X; try lia.
    + specialize (Hab X). lia.
    + now subst.
Qed.

(** ** More on parsing *)

(** What a returned reservation is made of. *)
Lemma parse_booking_data_inv (booking : record) (r : Reservation) :
  parse_booking_data booking = OK r ->
  exists label arrival departure,
    resolve_room_name booking = OK label
    /\ strptime (dict_get booking "arrival" (VStr "")) = OK arrival
    /\ strptime (dict_get booking "departure" (VStr "")) = OK departure
    /\ r = mk_Reservation
             (py_str (dict_get booking "id" (VStr "")))
             (strip (py_str (dict_get booking "lastName" (VStr "")) +:+ " "
                     +:+ py_str (dict_get booking "firstName" (VStr ""))))
             label
             (py_str (room_unit_ids booking).1)
             (py_str (room_unit_ids booking).2)
             (dict_get booking "arrival" (VStr ""))
             (dict_get booking "departure" (VStr ""))
             (dict_get booking "status" (VStr ""))
             (dict_get booking "numAdult" (VInt 0))
             (dict_get booking "numChild" (VInt 0))
             (toordinal (dt_date departure) - toordinal (dt_date arrival))
             (dict_get booking "notes" (VStr ""))
             (dt_date arrival) (dt_date departure).
Proof.
  unfold parse_booking_data, resolve_room_name, new_Reservation.
  destruct (room_lookup_get _ _ _) as [label|]; [|discriminate]. cbn [bind].
  destruct (strptime (dict_get booking "departure" (VStr ""))) as [dep|] eqn:Ed;
    [|discriminate].
  destruct (strptime (dict_get booking "arrival" (VStr ""))) as [arr|] eqn:Ea;
    [|discriminate].
  cbn [bind].
  assert (Hn : days (datetime_sub dep arr)
               = toordinal (dt_date dep) - toordinal (dt_date arr)).
  { pose proof (strptime_midnight _ _ Ea) as Ma.
    pose proof (strptime_midnight _ _ Ed) as Md.
    destruct arr as [da ha ma sa ua], dep as [dd hd md sd ud].
    cbn [dt_date] in Ma, Md |- *.
    injection Ma as -> -> -> ->. injection Md as -> -> -> ->.
    exact (eq_trans (datetime_sub_midnight dd da) (date_sub_days dd da)). }
  rewrite Hn. intros [= <-]. exists label, arr, dep.
  repeat split; reflexivity.
Qed.

(** X4: the dates of a returned reservation are dates of the calendar, and
    the sign of its nights is the order of its dates: a departure before the
    arrival is accepted and gives a negative number of nights. *)
Theorem parse_nights_order (booking : record) (r : Reservation) :
  parse_booking_data booking = OK r ->
  valid_date (checkin_date r) /\ valid_date (checkout_date r)
  /\ (0 < nights r <-> date_lt (checkin_date r) (checkout_date r))
  /\ (nights r = 0 <-> checkin_date r = checkout_date r)
  /\ (nights r < 0 <-> date_lt (checkout_date r) (checkin_date r)).
Proof.
  intros H. apply parse_booking_data_inv in H
    as (label & arr & dep & _ & Ha & Hd & ->).
  cbn [checkin_date checkout_date nights].
  pose proof (strptime_valid _ _ Ha) as Va.
  pose proof (strptime_valid _ _ Hd) as Vd.
  pose proof (toordinal_order _ _ Va Vd) as [L1 E1].
  pose proof (toordinal_order _ _ Vd Va) as [L2 _].
  split; [exact Va|]. split; [exact Vd|].
  repeat split; intros X;
    first [ apply L1; lia | apply L2; lia | apply E1; lia
          | apply L1 in X; lia | apply L2 in X; lia | apply E1 in X; lia ].
Qed.

Lemma parse_nights_order_sample :
  exists r,
    parse_booking_data sample_booking = OK r
    /\ valid_date (checkin_date r) /\ valid_date (checkout_date r)
    /\ (0 < nights r <-> date_lt (checkin_date r) (checkout_date r))
    /\ (nights r = 0 <-> checkin_date r = checkout_date r)
    /\ (nights r < 0 <-> date_lt (checkout_date r) (checkin_date r)).
Proof.
  eexists. split; [vm_compute; reflexivity|].
  apply (parse_nights_order sample_booking). vm_compute. reflexivity.
Defined.

Lemma main_reservations_Forall2 (bookings : list record) (rs : list Reservation) :
  main_reservations bookings = OK rs
  <-> Forall2 (fun b r => parse_booking_data b = OK r) bookings rs.
Proof.
  revert rs. induction bookings as [|b bookings IH]; intros rs; cbn.
  - split.
    + intros [= <-]. constructor.
    + intros H. inversion H. reflexivity.
  - split.
    + destruct (parse_booking_data b) as [r|] eqn:Eb; [|discriminate]. cbn [bind].
      destruct (main_reservations bookings) as [rs'|] eqn:Er; [|discriminate].
      cbn [bind]. intros [= <-]. constructor; [exact Eb|]. now apply IH.
    + intros H. inversion H as [|b' r bs' rs' Hb Hrest]; subst.
      rewrite Hb. cbn [bind]. apply IH in Hrest. rewrite Hrest. reflexivity.
Qed.

(** X5: the comprehension of [main] is all or nothing.  It gives a list
    exactly when every record parses, and then the reservations are those of
    the records, one for one and in order; otherwise it raises what the first
    record that does not parse raises, whatever follows it. *)
Theorem main_reservations_all_or_first_error (bookings : list record) :
  (forall rs, main_reservations bookings = OK rs
              <-> Forall2 (fun b r => parse_booking_data b = OK r) bookings rs)
  /\ (forall e, main_reservations bookings = Err e
                <-> exists good bad rest,
                      bookings = good ++ bad :: rest
                      /\ Forall (fun b => is_ok (parse_booking_data b) = true) good
                      /\ parse_booking_data bad = Err e).
Proof.
  split; [apply main_reservations_Forall2|].
  induction bookings as [|b bookings IH]; intros e; cbn.
  - split; [discriminate|]. intros (good & bad & rest & H & _).
    now destruct good.
  - split.
    + destruct (parse_booking_data b) as [r|e'] eqn:Eb; cbn [bind].
      * destruct (main_reservations bookings) as [rs'|e'] eqn:Er; cbn [bind];
          [discriminate|].
        intros [= ->]. destruct (proj1 (IH e) eq_refl)
          as (good & bad & rest & -> & Hgood & Hbad).
        exists (b :: good), bad, rest. split; [reflexivity|].
        split; [|exact Hbad]. constructor; [now rewrite Eb | exact Hgood].
      * intros [= ->]. exists [], b, bookings.
        repeat split; [constructor | exact Eb].
    + intros (good & bad & rest & H & Hgood & Hbad).
      destruct good as [|g good]; cbn in H; injection H as Hhead Htail.
      * subst bad. rewrite Hbad. reflexivity.
      * subst g. inversion Hgood as [|? ? Hg Hgood']; subst.
        destruct (parse_booking_data b); [|discriminate]. cbn [bind].
        rewrite (proj2 (IH e)); [reflexivity|].
        now exists good, bad, rest.
Qed.

Lemma parse_booking_data_dates (booking : record) (r : Reservation) :
  parse_booking_data booking = OK r ->
  valid_date (checkin_date r) /\ valid_date (checkout_date r)
  /\ nights r = toordinal (checkout_date r) - toordinal (checkin_date r).
Proof.
  intros H. apply parse_booking_data_inv in H
    as (label & arr & dep & _ & Ha & Hd & ->).
  cbn [checkin_date checkout_date nights].
  pose proof (strptime_valid _ _ Ha). pose proof (strptime_valid _ _ Hd).
  split; [assumption|]. split; [assumption|]. reflexivity.
Qed.

Lemma main_reservations_parsed (bookings : list record) (rs : list Reservation) :
  main_reservations bookings = OK rs ->
  forall r, In r rs -> exists b, In b bookings /\ parse_booking_data b = OK r.
Proof.
  rewrite main_reservations_Forall2. induction 1 as [|b r bs rs' Hb _ IH].
  - intros r [].
  - intros r' [<-|Hin].
    + exists b. split; [now left | exact Hb].
    + destruct (IH r' Hin) as (b' & Hb' & Hp). exists b'. split; [now right | exact Hp].
Qed.

(** X6: parsing and categorising agree on the calendar.  Of the reservations
    that [main] parses from the records, one that stays through a date of
    the calendar has at least two nights, and one that arrives on it also
    departs on it exactly when it has no night. *)
Theorem categorize_parsed_nights (bookings : list record) (rs : list Reservation)
    (t : date) :
  main_reservations bookings = OK rs ->
  valid_date t ->
  let '(a, d, s) := categorize_reservations rs t in
  Forall (fun r => 2 <= nights r) s
  /\ Forall (fun r => nights r = 0 <-> In r d) a
  /\ Forall (fun r => nights r = 0 <-> In r a) d.
Proof.
  intros Hrs Vt. rewrite categorize_reservations_eq.
  assert (Hdates : forall r, In r rs ->
            valid_date (checkin_date r) /\ valid_date (checkout_date r)
            /\ nights r = toordinal (checkout_date r) - toordinal (checkin_date r)).
  { intros r Hr. destruct (main_reservations_parsed _ _ Hrs r Hr) as (b & _ & Hb).
    exact (parse_booking_data_dates b r Hb). }
  split; [|split]; apply List.Forall_forall; intros r Hr;
    apply sorted_In, List.filter_In in Hr as [Hin Hrule];
    destruct (Hdates r Hin) as (Vi & Vo & ->).
  - apply stays_iff in Hrule as (_ & L1 & L2).
    pose proof (toordinal_lt _ _ Vi Vt L1). pose proof (toordinal_lt _ _ Vt Vo L2).
    lia.
  - apply arrives_iff in Hrule as [Hnb Hci].
    pose proof (toordinal_order _ _ Vo Vi) as [_ E].
    rewrite sorted_In, List.filter_In, departs_iff. split.
    + intros H0. split; [exact Hin|]. split; [exact Hnb|].
      rewrite <- Hci. apply E. lia.
    + intros (_ & _ & Hco). assert (checkout_date r = checkin_date r) as X by congruence.
      apply E in X. lia.
  - apply departs_iff in Hrule as [Hnb Hco].
    pose proof (toordinal_order _ _ Vo Vi) as [_ E].
    rewrite sorted_In, List.filter_In, arrives_iff. split.
    + intros H0. split; [exact Hin|]. split; [exact Hnb|].
      rewrite <- Hco. symmetry. apply E. lia.
    + intros (_ & _ & Hci). assert (checkout_date r = checkin_date r) as X by congruence.
      apply E in X. lia.
Qed.

Lemma categorize_parsed_nights_sample :
  exists rs,
    main_reservations [sample_booking; sample_unknown_room] = OK rs
    /\ let '(a, d, s) := categorize_reservations rs (mk_date 2024 5 18) in
       Forall (fun r => 2 <= nights r) s
       /\ Forall (fun r => nights r = 0 <-> In r d) a
       /\ Forall (fun r => nights r = 0 <-> In r a) d.
Proof.
  eexists. split; [vm_compute; reflexivity|].
  apply (categorize_parsed_nights [sample_booking; sample_unknown_room]).
  - vm_compute. reflexivity.
  - unfold valid_date. cbn [year month day].
    repeat split; apply Z.leb_le; reflexivity.
Defined.

(** ** Stripping *)

Lemma chars_text (l : list ascii) : chars (text l) = l.
Proof. apply list_ascii_of_string_of_list_ascii. Qed.

Lemma chars_append (a b : string) : chars (a +:+ b) = chars a ++ chars b.
Proof.
  unfold chars. induction a as [|c a IH]; [reflexivity|].
  change (c :: list_ascii_of_string (a +:+ b)
          = c :: (list_ascii_of_string a ++ list_ascii_of_string b)).
  now f_equal.
Qed.

Lemma lstrip_head (sp : ascii -> bool) (l : list ascii) (c : ascii) (l' : list ascii) :
  lstrip sp l = c :: l' -> sp c = false.
Proof.
  induction l as [|x l IH]; cbn; [discriminate|].
  destruct (sp x) eqn:E; [exact IH|]. now intros [= <- _].
Qed.

Lemma lstrip_fixed (sp : ascii -> bool) (l : list ascii) :
  match l with c :: _ => sp c = false | [] => True end -> lstrip sp l = l.
Proof. destruct l as [|c l]; cbn; [reflexivity|]. now intros ->. Qed.

Lemma lstrip_idem (sp : ascii -> bool) (l : list ascii) :
  lstrip sp (lstrip sp l) = lstrip sp l.
Proof.
  apply lstrip_fixed. destruct (lstrip sp l) eqn:E; [exact I|].
  eapply lstrip_head, E.
Qed.

Lemma lstrip_suffix (sp : ascii -> bool) (l : list ascii) :
  exists p, l = p ++ lstrip sp l.
Proof.
  induction l as [|x l [p IH]]; cbn; [now exists []|].
  destruct (sp x); [|now exists []].
  exists (x :: p). cbn. now f_equal.
Qed.

Lemma lstrip_snoc (sp : ascii -> bool) (l : list ascii) (c : ascii) :
  sp c = true ->
  lstrip sp (l ++ [c]) = if forallb sp l then [] else lstrip sp l ++ [c].
Proof.
  intros Hc. induction l as [|x l IH]; cbn; [now rewrite Hc|].
  destruct (sp x); cbn; [exact IH | reflexivity].
Qed.

Lemma lstrip_all (sp : ascii -> bool) (l : list ascii) :
  forallb sp l = true -> lstrip sp l = [].
Proof.
  induction l as [|x l IH]; cbn; [reflexivity|].
  destruct (sp x); cbn; [exact IH | discriminate].
Qed.

(** What [strip] returns neither begins nor ends with a character it
    removes, and stripping it again changes nothing. *)
Lemma strip_by_ends (sp : ascii -> bool) (s : string) :
  (forall c rest, chars (strip_by sp s) = c :: rest -> sp c = false)
  /\ (forall init c, chars (strip_by sp s) = init ++ [c] -> sp c = false).
Proof.
  unfold strip_by. rewrite chars_text.
  set (l1 := lstrip sp (chars s)). set (l2 := lstrip sp (rev l1)).
  split.
  - intros c rest H.
    assert (H2 : l2 = rev rest ++ [c]).
    { rewrite <- (rev_involutive l2), H. reflexivity. }
    destruct (lstrip_suffix sp (rev l1)) as [p Hp]. fold l2 in Hp. rewrite H2 in Hp.
    assert (H1 : l1 = c :: rest ++ rev p).
    { rewrite <- (rev_involutive l1), Hp.
      rewrite !rev_app_distr, rev_involutive. reflexivity. }
    exact (lstrip_head sp (chars s) c _ H1).
  - intros init c H.
    assert (H2 : l2 = c :: rev init).
    { rewrite <- (rev_involutive l2), H, rev_app_distr. reflexivity. }
    exact (lstrip_head sp (rev l1) c _ H2).
Qed.

Lemma strip_by_idem (sp : ascii -> bool) (s : string) :
  strip_by sp (strip_by sp s) = strip_by sp s.
Proof.
  destruct (strip_by_ends sp s) as [Hfirst _].
  unfold strip_by at 1.
  rewrite (lstrip_fixed sp (chars (strip_by sp s))).
  2: { destruct (chars (strip_by sp s)) eqn:E; [exact I|]. eapply Hfirst, eq_refl. }
  unfold strip_by. rewrite chars_text, rev_involutive, lstrip_idem. reflexivity.
Qed.

Lemma strip_by_space_before (sp : ascii -> bool) (c : ascii) (s : string) :
  sp c = true -> strip_by sp (String c s) = strip_by sp s.
Proof. intros H. unfold strip_by. cbn. now rewrite H. Qed.

Lemma strip_by_space_after (sp : ascii -> bool) (c : ascii) (s : string) :
  sp c = true -> strip_by sp (s +:+ String c "") = strip_by sp s.
Proof.
  intros H. unfold strip_by. rewrite chars_append. cbn [chars list_ascii_of_string].
  rewrite (lstrip_snoc sp _ c H).
  destruct (forallb sp (chars s)) eqn:E.
  - now rewrite (lstrip_all sp _ E).
  - rewrite rev_app_distr. cbn. now rewrite H.
Qed.

(** X7: the guest name of a returned reservation is trimmed: it neither
    begins nor ends with white space and stripping it again changes nothing.
    When the record has no last name, or no first name, it is the other name
    trimmed: the space that joins the two names leaves no trace. *)
Theorem parse_guest_name_trimmed (booking : record) (r : Reservation) :
  parse_booking_data booking = OK r ->
  strip (guest_name r) = guest_name r
  /\ (forall c rest, chars (guest_name r) = c :: rest -> is_space c = false)
  /\ (forall init c, chars (guest_name r) = init ++ [c] -> is_space c = false)
  /\ (booking !! "lastName" = None ->
      guest_name r = strip (py_str (dict_get booking "firstName" (VStr ""))))
  /\ (booking !! "firstName" = None ->
      guest_name r = strip (py_str (dict_get booking "lastName" (VStr "")))).
Proof.
  intros H. apply parse_booking_data_inv in H as (label & arr & dep & _ & _ & _ & ->).
  cbn [guest_name]. unfold strip.
  split; [apply strip_by_idem|].
  split; [apply strip_by_ends|]. split; [apply strip_by_ends|].
  split; intros Hnone.
  - unfold dict_get at 1. rewrite Hnone.
    cbn [py_str]. apply (strip_by_space_before is_space). reflexivity.
  - unfold dict_get at 2. rewrite Hnone. cbn [py_str].
    apply (strip_by_space_after is_space " "). reflexivity.
Qed.

Lemma parse_guest_name_trimmed_sample :
  exists r,
    parse_booking_data sample_first_name_only = OK r
    /\ strip (guest_name r) = guest_name r
    /\ (forall c rest, chars (guest_name r) = c :: rest -> is_space c = false)
    /\ (forall init c, chars (guest_name r) = init ++ [c] -> is_space c = false)
    /\ (sample_first_name_only !! "lastName" = None ->
        guest_name r
        = strip (py_str (dict_get sample_first_name_only "firstName" (VStr ""))))
    /\ (sample_first_name_only !! "firstName" = None ->
        guest_name r
        = strip (py_str (dict_get sample_first_name_only "lastName" (VStr "")))).
Proof.
  eexists. split; [vm_compute; reflexivity|].
  apply (parse_guest_name_trimmed sample_first_name_only). vm_compute. reflexivity.
Defined.

(** ** Labels of the room table *)

Lemma room_table_labels_NoDup : NoDup (map snd room_table).
Proof. apply (bool_decide_unpack _). vm_compute. reflexivity. Qed.

Lemma synthesized_label_not_in_table (a b : value) :
  ~ In (synthesized_label a b) (map snd room_table).
Proof.
  intros H.
  assert (Hall : forallb (fun l => match l with
                                  | String c _ => negb (Ascii.eqb c "R")
                                  | EmptyString => true
                                  end) (map snd room_table)
                 = true) by (vm_compute; reflexivity).
  rewrite forallb_forall in Hall. specialize (Hall _ H).
  unfold synthesized_label in Hall. cbn [String.append] in Hall.
  discriminate Hall.
Qed.

Lemma NoDup_snd_inj {K V : Type} (l : list (K * V)) (k1 k2 : K) (v : V) :
  NoDup (map snd l) -> In (k1, v) l -> In (k2, v) l -> k1 = k2.
Proof.
  induction l as [|[k w] l IH]; cbn; [intros _ []|].
  intros Hnd H1 H2. apply NoDup_cons in Hnd as [Hnot Hnd].
  assert (Hv : forall k', In (k', v) l -> w <> v).
  { intros k' Hk' ->. apply Hnot, list_elem_of_In.
    change v with (snd (k', v)). now apply in_map. }
  destruct H1 as [E1|H1], H2 as [E2|H2].
  - congruence.
  - exfalso. apply (Hv k2 H2). congruence.
  - exfalso. apply (Hv k1 H1). congruence.
  - now apply IH.
Qed.

Lemma resolve_table_label (booking : record) (label : string) :
  In label (map snd room_table) ->
  resolve_room_name booking = OK label ->
  exists x y, room_unit_ids booking = (VInt x, VInt y) /\ In (x, y, label) room_table.
Proof.
  intros Hin Hres. unfold resolve_room_name in Hres.
  destruct (is_ok (py_int (dict_get booking "roomId" (VInt 0)))
            && is_ok (py_int (dict_get booking "unitId" (VInt 0)))) eqn:E.
  - destruct (py_int (dict_get booking "roomId" (VInt 0))) as [x|] eqn:Ex;
      [|discriminate].
    destruct (py_int (dict_get booking "unitId" (VInt 0))) as [y|] eqn:Ey;
      [|discriminate].
    rewrite (room_unit_ids_both booking x y Ex Ey) in Hres |- *.
    exists x, y. split; [reflexivity|].
    unfold room_lookup_get in Hres. cbn [fst snd hash_key bind] in Hres.
    destruct (room_lookup !! (x, y)) as [l|] eqn:L.
    + injection Hres as ->. now apply room_lookup_In.
    + injection Hres as <-. now apply synthesized_label_not_in_table in Hin.
  - rewrite (room_unit_ids_raw booking E) in Hres. cbn [fst snd] in Hres.
    exfalso.
    destruct (hash_key (dict_get booking "roomId" (VInt 0))) as [kr|] eqn:Hr.
    2: { unfold room_lookup_get in Hres. rewrite Hr in Hres. discriminate. }
    destruct (hash_key (dict_get booking "unitId" (VInt 0))) as [ku|] eqn:Hu.
    2: { unfold room_lookup_get in Hres. rewrite Hr, Hu in Hres. discriminate. }
    rewrite room_lookup_get_raw_miss in Hres.
    + injection Hres as <-. now apply synthesized_label_not_in_table in Hin.
    + unfold hashable. now rewrite Hr.
    + unfold hashable. now rewrite Hu.
    + exact E.
Qed.

(** X8: a label of the room table identifies the room.  The table gives no
    label to two pairs, and a synthesized label is never one of the table's:
    two records that resolve to the same label of the table have the same
    room and unit identifiers, the integers of the table's line. *)
Theorem room_label_identifies_room (b1 b2 : record) (label : string) :
  In label (map snd room_table) ->
  resolve_room_name b1 = OK label ->
  resolve_room_name b2 = OK label ->
  exists x y,
    In (x, y, label) room_table
    /\ room_unit_ids b1 = (VInt x, VInt y)
    /\ room_unit_ids b2 = (VInt x, VInt y).
Proof.
  intros Hin H1 H2.
  destruct (resolve_table_label b1 label Hin H1) as (x1 & y1 & E1 & I1).
  destruct (resolve_table_label b2 label Hin H2) as (x2 & y2 & E2 & I2).
  pose proof (NoDup_snd_inj room_table (x1, y1) (x2, y2) label
                room_table_labels_NoDup I1 I2) as [= <- <-].
  exists x1, y1. repeat split; assumption.
Qed.

Lemma room_label_identifies_room_sample :
  exists x y,
    In (x, y, "101") room_table
    /\ room_unit_ids sample_booking = (VInt x, VInt y)
    /\ room_unit_ids sample_text_ids = (VInt x, VInt y).
Proof.
  apply (room_label_identifies_room sample_booking sample_text_ids "101").
  - vm_compute. tauto.
  - vm_compute. reflexivity.
  - vm_compute. reflexivity.
Defined.

(** ** More on combining *)

Lemma combine_loop_ok_hashable (l : list record) :
  forall (seen : gset pykey) (combined res : list record),
    combine_loop seen combined l = OK res ->
    Forall (fun b => is_ok (booking_key b) = true) l.
Proof.
  induction l as [|b l IH]; intros seen combined res H; [constructor|].
  cbn in H. unfold booking_key.
  destruct (hash_key (dict_get b "id" VNone)) as [k|] eqn:Ek; [|discriminate].
  cbn [bind] in H. constructor; [now rewrite Ek|].
  destruct (decide (k ∈ seen)); eapply IH, H.
Qed.

Lemma combine_bookings_spec (a d s res : list record) :
  combine_bookings a d s = OK res ->
  Forall (fun b => is_ok (booking_key b) = true) (a ++ d ++ s)
  /\ sublist res (a ++ d ++ s)
  /\ forall k, List.filter (has_id k) res
               = take 1 (List.filter (has_id k) (a ++ d ++ s)).
Proof.
  unfold combine_bookings. intros H.
  pose proof (combine_loop_ok_hashable _ _ _ _ H) as Hh.
  split; [exact Hh|].
  destruct (combine_loop_spec (a ++ d ++ s) ∅ [] Hh) as (res' & E & Hsub & Hk).
  rewrite E in H. injection H as <-. cbn [app].
  split; [exact Hsub|]. intros k. rewrite Hk.
  destruct (decide (k ∈ (∅ : gset pykey))) as [Hin|_]; [|reflexivity].
  now apply not_elem_of_empty in Hin.
Qed.

Lemma has_id_true (k : pykey) (b : record) :
  has_id k b = true <-> booking_key b = OK k.
Proof.
  unfold has_id. destruct (booking_key b) as [k'|e].
  - rewrite bool_decide_eq_true. split; [now intros -> | now intros [= ->]].
  - split; discriminate.
Qed.

Lemma filter_In_nonempty {A : Type} (f : A -> bool) (l : list A) (x : A) :
  In x l -> f x = true -> List.filter f l <> [].
Proof.
  intros Hin Hf E.
  assert (In x (List.filter f l)) as X by (apply List.filter_In; now split).
  rewrite E in X. exact X.
Qed.

Lemma filter_two {A : Type} (f : A -> bool) (x : A) (l : list A) (y : A) :
  f x = true -> In y l -> f y = true ->
  (2 <= length (List.filter f (x :: l)))%nat.
Proof.
  intros Hx Hy Hfy. cbn. rewrite Hx. cbn.
  destruct (List.filter f l) eqn:E; [|cbn; lia].
  now apply (filter_In_nonempty f l y) in E.
Qed.

Lemma once_each_NoDup (l : list record) :
  Forall (fun b => is_ok (booking_key b) = true) l ->
  (forall k, (length (List.filter (has_id k) l) <= 1)%nat) ->
  NoDup (map booking_key l).
Proof.
  induction l as [|x l IH]; intros Hok Hone; cbn; [constructor|].
  apply Forall_cons in Hok as [Hx Hok].
  apply NoDup_cons. split.
  - intros Hin. apply list_elem_of_In, in_map_iff in Hin as (y & Ey & Hy).
    destruct (booking_key x) as [k|] eqn:Ex; [|discriminate].
    pose proof (filter_two (has_id k) x l y) as H2.
    specialize (Hone k).
    assert (2 <= length (List.filter (has_id k) (x :: l)))%nat; [|lia].
    apply H2; [now apply has_id_true | exact Hy | now apply has_id_true].
  - apply IH; [exact Hok|]. intros k. specialize (Hone k). cbn in Hone.
    destruct (has_id k x); cbn in Hone; lia.
Qed.

Lemma NoDup_map_eq {A B : Type} (f : A -> B) (l : list A) (x y : A) :
  NoDup (map f l) -> In x l -> In y l -> f x = f y -> x = y.
Proof.
  induction l as [|z l IH]; cbn; [intros _ []|].
  intros Hnd Hx Hy E. apply NoDup_cons in Hnd as [Hnot Hnd].
  assert (Hz : forall w, In w l -> f z <> f w).
  { intros w Hw Ew. apply Hnot, list_elem_of_In. rewrite Ew. now apply in_map. }
  destruct Hx as [<-|Hx], Hy as [<-|Hy].
  - reflexivity.
  - now apply Hz in Hy.
  - symmetry in E. now apply Hz in Hx.
  - now apply IH.
Qed.

Lemma sublist_In {A : Type} (l1 l2 : list A) (x : A) :
  sublist l1 l2 -> In x l1 -> In x l2.
Proof.
  intros Hs Hin. apply list_elem_of_In. apply list_elem_of_In in Hin.
  eapply sublist_submseteq in Hs. eapply elem_of_submseteq; eassumption.
Qed.

(** X9: the combined result has each identifier once and misses none.  No
    two of its records have the same identifier, each of its records is one
    of the three answers, every record of the answers has a record with its
    identifier in the result, and records without an [id] entry count as one
    identifier ([None]): at most one of them is kept. *)
Theorem combine_distinct_ids (a d s res : list record) :
  combine_bookings a d s = OK res ->
  NoDup (map booking_key res)
  /\ (forall b, In b res -> In b (a ++ d ++ s))
  /\ (forall b, In b (a ++ d ++ s) ->
        exists b', In b' res /\ booking_key b' = booking_key b)
  /\ (forall b1 b2, In b1 res -> In b2 res ->
        b1 !! "id" = None -> b2 !! "id" = None -> b1 = b2)
  /\ (length res <= length a + length d + length s)%nat.
Proof.
  intros H. apply combine_bookings_spec in H as (Hok & Hsub & Hk).
  assert (Hres : Forall (fun b => is_ok (booking_key b) = true) res).
  { apply List.Forall_forall. intros b Hb.
    rewrite List.Forall_forall in Hok. apply Hok. eapply sublist_In; eassumption. }
  assert (Hnd : NoDup (map booking_key res)).
  { apply once_each_NoDup; [exact Hres|]. intros k. rewrite Hk.
    rewrite length_take. lia. }
  split; [exact Hnd|]. split; [|split; [|split]].
  - intros b Hb. eapply sublist_In; eassumption.
  - intros b Hb. rewrite List.Forall_forall in Hok. specialize (Hok b Hb).
    destruct (booking_key b) as [k|] eqn:Ek; [|discriminate].
    specialize (Hk k).
    destruct (List.filter (has_id k) (a ++ d ++ s)) as [|y ys] eqn:El.
    { exfalso. apply (filter_In_nonempty (has_id k) _ b Hb); [|exact El].
      now apply has_id_true. }
    cbn in Hk.
    assert (In y (List.filter (has_id k) res)) as Hy by (rewrite Hk; now left).
    apply List.filter_In in Hy as [Hin Hid].
    exists y. split; [exact Hin|]. now apply has_id_true.
  - intros b1 b2 H1 H2 N1 N2.
    apply (NoDup_map_eq booking_key res b1 b2 Hnd H1 H2).
    unfold booking_key, dict_get. now rewrite N1, N2.
  - apply sublist_length in Hsub. rewrite !length_app in Hsub. lia.
Qed.

Lemma combine_distinct_ids_sample :
  NoDup (map booking_key sample_combined)
  /\ (forall b, In b sample_combined ->
        In b (sample_arrivals ++ sample_departures ++ sample_stay_through))
  /\ (forall b, In b (sample_arrivals ++ sample_departures ++ sample_stay_through) ->
        exists b', In b' sample_combined /\ booking_key b' = booking_key b)
  /\ (forall b1 b2, In b1 sample_combined -> In b2 sample_combined ->
        b1 !! "id" = None -> b2 !! "id" = None -> b1 = b2)
  /\ (length sample_combined <= length sample_arrivals + length sample_departures
                                + length sample_stay_through)%nat.
Proof.
  apply (combine_distinct_ids sample_arrivals sample_departures sample_stay_through).
  vm_compute. reflexivity.
Defined.

Lemma combine_loop_fresh (l : list record) :
  forall (seen : gset pykey) (combined : list record),
    Forall (fun b => exists k, booking_key b = OK k /\ k ∉ seen) l ->
    NoDup (map booking_key l) ->
    combine_loop seen combined l = OK (combined ++ l).
Proof.
  induction l as [|b l IH]; intros seen combined Hfresh Hnd; cbn [combine_loop].
  - now rewrite app_nil_r.
  - apply Forall_cons in Hfresh as [(k & Ek & Hk) Hfresh].
    cbn in Hnd. apply NoDup_cons in Hnd as [Hnot Hnd].
    unfold booking_key in Ek. rewrite Ek. cbn [bind].
    destruct (decide (k ∈ seen)) as [Hin|_]; [contradiction|].
    rewrite IH; [now rewrite <- app_assoc | | exact Hnd].
    apply List.Forall_forall. intros y Hy.
    rewrite List.Forall_forall in Hfresh.
    destruct (Hfresh y Hy) as (ky & Eky & Hky).
    exists ky. split; [exact Eky|].
    intros Hin. apply elem_of_union in Hin as [Hin|Hin]; [|contradiction].
    apply elem_of_singleton in Hin. subst ky.
    apply Hnot, list_elem_of_In.
    replace (booking_key b) with (booking_key y)
      by (rewrite Eky; unfold booking_key; now rewrite Ek).
    now apply in_map.
Qed.

(** X10: combining is idempotent: a combined result given again as the
    answer to any one of the three queries, the other two empty, comes back
    unchanged. *)
Theorem combine_idempotent (a d s res : list record) :
  combine_bookings a d s = OK res ->
  combine_bookings res [] [] = OK res
  /\ combine_bookings [] res [] = OK res
  /\ combine_bookings [] [] res = OK res.
Proof.
  intros H. apply combine_bookings_spec in H as (Hok & Hsub & Hk).
  assert (Hres : Forall (fun b => is_ok (booking_key b) = true) res).
  { apply List.Forall_forall. intros b Hb.
    rewrite List.Forall_forall in Hok. apply Hok. eapply sublist_In; eassumption. }
  assert (Hnd : NoDup (map booking_key res)).
  { apply once_each_NoDup; [exact Hres|]. intros k. rewrite Hk.
    rewrite length_take. lia. }
  assert (E : combine_loop ∅ [] res = OK res).
  { rewrite combine_loop_fresh; [reflexivity| |exact Hnd].
    apply List.Forall_forall. intros b Hb.
    rewrite List.Forall_forall in Hres. specialize (Hres b Hb).
    destruct (booking_key b) as [k|]; [|discriminate].
    exists k. split; [reflexivity|]. apply not_elem_of_empty. }
  unfold combine_bookings. cbn [app]. rewrite !app_nil_r. auto.
Qed.

Lemma combine_idempotent_sample :
  combine_bookings sample_combined [] [] = OK sample_combined
  /\ combine_bookings [] sample_combined [] = OK sample_combined
  /\ combine_bookings [] [] sample_combined = OK sample_combined.
Proof.
  apply (combine_idempotent sample_arrivals sample_departures sample_stay_through).
  vm_compute. reflexivity.
Defined.

Lemma error_message_not_success (text : string) : "Error: " +:+ text <> "Success".
Proof. cbn. discriminate. Qed.

(** X11: records come only with success.  Whenever [get_bookings] returns a
    record, its message is [Success], the client has an access token, and
    the record is one of the [data] entry of the reply to its request, a
    reply whose status is none of 401, 403, 404 and 429 and on which
    [raise_for_status] did not raise; every other answer has an empty
    list. *)
Theorem get_bookings_records_on_success (session_get : session) (c : client)
    (f af at_ df dt : option string) (b : record) :
  In b (get_bookings session_get c f af at_ df dt).1 ->
  (get_bookings session_get c f af at_ df dt).2 = "Success"
  /\ truthy (self_access_token c) = true
  /\ exists r data,
       session_get (self_access_token c) (params f af at_ df dt) = Replied r
       /\ ~ In (status_code r) [401; 403; 404; 429]
       /\ raise_for_status r = None
       /\ json r = BodyObject (Some data)
       /\ In b data.
Proof.
  unfold get_bookings.
  destruct (truthy (self_access_token c)); cbn [negb]; [|cbn [fst In]; intros []].
  destruct (session_get (self_access_token c) (params f af at_ df dt))
    as [text|r] eqn:E; [cbn [fst In]; intros []|].
  destruct (Z.eqb_spec (status_code r) 401); [cbn [fst In]; intros []|].
  destruct (Z.eqb_spec (status_code r) 403); [cbn [fst In]; intros []|].
  destruct (Z.eqb_spec (status_code r) 404); [cbn [fst In]; intros []|].
  destruct (Z.eqb_spec (status_code r) 429); [cbn [fst In]; intros []|].
  destruct (raise_for_status r) eqn:Er; [cbn [fst In]; intros []|].
  destruct (json r) as [text|[data|]] eqn:Ej; cbn [fst snd default In]; try (intros []).
  intros Hb. split; [reflexivity|]. split; [reflexivity|].
  exists r, data. repeat split; try assumption.
  cbn. lia.
Qed.

Lemma get_bookings_records_on_success_sample :
  (get_bookings sample_session sample_authenticated None None None None None).2
  = "Success"
  /\ truthy (self_access_token sample_authenticated) = true
  /\ exists r data,
       sample_session (self_access_token sample_authenticated)
         (params None None None None None) = Replied r
       /\ ~ In (status_code r) [401; 403; 404; 429]
       /\ raise_for_status r = None
       /\ json r = BodyObject (Some data)
       /\ In (record_of [("id", VInt 7); ("lastName", VStr "Caduff")]) data.
Proof.
  apply (get_bookings_records_on_success sample_session sample_authenticated
           None None None None None).
  right. left. reflexivity.
Defined.


Lemma combine_bookings_nil : combine_bookings [] [] [] = OK [].
Proof. reflexivity. Qed.



Lemma combine_loop_error (l : list record) :
  forall (seen : gset pykey) (combined : list record) (e : exn),
    combine_loop seen combined l = Err e -> e = TypeError.
Proof.
  induction l as [|b l IH]; intros seen combined e; cbn [combine_loop];
    [discriminate|].
  destruct (hash_key (dict_get b "id" VNone)) as [k|e'] eqn:Ek; cbn [bind].
  - destruct (decide (k ∈ seen)); apply IH.
  - intros [= <-]. destruct (dict_get b "id" VNone); cbn in Ek; congruence.
Qed.

(** X13: the dates for which the fetch raises.  The thirty days before and
    after the target date are computed before any request is made:
    [OverflowError] is raised exactly for the target dates before 0001-01-31
    and after 9999-12-01, whatever the client answers. *)
Theorem fetch_overflow (client : booking_client) (t : date) :
  fetch_all_relevant_bookings client t = Err OverflowError
  <-> toordinal t < toordinal (mk_date 1 1 31)
      \/ toordinal (mk_date 9999 12 1) < toordinal t.
Proof.
  change (toordinal (mk_date 1 1 31)) with 31.
  change (toordinal (mk_date 9999 12 1)) with 3652029.
  unfold fetch_all_relevant_bookings, date_add_days.
  destruct (Z.leb_spec 1 (toordinal t + -30)); cbn [andb bind];
    [|split; [intros _; lia | reflexivity]].
  destruct (Z.leb_spec (toordinal t + -30) 3652059); cbn [andb bind];
    [|split; [intros _; lia | reflexivity]].
  destruct (Z.leb_spec 1 (toordinal t + 30)); cbn [andb bind];
    [|split; [intros _; lia | reflexivity]].
  destruct (Z.leb_spec (toordinal t + 30) 3652059); cbn [andb bind];
    [|split; [intros _; lia | reflexivity]].
  split; [|lia]. unfold combine_bookings. intros Herr.
  apply combine_loop_error in Herr. discriminate.
Qed.

(** ** More on authentication *)

Lemma store_tokens_outcome (rt : Runtime) (c : client) (access refresh : value)
    (kind : string) (expires_at : option time) :
  let c' := store_tokens rt c access refresh kind expires_at in
  storage_tokens c' <> ∅
  /\ storage_tokens c' !! "access_token" = Some access
  /\ self_access_token c' = self_access_token c
  /\ self_refresh_token c' = self_refresh_token c.
Proof.
  cbv zeta. unfold store_tokens, now, set_tokens. cbn.
  split; [apply insert_non_empty|]. split; [apply lookup_insert_eq|].
  split; reflexivity.
Qed.

Lemma refresh_exchange_outcome (rt : Runtime) (c : client) (refresh : value)
    (r : result record) (c' : client) :
  authenticate_with_refresh_token rt c refresh = (r, c') ->
  match r with
  | OK _ => holds_stored_token c'
  | Err _ => storage_tokens c' = storage_tokens c
  end.
Proof.
  unfold authenticate_with_refresh_token.
  destruct (token_endpoint rt refresh) as [e|token_data].
  { intros [= <- <-]. reflexivity. }
  unfold now. cbn [set_access self_access_token self_refresh_token storage_tokens clock_reads].
  destruct (token_expires_at _ _) as [expires_at|e].
  - intros [= <- <-].
    match goal with
    | |- holds_stored_token (store_tokens ?rt ?c ?a ?rf ?k ?e) =>
        destruct (store_tokens_outcome rt c a rf k e) as (H1 & H2 & H3 & _)
    end.
    split; [exact H1|]. rewrite H2, H3. reflexivity.
  - intros [= <- <-]. reflexivity.
Qed.

Lemma invite_exchange_outcome (rt : Runtime) (c : client) (invite : value)
    (r : result record) (c' : client) :
  authenticate_with_invite_code rt c invite = (r, c') ->
  match r with
  | OK _ => holds_stored_token c'
  | Err _ => storage_tokens c' = storage_tokens c
  end.
Proof.
  unfold authenticate_with_invite_code.
  destruct (setup_endpoint rt invite) as [e|token_data].
  { intros [= <- <-]. reflexivity. }
  unfold now. cbn [set_access self_access_token self_refresh_token storage_tokens clock_reads].
  destruct (token_expires_at _ _) as [expires_at|e].
  - intros [= <- <-].
    match goal with
    | |- holds_stored_token (store_tokens ?rt ?c ?a ?rf ?k ?e) =>
        destruct (store_tokens_outcome rt c a rf k e) as (H1 & H2 & H3 & _)
    end.
    split; [exact H1|]. rewrite H2, H3. reflexivity.
  - intros [= <- <-]. reflexivity.
Qed.

Lemma get_tokens_outcome (rt : Runtime) (c : client) :
  let out := get_tokens rt c in
  storage_tokens out.2 = storage_tokens c
  /\ self_access_token out.2 = self_access_token c
  /\ self_refresh_token out.2 = self_refresh_token c
  /\ match out.1 with
     | OK (Some tokens) => tokens = storage_tokens c /\ tokens <> ∅
     | _ => True
     end.
Proof.
  cbv zeta. unfold get_tokens, now.
  destruct (decide (storage_tokens c = ∅)) as [E|N]; [cbn; tauto|].
  destruct (truthy (dict_get (storage_tokens c) "expires_at" VNone)); [|cbn; tauto].
  destruct (datetime_fromisoformat rt _) as [e|e]; [|cbn; tauto].
  destruct (e <=? clock rt (clock_reads c)); [|cbn; tauto].
  destruct (truthy (dict_get (storage_tokens c) "refresh_token" VNone)); cbn; tauto.
Qed.

(** What the stored part of [authenticate] leaves behind. *)
Lemma authenticate_stored_outcome (rt : Runtime) (c : client)
    (r : result (option auth_message)) (c' : client) :
  authenticate_stored rt c = (r, c') ->
  match r with
  | OK (Some Refreshed) => holds_stored_token c'
  | OK (Some UsingStored) =>
      holds_stored_token c' /\ storage_tokens c' = storage_tokens c
  | OK (Some (RefreshFailed _)) | OK None | Err _ =>
      storage_tokens c' = storage_tokens c
  | OK (Some _) => False
  end.
Proof.
  unfold authenticate_stored.
  pose proof (get_tokens_outcome rt c) as Hg. cbv zeta in Hg.
  destruct (get_tokens rt c) as [[[tokens|]|e] c1]; cbn [fst snd] in Hg;
    destruct Hg as (Hs & Ha & Hr & Ht).
  2, 3: intros [= <- <-]; exact Hs.
  destruct Ht as [-> Hne].
  destruct (decide (storage_tokens c = ∅)) as [E|_]; [contradiction|].
  destruct (storage_tokens c !! "access_token") as [access|] eqn:Eacc.
  2: { intros [= <- <-]. exact Hs. }
  destruct (truthy (dict_get (storage_tokens c) "expires_at" VNone)).
  2: { intros [= <- <-]. cbn. unfold holds_stored_token. cbn.
       rewrite Hs. repeat split; assumption. }
  destruct (datetime_fromisoformat rt _) as [e|e].
  2: { intros [= <- <-]. cbn. exact Hs. }
  unfold now.
  cbn [set_access self_access_token self_refresh_token storage_tokens clock_reads].
  match goal with
  | |- context [if ?b then _ else _] => destruct b
  end.
  - destruct (authenticate_with_refresh_token rt _ _) as [[td|e'] c2] eqn:Ex;
      apply refresh_exchange_outcome in Ex; cbn [storage_tokens] in Ex.
    + intros [= <- <-]. exact Ex.
    + destruct (is_request_exception e'); intros [= <- <-]; congruence.
  - destruct (truthy access); intros [= <- <-]; cbn.
    + unfold holds_stored_token. cbn. rewrite Hs. repeat split; assumption.
    + exact Hs.
Qed.

(** What the supplied part of [authenticate] leaves behind. *)
Lemma authenticate_supplied_outcome (rt : Runtime) (c : client)
    (long_life_token refresh_token invite_code : value)
    (r : result auth_message) (c' : client) :
  authenticate_supplied rt c long_life_token refresh_token invite_code = (r, c') ->
  match r with
  | OK WithLongLifeToken | OK WithRefreshToken | OK WithInviteCode =>
      holds_stored_token c'
  | OK NoCredentials | Err _ => storage_tokens c' = storage_tokens c
  | OK _ => False
  end.
Proof.
  unfold authenticate_supplied.
  destruct (truthy (py_or long_life_token _)).
  { intros [= <- <-].
    match goal with
    | |- holds_stored_token (store_tokens ?rt ?c ?a ?rf ?k ?e) =>
        destruct (store_tokens_outcome rt c a rf k e) as (H1 & H2 & H3 & _)
    end.
    split; [exact H1|]. rewrite H2, H3. reflexivity. }
  destruct (truthy (py_or refresh_token _)).
  { destruct (authenticate_with_refresh_token rt c _) as [[td|e] c2] eqn:Ex;
      apply refresh_exchange_outcome in Ex; intros [= <- <-]; exact Ex. }
  destruct (truthy (py_or invite_code _)).
  { destruct (authenticate_with_invite_code rt c _) as [[td|e] c2] eqn:Ex;
      apply invite_exchange_outcome in Ex; intros [= <- <-]; exact Ex. }
  intros [= <- <-]. reflexivity.
Qed.

(** What [authenticate] leaves behind, by the message it returns. *)
Lemma authenticate_outcome (rt : Runtime) (c : client)
    (long_life_token refresh_token invite_code : value) :
  let out := authenticate rt c long_life_token refresh_token invite_code in
  if auth_success out.1 then holds_stored_token out.2
  else storage_tokens out.2 = storage_tokens c.
Proof.
  cbv zeta. rewrite authenticate_unfold.
  destruct (authenticate_stored rt c) as [r c1] eqn:Es.
  apply authenticate_stored_outcome in Es.
  destruct r as [[m|]|e].
  - destruct m; cbn in Es |- *; try contradiction; try tauto.
  - destruct (authenticate_supplied rt c1 long_life_token refresh_token invite_code)
      as [r' c2] eqn:Ep.
    apply authenticate_supplied_outcome in Ep.
    destruct r' as [m|e].
    + destruct m; cbn in Ep |- *; try contradiction; try tauto; congruence.
    + cbn. destruct (is_request_exception e); cbn; congruence.
  - cbn. destruct (is_request_exception e); cbn; exact Es.
Qed.

(** X14: a failed authentication changes nothing that is stored: when
    [authenticate] returns [False], whatever the message, the stored tokens
    are those it found. *)
Theorem authenticate_failure_keeps_storage (rt : Runtime) (c : client)
    (long_life_token refresh_token invite_code : value) :
  auth_success (authenticate rt c long_life_token refresh_token invite_code).1 = false ->
  storage_tokens (authenticate rt c long_life_token refresh_token invite_code).2
  = storage_tokens c.
Proof.
  intros H. pose proof (authenticate_outcome rt c long_life_token refresh_token
                          invite_code) as Ho.
  cbv zeta in Ho. rewrite H in Ho. exact Ho.
Qed.

Lemma authenticate_failure_keeps_storage_sample :
  storage_tokens (authenticate sample_runtime (sample_client sample_tokens_no_access)
                    VNone VNone VNone).2
  = storage_tokens (sample_client sample_tokens_no_access).
Proof.
  apply (authenticate_failure_keeps_storage sample_runtime
           (sample_client sample_tokens_no_access) VNone VNone VNone).
  vm_compute. reflexivity.
Defined.

(** X15: a successful authentication leaves the client and the store in
    step: when [authenticate] returns [True], there is a stored bundle and
    its access token is the one the client will send. *)
Theorem authenticate_success_stored (rt : Runtime) (c : client)
    (long_life_token refresh_token invite_code : value) :
  auth_success (authenticate rt c long_life_token refresh_token invite_code).1 = true ->
  holds_stored_token (authenticate rt c long_life_token refresh_token invite_code).2.
Proof.
  intros H. pose proof (authenticate_outcome rt c long_life_token refresh_token
                          invite_code) as Ho.
  cbv zeta in Ho. rewrite H in Ho. exact Ho.
Qed.

Lemma authenticate_success_stored_sample :
  holds_stored_token
    (authenticate sample_runtime (sample_client sample_tokens_expired)
       VNone VNone VNone).2.
Proof.
  apply (authenticate_success_stored sample_runtime
           (sample_client sample_tokens_expired) VNone VNone VNone).
  vm_compute. reflexivity.
Defined.

(** A stored bundle without expiry is used as it is. *)
Lemma authenticate_no_expiry (rt : Runtime) (c : client) (a : value)
    (long_life_token refresh_token invite_code : value) :
  storage_tokens c <> ∅ ->
  truthy (dict_get (storage_tokens c) "expires_at" VNone) = false ->
  storage_tokens c !! "access_token" = Some a ->
  authenticate rt c long_life_token refresh_token invite_code
  = (UsingStored,
     set_access c a (dict_get (storage_tokens c) "refresh_token" VNone)).
Proof.
  intros Hne Hexp Hacc. rewrite authenticate_unfold. unfold authenticate_stored.
  rewrite (get_tokens_no_expiry rt c Hne Hexp).
  destruct (decide (storage_tokens c = ∅)) as [E|_]; [contradiction|].
  rewrite Hacc, Hexp. reflexivity.
Qed.

(** How [authenticate] comes to answer with the long-life message. *)
Lemma authenticate_long_life_inv (rt : Runtime) (c : client)
    (long_life_token refresh_token invite_code : value) :
  (authenticate rt c long_life_token refresh_token invite_code).1 = WithLongLifeToken ->
  exists c0,
    (authenticate rt c long_life_token refresh_token invite_code).2
    = store_tokens rt
        (set_access c0 (py_or long_life_token (getenv rt "BEDS24_LONG_LIFE_TOKEN"))
           (self_refresh_token c0))
        (py_or long_life_token (getenv rt "BEDS24_LONG_LIFE_TOKEN")) VNone
        "long_life" None.
Proof.
  rewrite authenticate_unfold.
  destruct (authenticate_stored rt c) as [r c1] eqn:Es.
  apply authenticate_stored_outcome in Es.
  destruct r as [[m|]|e].
  - destruct m; cbn; try discriminate. contradiction.
  - unfold authenticate_supplied.
    destruct (truthy (py_or long_life_token _)).
    { intros _. exists c1. reflexivity. }
    destruct (truthy (py_or refresh_token _)).
    { destruct (authenticate_with_refresh_token rt c1 _) as [[td|e] c2]; cbn;
        [discriminate|]. destruct (is_request_exception e); discriminate. }
    destruct (truthy (py_or invite_code _)).
    { destruct (authenticate_with_invite_code rt c1 _) as [[td|e] c2]; cbn;
        [discriminate|]. destruct (is_request_exception e); discriminate. }
    discriminate.
  - cbn. destruct (is_request_exception e); discriminate.
Qed.

(** X16: a stored long-life token shadows what is supplied later.  After
    [authenticate] has answered with the long-life message, every further
    call, whatever credentials it is given and whatever the time, answers
    that it uses the stored authentication, sends the same token and leaves
    the store as it is. *)
Theorem long_life_token_is_kept (rt : Runtime) (c : client)
    (long_life_token refresh_token invite_code : value)
    (later_long_life later_refresh later_invite : value) :
  (authenticate rt c long_life_token refresh_token invite_code).1 = WithLongLifeToken ->
  let c1 := (authenticate rt c long_life_token refresh_token invite_code).2 in
  let out := authenticate rt c1 later_long_life later_refresh later_invite in
  out.1 = UsingStored
  /\ self_access_token c1 = py_or long_life_token (getenv rt "BEDS24_LONG_LIFE_TOKEN")
  /\ self_access_token out.2 = self_access_token c1
  /\ storage_tokens out.2 = storage_tokens c1
  /\ clock_reads out.2 = clock_reads c1.
Proof.
  intros H. cbv zeta.
  destruct (authenticate_long_life_inv rt c _ _ _ H) as [c0 ->].
  set (L := py_or long_life_token (getenv rt "BEDS24_LONG_LIFE_TOKEN")).
  set (c1 := store_tokens rt (set_access c0 L (self_refresh_token c0)) L VNone
               "long_life" None).
  destruct (store_tokens_outcome rt (set_access c0 L (self_refresh_token c0)) L VNone
              "long_life" None) as (Hne & Hacc & Hself & _).
  fold c1 in Hne, Hacc, Hself.
  destruct (store_tokens_fields rt (set_access c0 L (self_refresh_token c0)) L VNone
              "long_life" None) as (_ & _ & _ & Hexp).
  fold c1 in Hexp.
  rewrite (authenticate_no_expiry rt c1 L); [|exact Hne | now rewrite Hexp | exact Hacc].
  cbn. repeat split.
Qed.

Lemma long_life_token_is_kept_sample :
  (authenticate sample_runtime
     (authenticate sample_runtime (sample_client ∅) (VStr "LL") VNone VNone).2
     (VStr "other") (VStr "R") VNone).1 = UsingStored
  /\ self_access_token
       (authenticate sample_runtime (sample_client ∅) (VStr "LL") VNone VNone).2
     = py_or (VStr "LL") (getenv sample_runtime "BEDS24_LONG_LIFE_TOKEN")
  /\ self_access_token
       (authenticate sample_runtime
          (authenticate sample_runtime (sample_client ∅) (VStr "LL") VNone VNone).2
          (VStr "other") (VStr "R") VNone).2
     = self_access_token
         (authenticate sample_runtime (sample_client ∅) (VStr "LL") VNone VNone).2
  /\ storage_tokens
       (authenticate sample_runtime
          (authenticate sample_runtime (sample_client ∅) (VStr "LL") VNone VNone).2
          (VStr "other") (VStr "R") VNone).2
     = storage_tokens
         (authenticate sample_runtime (sample_client ∅) (VStr "LL") VNone VNone).2
  /\ clock_reads
       (authenticate sample_runtime
          (authenticate sample_runtime (sample_client ∅) (VStr "LL") VNone VNone).2
          (VStr "other") (VStr "R") VNone).2
     = clock_reads
         (authenticate sample_runtime (sample_client ∅) (VStr "LL") VNone VNone).2.
Proof.
  apply (long_life_token_is_kept sample_runtime (sample_client ∅)
           (VStr "LL") VNone VNone (VStr "other") (VStr "R") VNone).
  vm_compute. reflexivity.
Defined.

(** X17: a stored bundle without expiry is taken on trust.  When its access
    token is empty, [authenticate] still answers [True] with the stored
    authentication, and every request for bookings that follows is refused
    by the client itself, whatever the credentials that were supplied. *)
Theorem stored_empty_token_accepted (rt : Runtime) (c : client) (a : value)
    (long_life_token refresh_token invite_code : value)
    (session_get : session) (f af at_ df dt : option string) :
  storage_tokens c <> ∅ ->
  truthy (dict_get (storage_tokens c) "expires_at" VNone) = false ->
  storage_tokens c !! "access_token" = Some a ->
  truthy a = false ->
  let out := authenticate rt c long_life_token refresh_token invite_code in
  out.1 = UsingStored
  /\ auth_success out.1 = true
  /\ get_bookings session_get out.2 f af at_ df dt
     = ([], "No access token available. Please authenticate first.").
Proof.
  intros Hne Hexp Hacc Ha. cbv zeta.
  rewrite (authenticate_no_expiry rt c a _ _ _ Hne Hexp Hacc).
  cbn [fst snd auth_success]. split; [reflexivity|]. split; [reflexivity|].
  unfold get_bookings. cbn [set_access self_access_token]. rewrite Ha. reflexivity.
Qed.

Lemma sample_tokens_empty_access_nonempty : sample_tokens_empty_access <> ∅.
Proof.
  intros E. apply (f_equal (fun m : record => m !! "token_type")) in E.
  vm_compute in E. discriminate E.
Qed.

Lemma stored_empty_token_accepted_sample :
  (authenticate sample_runtime (sample_client sample_tokens_empty_access)
     (VStr "LL") VNone VNone).1 = UsingStored
  /\ auth_success
       (authenticate sample_runtime (sample_client sample_tokens_empty_access)
          (VStr "LL") VNone VNone).1 = true
  /\ get_bookings sample_session
       (authenticate sample_runtime (sample_client sample_tokens_empty_access)
          (VStr "LL") VNone VNone).2 None None None None None
     = ([], "No access token available. Please authenticate first.").
Proof.
  apply (stored_empty_token_accepted sample_runtime
           (sample_client sample_tokens_empty_access) (VStr "")
           (VStr "LL") VNone VNone sample_session None None None None None).
  - exact sample_tokens_empty_access_nonempty.
  - vm_compute. reflexivity.
  - vm_compute. reflexivity.
  - reflexivity.
Defined.

(** ** Storing and reading back *)

(** X18: a bundle stored without expiry never expires: whatever the clock
    reads and whatever the client holds, [get_tokens] returns it, and it
    does not read the clock. *)
Theorem stored_without_expiry_never_expires (rt : Runtime) (c : client)
    (access refresh : value) (kind : string) (a r : value) (n : nat) :
  let tokens := storage_tokens (store_tokens rt c access refresh kind None) in
  get_tokens rt (mk_client a r tokens n) = (OK (Some tokens), mk_client a r tokens n).
Proof.
  cbv zeta.
  destruct (store_tokens_outcome rt c access refresh kind None) as (Hne & _).
  destruct (store_tokens_fields rt c access refresh kind None) as (_ & _ & _ & Hexp).
  cbv zeta in Hexp.
  apply (get_tokens_no_expiry rt (mk_client a r _ n)); cbn [storage_tokens];
    [exact Hne | now rewrite Hexp].
Qed.

(** X19: what [store_tokens] writes, [get_tokens] reads back.  With a
    runtime whose [fromisoformat] reads the text [isoformat] writes for the
    expiry, a bundle stored with expiry [e] is returned while the clock is
    before [e]; from [e] on it is returned when it was stored with a refresh
    token and withheld when it was not. *)
Theorem stored_expiry_is_honoured (rt : Runtime) (c : client)
    (access refresh : value) (kind : string) (e : time) (a r : value) (n : nat) :
  fromisoformat rt (isoformat rt e) = OK e ->
  isoformat rt e <> "" ->
  let tokens := storage_tokens (store_tokens rt c access refresh kind (Some e)) in
  (get_tokens rt (mk_client a r tokens n)).1
  = if e <=? clock rt n
    then if truthy refresh then OK (Some tokens) else OK None
    else OK (Some tokens).
Proof.
  intros Hround Hnonempty. cbv zeta.
  destruct (store_tokens_outcome rt c access refresh kind (Some e)) as (Hne & _).
  destruct (store_tokens_fields rt c access refresh kind (Some e))
    as (_ & Href & _ & Hexp).
  cbv zeta in Href, Hexp.
  rewrite (get_tokens_expiry rt (mk_client a r _ n) (isoformat rt e) e);
    cbn [storage_tokens clock_reads fst]; try assumption.
  now rewrite Href.
Qed.

Lemma stored_expiry_is_honoured_sample :
  (get_tokens sample_runtime_iso
     (mk_client VNone VNone
        (storage_tokens (store_tokens sample_runtime_iso (sample_client ∅)
                           (VStr "tok") VNone "refresh" (Some 5000))) 7)).1
  = if 5000 <=? clock sample_runtime_iso 7
    then if truthy VNone
         then OK (Some (storage_tokens
                          (store_tokens sample_runtime_iso (sample_client ∅)
                             (VStr "tok") VNone "refresh" (Some 5000))))
         else OK None
    else OK (Some (storage_tokens
                     (store_tokens sample_runtime_iso (sample_client ∅)
                        (VStr "tok") VNone "refresh" (Some 5000)))).
Proof.
  apply (stored_expiry_is_honoured sample_runtime_iso (sample_client ∅)
           (VStr "tok") VNone "refresh" 5000 VNone VNone 7).
  - vm_compute. reflexivity.
  - vm_compute. discriminate.
Defined.

(** ** Guest totals *)

Lemma sum_from_error (l : list value) (acc : Z) (e : exn) :
  sum_from acc l = Err e -> e = TypeError.
Proof.
  revert acc. induction l as [|v l IH]; intros acc; cbn; [discriminate|].
  destruct v; cbn; try (now intros [= <-]); apply IH.
Qed.

Lemma sum_from_Permutation (l l' : list value) :
  Permutation l l' -> forall acc, sum_from acc l = sum_from acc l'.
Proof.
  induction 1 as [|x l l' _ IH|x y l|l l' l'' _ IH1 _ IH2]; intros acc.
  - reflexivity.
  - cbn. destruct (py_add acc x); cbn; [apply IH | reflexivity].
  - destruct x, y; cbn; try reflexivity; f_equal; lia.
  - now rewrite IH1.
Qed.

Lemma sum_from_bad (l : list value) (v : value) :
  In v l -> is_ok (py_add 0 v) = false -> forall acc, sum_from acc l = Err TypeError.
Proof.
  induction l as [|x l IH]; intros Hin Hbad acc; [destruct Hin|]. cbn.
  destruct Hin as [->|Hin].
  - destruct v; cbn in Hbad |- *; try discriminate; reflexivity.
  - destruct (py_add acc x) as [acc'|e] eqn:E; cbn.
    + now apply IH.
    + destruct x; cbn in E; congruence.
Qed.

Lemma guest_str_Permutation (l l' : list Reservation) :
  Permutation l l' -> guest_str l = guest_str l'.
Proof.
  intros H. unfold guest_str, py_sum.
  rewrite (sum_from_Permutation _ _ (Permutation_map adults H)).
  rewrite (sum_from_Permutation _ _ (Permutation_map children H)).
  reflexivity.
Qed.

Lemma sum_from_integers (l : list value) :
  Forall (fun v => integer_count v = true) l ->
  forall acc, is_ok (sum_from acc l) = true.
Proof.
  induction 1 as [|v l Hv _ IH]; intros acc; [reflexivity|].
  destruct v; try discriminate; cbn; apply IH.
Qed.

Lemma guest_str_integers (l : list Reservation) :
  Forall (fun r => integer_count (adults r) && integer_count (children r) = true) l ->
  is_ok (guest_str l) = true.
Proof.
  intros H. unfold guest_str, py_sum.
  assert (Ha : Forall (fun v => integer_count v = true) (map adults l)).
  { apply List.Forall_map. revert H. apply List.Forall_impl.
    intros r Hr. apply andb_prop in Hr. tauto. }
  assert (Hc : Forall (fun v => integer_count v = true) (map children l)).
  { apply List.Forall_map. revert H. apply List.Forall_impl.
    intros r Hr. apply andb_prop in Hr. tauto. }
  pose proof (sum_from_integers _ Ha 0) as Oa.
  pose proof (sum_from_integers _ Hc 0) as Oc.
  destruct (sum_from 0 (map adults l)); [|discriminate].
  destruct (sum_from 0 (map children l)); [|discriminate].
  reflexivity.
Qed.

Lemma Forall_filter_keep {A : Type} (P : A -> Prop) (f : A -> bool) (l : list A) :
  Forall P l -> Forall P (List.filter f l).
Proof.
  rewrite !List.Forall_forall. intros H x Hx.
  apply List.filter_In in Hx. apply H, Hx.
Qed.

(** X20: when the numbers of adults and of children of the reservations
    are integers, the totals in the headings of the three sections are
    those of the reservations the rules select, whatever the order in which
    the sections are sorted, and each of the three totals can be made. *)
Theorem guest_str_of_sections (rs : list Reservation) (t : date) :
  Forall (fun r => integer_count (adults r) && integer_count (children r) = true) rs ->
  let '(a, d, s) := categorize_reservations rs t in
  (guest_str a = guest_str (List.filter (arrives t) rs)
   /\ guest_str d = guest_str (List.filter (departs t) rs)
   /\ guest_str s = guest_str (List.filter (stays t) rs))
  /\ is_ok (guest_str a) && is_ok (guest_str d) && is_ok (guest_str s) = true.
Proof.
  intros Hint. rewrite categorize_reservations_eq.
  assert (Ha : guest_str (sorted room_name (List.filter (arrives t) rs))
               = guest_str (List.filter (arrives t) rs))
    by apply guest_str_Permutation, sorted_Permutation.
  assert (Hd : guest_str (sorted room_name (List.filter (departs t) rs))
               = guest_str (List.filter (departs t) rs))
    by apply guest_str_Permutation, sorted_Permutation.
  assert (Hs : guest_str (sorted room_name (List.filter (stays t) rs))
               = guest_str (List.filter (stays t) rs))
    by apply guest_str_Permutation, sorted_Permutation.
  split; [repeat split; assumption|].
  rewrite Ha, Hd, Hs.
  rewrite !guest_str_integers by (apply Forall_filter_keep; exact Hint).
  reflexivity.
Qed.

Lemma guest_str_of_sections_sample :
  let '(a, d, s) := categorize_reservations sample_reservations (mk_date 2024 5 17) in
  (guest_str a = guest_str (List.filter (arrives (mk_date 2024 5 17)) sample_reservations)
   /\ guest_str d
      = guest_str (List.filter (departs (mk_date 2024 5 17)) sample_reservations)
   /\ guest_str s
      = guest_str (List.filter (stays (mk_date 2024 5 17)) sample_reservations))
  /\ is_ok (guest_str a) && is_ok (guest_str d) && is_ok (guest_str s) = true.
Proof.
  apply (guest_str_of_sections sample_reservations (mk_date 2024 5 17)).
  repeat constructor.
Defined.

(** X21: the counts of a record are taken as they come.  A record whose
    number of adults or of children is there and is no number is parsed
    without complaint, and the heading of every section that lists its
    reservation raises [TypeError]. *)
Theorem guest_str_unchecked_counts (booking : record) (r : Reservation)
    (reslist : list Reservation) :
  parse_booking_data booking = OK r ->
  In r reslist ->
  is_ok (py_add 0 (dict_get booking "numAdult" (VInt 0)))
  && is_ok (py_add 0 (dict_get booking "numChild" (VInt 0))) = false ->
  guest_str reslist = Err TypeError.
Proof.
  intros Hp Hin Hbad.
  apply parse_booking_data_inv in Hp as (label & arr & dep & _ & _ & _ & ->).
  unfold guest_str, py_sum.
  destruct (is_ok (py_add 0 (dict_get booking "numAdult" (VInt 0)))) eqn:Ea.
  - cbn [andb] in Hbad.
    destruct (sum_from 0 (map adults reslist)) as [total_a|e] eqn:Es; cbn [bind].
    + rewrite (sum_from_bad (map children reslist)
                 (dict_get booking "numChild" (VInt 0))); [reflexivity| |exact Hbad].
      apply in_map_iff. eexists. split; [|exact Hin]. reflexivity.
    + apply sum_from_error in Es. now subst.
  - rewrite (sum_from_bad (map adults reslist)
               (dict_get booking "numAdult" (VInt 0))); [reflexivity| |exact Ea].
    apply in_map_iff. eexists. split; [|exact Hin]. reflexivity.
Qed.

Lemma guest_str_unchecked_counts_sample :
  exists r,
    parse_booking_data sample_null_adults = OK r
    /\ guest_str [res_101; r] = Err TypeError.
Proof.
  eexists. split; [vm_compute; reflexivity|].
  match goal with
  | |- guest_str [_; ?r] = _ => apply (guest_str_unchecked_counts sample_null_adults r)
  end.
  - vm_compute. reflexivity.
  - right. left. reflexivity.
  - reflexivity.
Defined.

(** ** Ordinals and dates *)

Lemma month_of_ok (leapyear : bool) (n : Z) :
  0 <= n < 365 ->
  1 <= month_of leapyear n <= 12
  /\ 1 <= n - days_before leapyear (month_of leapyear n) + 1
     <= (if (month_of leapyear n =? 2) && leapyear then 29
         else nth (Z.to_nat (month_of leapyear n - 1)) DAYS_IN_MONTH 0).
Proof.
  intros Hn.
  assert (Hall : forallb (fun k =>
            let n := Z.of_nat k in
            forallb (fun leap =>
              let m := month_of leap n in
              (1 <=? m) && (m <=? 12)
              && (1 <=? n - days_before leap m + 1)
              && (n - days_before leap m + 1
                  <=? (if (m =? 2) && leap then 29
                       else nth (Z.to_nat (m - 1)) DAYS_IN_MONTH 0)))
              [true; false]) (seq 0 365) = true) by (vm_compute; reflexivity).
  rewrite forallb_forall in Hall.
  specialize (Hall (Z.to_nat n)). rewrite Z2Nat.id in Hall by lia.
  assert (Hin : In (Z.to_nat n) (seq 0 365)) by (apply in_seq; lia).
  specialize (Hall Hin). cbv zeta in Hall. rewrite forallb_forall in Hall.
  assert (Hl : In leapyear [true; false]) by (destruct leapyear; cbn; tauto).
  specialize (Hall leapyear Hl).
  repeat (apply andb_prop in Hall as [Hall ?]). lia.
Qed.

Lemma ord2ymd_unfold (n : Z) :
  ord2ymd n
  = let n0 := n - 1 in
    let n400 := n0 / 146097 in
    let r := n0 mod 146097 in
    let n100 := r / 36524 in
    let r1 := r mod 36524 in
    let n4 := r1 / 1461 in
    let r2 := r1 mod 1461 in
    let n1 := r2 / 365 in
    let d := r2 mod 365 in
    let y := n400 * 400 + 1 + n100 * 100 + n4 * 4 + n1 in
    if (n1 =? 4) || (n100 =? 4) then mk_date (y - 1) 12 31
    else
      let leapyear := (n1 =? 3) && (negb (n4 =? 24) || (n100 =? 3)) in
      mk_date y (month_of leapyear d)
        (d - days_before leapyear (month_of leapyear d) + 1).
Proof. reflexivity. Qed.

Lemma is_leap_decomposed (a b c e : Z) :
  0 <= a -> 0 <= b <= 3 -> 0 <= c <= 24 -> 0 <= e <= 3 ->
  is_leap (a * 400 + 1 + b * 100 + c * 4 + e)
  = (e =? 3) && (negb (c =? 24) || (b =? 3)).
Proof.
  intros Ha Hb Hc He. unfold is_leap.
  set (y := a * 400 + 1 + b * 100 + c * 4 + e).
  assert (H4 : y mod 4 = (e + 1) mod 4).
  { subst y. replace (a * 400 + 1 + b * 100 + c * 4 + e)
      with ((e + 1) + (a * 100 + b * 25 + c) * 4) by lia.
    apply Z.mod_add. lia. }
  assert (H100 : y mod 100 = (c * 4 + e + 1) mod 100).
  { subst y. replace (a * 400 + 1 + b * 100 + c * 4 + e)
      with ((c * 4 + e + 1) + (a * 4 + b) * 100) by lia.
    apply Z.mod_add. lia. }
  assert (H400 : y mod 400 = (b * 100 + c * 4 + e + 1) mod 400).
  { subst y. replace (a * 400 + 1 + b * 100 + c * 4 + e)
      with ((b * 100 + c * 4 + e + 1) + a * 400) by lia.
    apply Z.mod_add. lia. }
  rewrite H4, H100, H400. clearbody y. clear H4 H100 H400.
  destruct (Z.eqb_spec e 3) as [->|Ne].
  - change ((3 + 1) mod 4 =? 0) with true. cbn [andb].
    destruct (Z.eqb_spec c 24) as [->|Nc].
    + change ((24 * 4 + 3 + 1) mod 100 =? 0) with true. cbn [negb orb].
      destruct (Z.eqb_spec b 3) as [->|Nb]; [reflexivity|].
      apply Z.eqb_neq. rewrite Z.mod_small by lia. lia.
    + cbn [negb orb].
      assert (H : ((c * 4 + 3 + 1) mod 100 =? 0) = false).
      { apply Z.eqb_neq. rewrite Z.mod_small by lia. lia. }
      rewrite H. reflexivity.
  - cbn [andb].
    assert (H : ((e + 1) mod 4 =? 0) = false).
    { apply Z.eqb_neq. rewrite Z.mod_small by lia. lia. }
    rewrite H. reflexivity.
Qed.

Lemma days_before_year_decomposed (a b c e : Z) :
  0 <= a -> 0 <= b <= 3 -> 0 <= c <= 24 -> 0 <= e <= 3 ->
  days_before_year (a * 400 + 1 + b * 100 + c * 4 + e)
  = 146097 * a + 36524 * b + 1461 * c + 365 * e.
Proof.
  intros Ha Hb Hc He. unfold days_before_year.
  replace (a * 400 + 1 + b * 100 + c * 4 + e - 1)
    with (a * 400 + b * 100 + c * 4 + e) by lia.
  assert (H4 : (a * 400 + b * 100 + c * 4 + e) / 4 = a * 100 + b * 25 + c).
  { replace (a * 400 + b * 100 + c * 4 + e) with (e + (a * 100 + b * 25 + c) * 4)
      by lia.
    rewrite Z.div_add by lia. rewrite Z.div_small by lia. lia. }
  assert (H100 : (a * 400 + b * 100 + c * 4 + e) / 100 = a * 4 + b).
  { replace (a * 400 + b * 100 + c * 4 + e) with ((c * 4 + e) + (a * 4 + b) * 100)
      by lia.
    rewrite Z.div_add by lia. rewrite Z.div_small by lia. lia. }
  assert (H400 : (a * 400 + b * 100 + c * 4 + e) / 400 = a).
  { replace (a * 400 + b * 100 + c * 4 + e) with ((b * 100 + c * 4 + e) + a * 400)
      by lia.
    rewrite Z.div_add by lia. rewrite Z.div_small by lia. lia. }
  rewrite H4, H100, H400. lia.
Qed.

(** [date.fromordinal] and [toordinal] are inverse on the ordinals of the
    calendar, and [date.fromordinal] gives dates of the calendar. *)
Lemma ord2ymd_toordinal (n : Z) :
  1 <= n <= 3652059 -> valid_date (ord2ymd n) /\ toordinal (ord2ymd n) = n.
Proof.
  intros Hn. rewrite ord2ymd_unfold. cbv zeta.
  pose proof (Z.div_mod (n - 1) 146097 ltac:(lia)) as E1.
  pose proof (Z.mod_pos_bound (n - 1) 146097 ltac:(lia)) as B1.
  set (a := (n - 1) / 146097) in *. set (r := (n - 1) mod 146097) in *.
  pose proof (Z.div_mod r 36524 ltac:(lia)) as E2.
  pose proof (Z.mod_pos_bound r 36524 ltac:(lia)) as B2.
  set (b := r / 36524) in *. set (r1 := r mod 36524) in *.
  pose proof (Z.div_mod r1 1461 ltac:(lia)) as E3.
  pose proof (Z.mod_pos_bound r1 1461 ltac:(lia)) as B3.
  set (c := r1 / 1461) in *. set (r2 := r1 mod 1461) in *.
  pose proof (Z.div_mod r2 365 ltac:(lia)) as E4.
  pose proof (Z.mod_pos_bound r2 365 ltac:(lia)) as B4.
  set (e := r2 / 365) in *. set (d := r2 mod 365) in *.
  clearbody a r b r1 c r2 e d.
  assert (Ha : 0 <= a <= 24) by lia.
  assert (Hb : 0 <= b <= 4) by lia.
  assert (Hc : 0 <= c <= 24) by lia.
  assert (He : 0 <= e <= 4) by lia.
  destruct (Z.eqb_spec e 4) as [E|Ne]; [|destruct (Z.eqb_spec b 4) as [E|Nb]];
    cbn [orb].
  - (* the last day of a leap year that is no century *)
    assert (d = 0) by lia. assert (c <= 23) by lia. assert (b <= 3) by lia.
    subst e d.
    replace (a * 400 + 1 + b * 100 + c * 4 + 4 - 1)
      with (a * 400 + 1 + b * 100 + c * 4 + 3) by lia.
    pose proof (is_leap_decomposed a b c 3 ltac:(lia) ltac:(lia) ltac:(lia) ltac:(lia))
      as Hl.
    pose proof (days_before_year_decomposed a b c 3
                  ltac:(lia) ltac:(lia) ltac:(lia) ltac:(lia)) as Hd.
    set (y := a * 400 + 1 + b * 100 + c * 4 + 3) in *.
    assert (Hleap : is_leap y = true).
    { rewrite Hl. change (3 =? 3) with true. cbn [andb].
      destruct (Z.eqb_spec c 24); [lia|reflexivity]. }
    split.
    + unfold valid_date. cbn [year month day]. unfold days_in_month.
      change (12 =? 2) with false. cbn [andb].
      change (nth (Z.to_nat (12 - 1)) DAYS_IN_MONTH 0) with 31. lia.
    + unfold toordinal. cbn [year month day]. unfold days_before_month.
      rewrite Hleap, Hd.
      change (fold_right Z.add 0 (firstn (Z.to_nat (12 - 1)) DAYS_IN_MONTH)) with 334.
      change (2 <? 12) with true. cbn [andb]. lia.
  - (* the last day of a year that is a multiple of 400 *)
    assert (r1 = 0) by lia. assert (c = 0) by lia. assert (r2 = 0) by lia.
    assert (e = 0) by lia. assert (d = 0) by lia. subst.
    replace (a * 400 + 1 + 4 * 100 + 0 * 4 + 0 - 1)
      with ((a + 1) * 400 + 1 + 0 * 100 + 0 * 4 + 0 - 1) by lia.
    assert (Hy : (a + 1) * 400 + 1 + 0 * 100 + 0 * 4 + 0 - 1
                 = a * 400 + 1 + 3 * 100 + 24 * 4 + 3) by lia.
    rewrite Hy.
    pose proof (is_leap_decomposed a 3 24 3 ltac:(lia) ltac:(lia) ltac:(lia) ltac:(lia))
      as Hl.
    pose proof (days_before_year_decomposed a 3 24 3
                  ltac:(lia) ltac:(lia) ltac:(lia) ltac:(lia)) as Hd.
    set (y := a * 400 + 1 + 3 * 100 + 24 * 4 + 3) in *.
    assert (Hleap : is_leap y = true) by (rewrite Hl; reflexivity).
    split.
    + unfold valid_date. cbn [year month day]. unfold days_in_month.
      change (12 =? 2) with false. cbn [andb].
      change (nth (Z.to_nat (12 - 1)) DAYS_IN_MONTH 0) with 31. lia.
    + unfold toordinal. cbn [year month day]. unfold days_before_month.
      rewrite Hleap, Hd.
      change (fold_right Z.add 0 (firstn (Z.to_nat (12 - 1)) DAYS_IN_MONTH)) with 334.
      change (2 <? 12) with true. cbn [andb]. lia.
  - pose proof (is_leap_decomposed a b c e ltac:(lia) ltac:(lia) ltac:(lia) ltac:(lia))
      as Hl.
    pose proof (days_before_year_decomposed a b c e
                  ltac:(lia) ltac:(lia) ltac:(lia) ltac:(lia)) as Hd.
    assert (Hy : 1 <= a * 400 + 1 + b * 100 + c * 4 + e <= 9999) by lia.
    set (y := a * 400 + 1 + b * 100 + c * 4 + e) in *.
    set (leapyear := (e =? 3) && (negb (c =? 24) || (b =? 3))) in *.
    pose proof (month_of_ok leapyear d B4) as [Hm Hday].
    split.
    + unfold valid_date. cbn [year month day]. unfold days_in_month.
      rewrite Hl. split; [exact Hy|]. split; [exact Hm|]. exact Hday.
    + unfold toordinal. cbn [year month day].
      change (days_before_month y (month_of leapyear d))
        with (days_before (is_leap y) (month_of leapyear d)).
      rewrite Hl, Hd. lia.
Qed.

Lemma toordinal_bounds (t : date) : valid_date t -> 1 <= toordinal t <= 3652059.
Proof.
  intros (Hy & Hm & Hd). unfold toordinal.
  pose proof (days_before_month_bounds (year t) (month t) Hm) as [H0 H1].
  pose proof (days_before_year_mono 1 (year t) ltac:(lia)) as Hlo.
  pose proof (days_before_year_mono (year t + 1) 10000 ltac:(lia)) as Hhi.
  rewrite days_before_year_succ in Hhi.
  change (days_before_year 1) with 0 in Hlo.
  change (days_before_year 10000) with 3652059 in Hhi.
  lia.
Qed.

(** X22: the window of the third request.  For a target date from
    0001-01-31 to 9999-12-01 the fetch raises nothing of its own: it asks for
    the arrivals from the date thirty days before the target date up to it
    and the departures from it up to the date thirty days after, both dates
    of the calendar, and combines the three answers. *)
Theorem fetch_window (client : booking_client) (t : date) :
  valid_date t ->
  ~ date_lt t (mk_date 1 1 31) ->
  ~ date_lt (mk_date 9999 12 1) t ->
  exists start_date end_date,
    date_add_days t (-30) = OK start_date
    /\ date_add_days t 30 = OK end_date
    /\ valid_date start_date /\ valid_date end_date
    /\ toordinal t - toordinal start_date = 30
    /\ toordinal end_date - toordinal t = 30
    /\ date_lt start_date t /\ date_lt t end_date
    /\ fetch_all_relevant_bookings client t
       = combine_bookings
           (client (mk_query (Some "arrivals") (Some t) (Some t) None None)).1
           (client (mk_query (Some "departures") None None (Some t) (Some t))).1
           (client (mk_query None (Some start_date) (Some t) (Some t)
                      (Some end_date))).1.
Proof.
  intros Vt Hlo Hhi.
  assert (V1 : valid_date (mk_date 1 1 31)).
  { unfold valid_date. cbn [year month day]. repeat split; apply Z.leb_le; reflexivity. }
  assert (V2 : valid_date (mk_date 9999 12 1)).
  { unfold valid_date. cbn [year month day]. repeat split; apply Z.leb_le; reflexivity. }
  pose proof (toordinal_order t (mk_date 1 1 31) Vt V1) as [L1 _].
  pose proof (toordinal_order (mk_date 9999 12 1) t V2 Vt) as [L2 _].
  change (toordinal (mk_date 1 1 31)) with 31 in L1.
  change (toordinal (mk_date 9999 12 1)) with 3652029 in L2.
  assert (Hrange : 31 <= toordinal t <= 3652029).
  { split.
    - destruct (Z.lt_ge_cases (toordinal t) 31) as [H|H]; [|lia].
      now apply L1 in H.
    - destruct (Z.lt_ge_cases 3652029 (toordinal t)) as [H|H]; [|lia].
      now apply L2 in H. }
  destruct (ord2ymd_toordinal (toordinal t + -30) ltac:(lia)) as [Vs Os].
  destruct (ord2ymd_toordinal (toordinal t + 30) ltac:(lia)) as [Ve Oe].
  assert (Es : date_add_days t (-30) = OK (ord2ymd (toordinal t + -30))).
  { unfold date_add_days.
    destruct (Z.leb_spec 1 (toordinal t + -30)); [|lia].
    destruct (Z.leb_spec (toordinal t + -30) 3652059); [|lia]. reflexivity. }
  assert (Ee : date_add_days t 30 = OK (ord2ymd (toordinal t + 30))).
  { unfold date_add_days.
    destruct (Z.leb_spec 1 (toordinal t + 30)); [|lia].
    destruct (Z.leb_spec (toordinal t + 30) 3652059); [|lia]. reflexivity. }
  exists (ord2ymd (toordinal t + -30)), (ord2ymd (toordinal t + 30)).
  split; [exact Es|]. split; [exact Ee|].
  split; [exact Vs|]. split; [exact Ve|].
  split; [lia|]. split; [lia|].
  split; [apply (toordinal_order _ _ Vs Vt); lia|].
  split; [apply (toordinal_order _ _ Vt Ve); lia|].
  apply fetch_is_combine; assumption.
Qed.

Lemma fetch_window_sample :
  exists start_date end_date,
    date_add_days (mk_date 2024 5 17) (-30) = OK start_date
    /\ date_add_days (mk_date 2024 5 17) 30 = OK end_date
    /\ valid_date start_date /\ valid_date end_date
    /\ toordinal (mk_date 2024 5 17) - toordinal start_date = 30
    /\ toordinal end_date - toordinal (mk_date 2024 5 17) = 30
    /\ date_lt start_date (mk_date 2024 5 17) /\ date_lt (mk_date 2024 5 17) end_date
    /\ fetch_all_relevant_bookings (fun _ => (sample_departures, "Success"))
         (mk_date 2024 5 17)
       = combine_bookings
           ((fun _ : query => (sample_departures, "Success"))
              (mk_query (Some "arrivals") (Some (mk_date 2024 5 17))
                 (Some (mk_date 2024 5 17)) None None)).1
           ((fun _ : query => (sample_departures, "Success"))
              (mk_query (Some "departures") None None (Some (mk_date 2024 5 17))
                 (Some (mk_date 2024 5 17)))).1
           ((fun _ : query => (sample_departures, "Success"))
              (mk_query None (Some start_date) (Some (mk_date 2024 5 17))
                 (Some (mk_date 2024 5 17)) (Some end_date))).1.
Proof.
  apply (fetch_window (fun _ => (sample_departures, "Success")) (mk_date 2024 5 17)).
  - unfold valid_date. cbn [year month day].
    repeat split; apply Z.leb_le; reflexivity.
  - unfold date_lt. cbn [year month day]. lia.
  - unfold date_lt. cbn [year month day]. lia.
Defined.

(** ** Rows of the tables *)

Lemma text_nil (l : list ascii) : text l = "" <-> l = [].
Proof. destruct l; cbn; split; congruence. Qed.

Lemma lstrip_nil (sp : ascii -> bool) (l : list ascii) :
  lstrip sp l = [] <-> forallb sp l = true.
Proof.
  induction l as [|c l IH]; cbn; [tauto|].
  destruct (sp c); cbn; [exact IH|]. split; discriminate.
Qed.

Lemma strip_by_empty (sp : ascii -> bool) (s : string) :
  strip_by sp s = "" <-> forallb sp (chars s) = true.
Proof.
  unfold strip_by. rewrite text_nil. split.
  - intros H. apply (f_equal (@rev ascii)) in H. rewrite rev_involutive in H.
    cbn in H. apply lstrip_nil in H.
    destruct (lstrip sp (chars s)) as [|c l] eqn:E; [now apply lstrip_nil|].
    exfalso. apply lstrip_head in E.
    rewrite forallb_forall in H. specialize (H c).
    rewrite H in E; [discriminate|]. apply in_rev. rewrite rev_involutive. now left.
  - intros H. apply lstrip_nil in H. rewrite H. reflexivity.
Qed.

(** X23: the rows show the dates that were parsed.  For a reservation that
    [parse_booking_data] returned, the check-in and check-out cells of a row
    are the formatted check-in and check-out dates (day of the week, day,
    month): the raw text that the rows fall back on is never shown. *)
Theorem parsed_row_dates (day_name : Z -> string) (booking : record) (r : Reservation) :
  parse_booking_data booking = OK r ->
  date_fmt day_name (checkin r)
  = VStr (day_name (weekday (checkin_date r)) +:+ " " +:+ two_digits (day (checkin_date r))
          +:+ "." +:+ two_digits (month (checkin_date r)))
  /\ date_fmt day_name (checkout r)
     = VStr (day_name (weekday (checkout_date r)) +:+ " "
             +:+ two_digits (day (checkout_date r))
             +:+ "." +:+ two_digits (month (checkout_date r))).
Proof.
  intros H. apply parse_booking_data_inv in H
    as (label & arr & dep & _ & Ha & Hd & ->).
  cbn [checkin checkout checkin_date checkout_date]. unfold date_fmt.
  rewrite Ha, Hd. split; reflexivity.
Qed.

Lemma parsed_row_dates_sample :
  exists r,
    parse_booking_data sample_booking = OK r
    /\ date_fmt sample_day_name (checkin r) = VStr "Fri 17.05"
    /\ date_fmt sample_day_name (checkout r) = VStr "Sun 19.05".
Proof.
  eexists. split; [vm_compute; reflexivity|].
  match goal with
  | |- date_fmt _ (checkin ?r) = _ /\ _ =>
      destruct (parsed_row_dates sample_day_name sample_booking r) as [H1 H2]
  end.
  - vm_compute. reflexivity.
  - rewrite H1, H2. split; vm_compute; reflexivity.
Defined.

(** X24: who is shown as having no name.  For a reservation that
    [parse_booking_data] returned, the guest cell of its row is [No Name]
    exactly when the two names of the record, joined, are white space only
    (both absent or empty, say); otherwise it is the trimmed name. *)
Theorem parsed_row_no_name (booking : record) (r : Reservation) :
  parse_booking_data booking = OK r ->
  let names := py_str (dict_get booking "lastName" (VStr "")) +:+ " "
               +:+ py_str (dict_get booking "firstName" (VStr "")) in
  (forallb is_space (chars names) = true -> guest_cell r = VStr "No Name")
  /\ (forallb is_space (chars names) = false ->
      guest_cell r = VStr (strip names) /\ strip names <> "").
Proof.
  intros H. apply parse_booking_data_inv in H as (label & arr & dep & _ & _ & _ & ->).
  cbv zeta. unfold guest_cell. cbn [guest_name]. unfold py_or, strip. cbn [truthy].
  set (names := py_str (dict_get booking "lastName" (VStr "")) +:+ " "
                +:+ py_str (dict_get booking "firstName" (VStr ""))).
  pose proof (strip_by_empty is_space names) as E.
  split; intros Hs.
  - rewrite (proj2 E Hs). reflexivity.
  - assert (N : strip_by is_space names <> "").
    { intros X. apply E in X. congruence. }
    split; [|exact N].
    destruct (String.eqb_spec (strip_by is_space names) ""); [contradiction|].
    reflexivity.
Qed.

Lemma parsed_row_no_name_sample :
  exists r,
    parse_booking_data sample_booking = OK r
    /\ guest_cell r = VStr "No Name".
Proof.
  eexists. split; [vm_compute; reflexivity|].
  match goal with
  | |- guest_cell ?r = _ =>
      destruct (parsed_row_no_name sample_booking r) as [H _]
  end.
  - vm_compute. reflexivity.
  - apply H. vm_compute. reflexivity.
Defined.

Lemma sum_from_ok_all (l : list value) :
  forall acc, is_ok (sum_from acc l) = true -> Forall (fun v => is_ok (py_add 0 v) = true) l.
Proof.
  induction l as [|v l IH]; intros acc H; [constructor|]. cbn in H.
  destruct (py_add acc v) as [acc'|] eqn:E; [|discriminate]. cbn [bind] in H.
  constructor; [|eapply IH, H]. destruct v; cbn in E |- *; congruence.
Qed.

Lemma guests_str_ok (r : Reservation) :
  is_ok (py_add 0 (children r)) = true -> is_ok (guests_str r) = true.
Proof.
  unfold guests_str. destruct (children r); cbn; congruence.
Qed.

Lemma cleaning_rows_ok (day_name : Z -> string) (l : list Reservation) :
  Forall (fun r => is_ok (py_add 0 (children r)) = true) l ->
  exists rows,
    cleaning_rows day_name l = OK rows
    /\ Forall2 (fun r row => cleaning_row day_name r = OK row
                             /\ hd VNone row = VStr (room_name r)) l rows.
Proof.
  induction 1 as [|r l Hr _ [rows [IH Hrows]]]; cbn [cleaning_rows].
  - exists []. split; [reflexivity|constructor].
  - apply guests_str_ok in Hr. unfold cleaning_row at 1.
    destruct (guests_str r) as [g|] eqn:Eg; [|discriminate]. cbn [bind].
    rewrite IH. cbn [bind]. eexists. split; [reflexivity|].
    constructor; [|exact Hrows]. unfold cleaning_row. rewrite Eg. cbn [bind].
    split; reflexivity.
Qed.

(** X25: when the heading of a section can be made, so can its cleaning
    table.  If [guest_str] of a list of reservations does not raise, neither
    does [create_cleaning_table] for the list: with no reservation its data
    are the one line that says so, otherwise the headers and one row for
    each reservation, in the order of the list, each beginning with the room
    label of its reservation. *)
Theorem heading_then_cleaning_table (day_name : Z -> string)
    (reslist : list Reservation) :
  is_ok (guest_str reslist) = true ->
  exists data,
    create_cleaning_table day_name reslist = OK data
    /\ match reslist with
       | [] => data = [[VStr "No reservations for this category"]]
       | _ :: _ =>
           exists rows,
             data = map VStr ["Room"; "Guests"; "Nights"; "Check-In"; "Check-Out"]
                    :: rows
             /\ Forall2 (fun r row => cleaning_row day_name r = OK row
                                      /\ hd VNone row = VStr (room_name r))
                  reslist rows
       end.
Proof.
  intros H. unfold guest_str, py_sum in H.
  destruct (sum_from 0 (map adults reslist)) as [total_a|]; [|discriminate].
  cbn [bind] in H.
  destruct (sum_from 0 (map children reslist)) as [total_c|] eqn:Ec; [|discriminate].
  assert (Hc : Forall (fun r => is_ok (py_add 0 (children r)) = true) reslist).
  { pose proof (sum_from_ok_all (map children reslist) 0) as Hall.
    rewrite Ec in Hall. specialize (Hall eq_refl).
    rewrite List.Forall_forall in Hall. apply List.Forall_forall. intros r Hr.
    apply Hall. now apply in_map. }
  destruct (cleaning_rows_ok day_name _ Hc) as (rows & E & Hrows).
  unfold create_cleaning_table. destruct reslist as [|r l].
  - eexists. split; reflexivity.
  - rewrite E. cbn [bind]. eexists. split; [reflexivity|].
    exists rows. split; [reflexivity | exact Hrows].
Qed.

Lemma heading_then_cleaning_table_sample :
  exists data,
    create_cleaning_table sample_day_name [res_2; res_101] = OK data
    /\ exists rows,
         data = map VStr ["Room"; "Guests"; "Nights"; "Check-In"; "Check-Out"] :: rows
         /\ Forall2 (fun r row => cleaning_row sample_day_name r = OK row
                                  /\ hd VNone row = VStr (room_name r))
              [res_2; res_101] rows.
Proof.
  apply (heading_then_cleaning_table sample_day_name [res_2; res_101]). reflexivity.
Defined.
